(** * Deck-to-video rendering pipeline ([src/utils/video_converter.py])

    A shallow embedding of the slide rasteriser ([create_slide_clip]), the
    transition engine ([apply_transition_effect]), the per-deck loop
    ([convert_pptx_to_video]) and the pipeline entry point
    ([convert_to_video]), followed by the properties of the design document
    that were checked against it.

    Conventions.
    - Python integers are [Z]; Python floats are IEEE-754 binary64 values,
      modelled by Rocq's primitive [float].
    - An exception is a value of [exn]; code that may raise returns
      [result A]; code that also mutates local variables or the file system
      lives in the state-and-exception monad [M S].
    - An attribute that the source probes with [hasattr] has type [attr A]
      ([None] when the object lacks it).
    - A Python [str] is held as the bytes of its UTF-8 encoding, which is
      also how a string literal of this file is read; a character outside
      ASCII is the two or three bytes that encode it.
    - PIL images and moviepy clips are kept as the terms of the library calls
      that build them, in call order. *)

From Stdlib Require Import ZArith List String Ascii Bool Lia Floats DecimalString.
Import ListNotations.
Open Scope Z_scope.

(* ===================================================================== *)
(** * Python runtime *)
(* ===================================================================== *)

Inductive exn_class :=
| RuntimeError | ValueError | FileNotFoundError | NameError
| UnboundLocalError | AttributeError | TypeError | ZeroDivisionError
| OverflowError | IndexError | OSError | UnidentifiedImageError.

(** An exception object: its class and [str(e)]. *)
Record exn := mk_exn { exn_type : exn_class; exn_str : string }.

Inductive result (A : Type) :=
| Ok (a : A)
| Raise (e : exn).
Arguments Ok {A} a.
Arguments Raise {A} e.

Definition rbind {A B} (r : result A) (k : A -> result B) : result B :=
  match r with
  | Ok a => k a
  | Raise e => Raise e
  end.

Notation "x <-? c ; k" := (rbind c (fun x => k))
  (at level 61, c at next level, right associativity).

(** [hasattr(obj, name)] is [true] exactly on [Some]. *)
Definition attr (A : Type) := option A.

Definition hasattr {A} (a : attr A) : bool :=
  match a with Some _ => true | None => false end.

(** ** State and exceptions *)

Definition M (S A : Type) := S -> result A * S.

Definition ret {S A} (a : A) : M S A := fun s => (Ok a, s).

Definition bind {S A B} (c : M S A) (k : A -> M S B) : M S B :=
  fun s => match c s with
           | (Ok a, s') => k a s'
           | (Raise e, s') => (Raise e, s')
           end.

Definition raise {S A} (e : exn) : M S A := fun s => (Raise e, s).

Definition lift {S A} (r : result A) : M S A := fun s => (r, s).

Definition get {S} : M S S := fun s => (Ok s, s).

Definition modify {S} (f : S -> S) : M S unit := fun s => (Ok tt, f s).

(** [try: c  except Exception as e: h e].  The handler runs in the state the
    body had reached when it raised. *)
Definition try_except {S A} (c : M S A) (h : exn -> M S A) : M S A :=
  fun s => match c s with
           | (Ok a, s') => (Ok a, s')
           | (Raise e, s') => h e s'
           end.

Notation "x <- c ;; k" := (bind c (fun x => k))
  (at level 61, c at next level, right associativity).
Notation "c ;; k" := (bind c (fun _ => k))
  (at level 61, right associativity).

(** [for x in xs: body x] *)
Fixpoint for_each {S A} (xs : list A) (body : A -> M S unit) : M S unit :=
  match xs with
  | [] => ret tt
  | x :: xs' => body x ;; for_each xs' body
  end.

(** ** Floats *)

(** The binary64 value nearest to the integer [z] (ties to even). *)
Definition float_of_int (z : Z) : float :=
  SF2Prim (binary_normalize prec emax z 0 false).

(** An int where the other operand is a float ([x * n], [n / 1000.0]): the
    nearest binary64 value; an int too large for a float raises. *)
Definition py_float (z : Z) : result float :=
  match binary_normalize prec emax z 0 false with
  | S754_infinity _ =>
      Raise (mk_exn OverflowError "int too large to convert to float")
  | _ => Ok (float_of_int z)
  end.

(** An int as the operand of an exact division: its sign and magnitude,
    with exponent zero and a mantissa of any width. *)
Definition int_operand (z : Z) : spec_float :=
  match z with
  | Z0 => S754_zero false
  | Zpos p => S754_finite false p 0
  | Zneg p => S754_finite true p 0
  end.

(** [a / b] on two ints (true division): the exact quotient of the two
    integers, whatever their size, rounded once to the nearest binary64
    value (ties to even); a quotient too large for a float raises. *)
Definition truediv (a b : Z) : result float :=
  if b =? 0
  then Raise (mk_exn ZeroDivisionError "division by zero")
  else match SFdiv prec emax (int_operand a) (int_operand b) with
       | S754_infinity _ =>
           Raise (mk_exn OverflowError
                    "integer division result too large for a float")
       | q => Ok (SF2Prim q)
       end.

(** [int(f)]: truncation toward zero. *)
Definition py_int (f : float) : result Z :=
  match Prim2SF f with
  | S754_zero _ => Ok 0
  | S754_finite s m e =>
      let v := match e with
               | Zneg k => Z.shiftr (Zpos m) (Zpos k)
               | _ => Z.shiftl (Zpos m) e
               end in
      Ok (if s then - v else v)
  | S754_infinity _ =>
      Raise (mk_exn OverflowError "cannot convert float infinity to integer")
  | S754_nan =>
      Raise (mk_exn ValueError "cannot convert float NaN to integer")
  end.

(** [max(a, b)] on floats: [b] wins only when strictly greater. *)
Definition float_max (a b : float) : float :=
  if (a <? b)%float then b else a.

(** ** Strings *)

(** The characters [str.isspace] accepts, by the bytes that encode them:
    U+0009 to U+000D and U+001C to U+0020 (one byte); U+0085 and U+00A0 (two
    bytes); U+1680, U+2000 to U+200A, U+2028, U+2029, U+202F, U+205F and
    U+3000 (three bytes). *)
Definition is_space1 (a : nat) : bool :=
  (((9 <=? a) && (a <=? 13)) || ((28 <=? a) && (a <=? 32)))%nat.

Definition is_space2 (a b : nat) : bool :=
  ((a =? 194) && ((b =? 133) || (b =? 160)))%nat.

Definition is_space3 (a b c : nat) : bool :=
  (((a =? 225) && (b =? 154) && (c =? 128))
   || ((a =? 226) && (b =? 128)
       && (((128 <=? c) && (c <=? 138))
           || (c =? 168) || (c =? 169) || (c =? 175)))
   || ((a =? 226) && (b =? 129) && (c =? 159))
   || ((a =? 227) && (b =? 128) && (c =? 128)))%nat.

(** [s.lstrip()] on the bytes of [s], first byte first. *)
Fixpoint lstrip_bytes (l : list nat) : list nat :=
  match l with
  | a :: l1 =>
      if is_space1 a then lstrip_bytes l1
      else
        match l1 with
        | b :: l2 =>
            if is_space2 a b then lstrip_bytes l2
            else
              match l2 with
              | c :: l3 => if is_space3 a b c then lstrip_bytes l3 else l
              | [] => l
              end
        | [] => l
        end
  | [] => []
  end.

(** [s.rstrip()] on the bytes of [s], last byte first.  The last byte of an
    encoded character never starts another one, so a whitespace encoding at
    the end of the bytes is a whitespace character at the end of [s]. *)
Fixpoint rstrip_bytes (l : list nat) : list nat :=
  match l with
  | c :: l1 =>
      if is_space1 c then rstrip_bytes l1
      else
        match l1 with
        | b :: l2 =>
            if is_space2 b c then rstrip_bytes l2
            else
              match l2 with
              | a :: l3 => if is_space3 a b c then rstrip_bytes l3 else l
              | [] => l
              end
        | [] => l
        end
  | [] => []
  end.

(** [s.strip()] *)
Definition strip (s : string) : string :=
  string_of_list_ascii
    (map ascii_of_nat
       (rev (rstrip_bytes
               (rev (lstrip_bytes
                       (map nat_of_ascii (list_ascii_of_string s))))))).

Definition lower_char (c : ascii) : ascii :=
  let n := nat_of_ascii c in
  if ((65 <=? n) && (n <=? 90))%nat then ascii_of_nat (n + 32) else c.

(** [s.lower()] on the ASCII letters.  Its one use looks for an ASCII word
    in the result, which the lower-casing of other characters can neither
    produce nor break. *)
Fixpoint lower (s : string) : string :=
  match s with
  | EmptyString => EmptyString
  | String c s' => String (lower_char c) (lower s')
  end.

(** [sub in s] *)
Fixpoint contains (sub s : string) : bool :=
  if prefix sub s then true
  else match s with
       | EmptyString => false
       | String _ s' => contains sub s'
       end.

(** [str(n)] for an int. *)
Definition str_of_int (n : Z) : string := NilZero.string_of_int (Z.to_int n).

(** [l[i]] *)
Definition py_index {A} (l : list A) (i : Z) : result A :=
  let j := if i <? 0 then i + Z.of_nat (List.length l) else i in
  match (if j <? 0 then None else nth_error l (Z.to_nat j)) with
  | Some a => Ok a
  | None => Raise (mk_exn IndexError "list index out of range")
  end.

(* ===================================================================== *)
(** * Pillow: images as the terms that build them *)
(* ===================================================================== *)

Definition rgb := (Z * Z * Z)%type.
Definition rgba := (Z * Z * Z * Z)%type.
Definition bytes := list Byte.byte.

Inductive image_mode := RGB | RGBA.

Inductive font :=
| TrueType (path : string) (size : Z)
| DefaultFont.

Inductive image :=
| Image_new (mode : image_mode) (size : Z * Z) (color : rgba)
| Frame_of (blob : bytes) (index : nat)
| Resize (im : image) (size : Z * Z)
| Convert (im : image) (mode : image_mode)
| Draw_rectangle (im : image) (box : Z * Z * Z * Z) (fill : rgba)
                 (outline : option rgba)
| Draw_text (im : image) (xy : Z * Z) (text : string) (fnt : font)
            (fill : rgba)
| Paste (im : image) (src : image) (xy : Z * Z).

(** What [Image.open] reports about a decodable byte string. *)
Record PilImage := {
  pil_format : string;
  pil_is_animated : bool;
  pil_mode : string;
  (** one entry per frame: [frame.info.get('duration')] *)
  pil_frames : list (option Z)
}.

(** The part of Pillow that depends on the machine and on the codecs. *)
Record Pillow := {
  (** [Image.open(BytesIO(blob))]; [None] when the bytes do not decode *)
  Image_open : bytes -> option PilImage;
  (** whether [ImageFont.truetype(path, size)] loads *)
  truetype_loads : string -> Z -> bool
}.

Definition white : rgba := (255, 255, 255, 255).
Definition transparent : rgba := (0, 0, 0, 0).
Definition opaque (c : rgb) : rgba := let '(r, g, b) := c in (r, g, b, 255).

(** [im.resize((w, h), LANCZOS)] rejects an empty target. *)
Definition resize (im : image) (size : Z * Z) : result image :=
  if (fst size <=? 0) || (snd size <=? 0)
  then Raise (mk_exn ValueError "height and width must be > 0")
  else Ok (Resize im size).

Definition dejavu : string := "/usr/share/fonts/truetype/dejavu/DejaVuSans.ttf".

(** [try: ImageFont.truetype(dejavu, size)  except: ImageFont.load_default()] *)
Definition load_font (pil : Pillow) (size : Z) : font :=
  if truetype_loads pil dejavu size then TrueType dejavu size else DefaultFont.

Fixpoint image_size (im : image) : option (Z * Z) :=
  match im with
  | Image_new _ sz _ => Some sz
  | Frame_of _ _ => None
  | Resize _ sz => Some sz
  | Convert im' _ => image_size im'
  | Draw_rectangle im' _ _ _ => image_size im'
  | Draw_text im' _ _ _ _ => image_size im'
  | Paste im' _ _ => image_size im'
  end.

(* ===================================================================== *)
(** * moviepy: clips as the terms that build them *)
(* ===================================================================== *)

Inductive position :=
| At (x y : Z)
  (** [lambda t: (max(0, int(w * (t / duration - 1))), 0)] *)
| Slide_from_left (w : Z) (duration : float)
  (** [lambda t: (min(0, int(w * (1 - t / duration))), 0)] *)
| Slide_from_right (w : Z) (duration : float).

#[local] Set Warnings "-register-all".
Inductive clip :=
| ImageClip (frame : image)
| ColorClip (size : option (Z * Z)) (col : rgb)
| ImageSequenceClip (frames : list image) (durations : list float)
| CompositeVideoClip (layers : list clip) (size : option (Z * Z))
| concatenate_videoclips (segments : list clip)
| set_duration (c : clip) (d : option float)
| set_position (c : clip) (p : position)
| fadein (c : clip) (d : float)
| fadeout (c : clip) (d : float)
  (** [clip.resize(lambda t: 1 + 0.1 * t / duration)] *)
| resize_zoom (c : clip) (duration : float).

(** [sum(ds)] *)
Definition float_sum (ds : list float) : float :=
  fold_left PrimFloat.add ds 0%float.

(** [max(ends)] when no end is [None]. *)
Definition max_end (ends : list (option float)) : option float :=
  match ends with
  | [] => None
  | e :: es =>
      fold_left (fun acc x =>
                   match acc, x with
                   | Some a, Some b => Some (float_max a b)
                   | _, _ => None
                   end) es e
  end.

Definition sum_durations (ds : list (option float)) : option float :=
  fold_left (fun acc x =>
               match acc, x with
               | Some a, Some b => Some (a + b)%float
               | _, _ => None
               end) ds (Some 0%float).

(** [clip.duration] *)
Fixpoint clip_duration (c : clip) : option float :=
  match c with
  | ImageClip _ => None
  | ColorClip _ _ => None
  | ImageSequenceClip _ ds => Some (float_sum ds)
  | CompositeVideoClip layers _ => max_end (map clip_duration layers)
  | concatenate_videoclips segs => sum_durations (map clip_duration segs)
  | set_duration _ d => d
  | set_position c' _ => clip_duration c'
  | fadein c' _ => clip_duration c'
  | fadeout c' _ => clip_duration c'
  | resize_zoom c' _ => clip_duration c'
  end.

(** [clip.size] *)
Fixpoint clip_size (c : clip) : option (Z * Z) :=
  match c with
  | ImageClip im => image_size im
  | ColorClip sz _ => sz
  | ImageSequenceClip frames _ =>
      match frames with f :: _ => image_size f | [] => None end
  | CompositeVideoClip layers sz =>
      match sz with
      | Some _ => sz
      | None => match layers with l :: _ => clip_size l | [] => None end
      end
  | concatenate_videoclips segs =>
      match segs with s :: _ => clip_size s | [] => None end
  | set_duration c' _ => clip_size c'
  | set_position c' _ => clip_size c'
  | fadein c' _ => clip_size c'
  | fadeout c' _ => clip_size c'
  | resize_zoom c' _ => clip_size c'
  end.

(** [ImageSequenceClip(frames, durations=durations)] needs a first frame. *)
Definition mk_ImageSequenceClip (frames : list image) (durations : list float)
  : result clip :=
  match frames with
  | [] => Raise (mk_exn IndexError "list index out of range")
  | _ => Ok (ImageSequenceClip frames durations)
  end.

(* ===================================================================== *)
(** * python-pptx: the deck object model as the source reads it *)
(* ===================================================================== *)

Module MSO_FILL_TYPE.
Inductive t :=
| BACKGROUND | GRADIENT | GROUP | PATTERNED | PICTURE | SOLID | TEXTURED.

Definition eqb (a b : t) : bool :=
  match a, b with
  | BACKGROUND, BACKGROUND | GRADIENT, GRADIENT | GROUP, GROUP
  | PATTERNED, PATTERNED | PICTURE, PICTURE | SOLID, SOLID
  | TEXTURED, TEXTURED => true
  | _, _ => false
  end.
End MSO_FILL_TYPE.

Module MSO_SHAPE_TYPE.
Inductive t :=
| AUTO_SHAPE | CHART | FREEFORM | GROUP | LINE | MEDIA | PICTURE
| PLACEHOLDER | TABLE | TEXT_BOX.

Definition is_picture (a : option t) : bool :=
  match a with Some PICTURE => true | _ => false end.

Definition is_table (a : option t) : bool :=
  match a with Some TABLE => true | _ => false end.
End MSO_SHAPE_TYPE.

Module MSO_THEME_COLOR_INDEX.
Definition NOT_THEME_COLOR : Z := 0.
End MSO_THEME_COLOR_INDEX.

Record FillFormat := {
  (** [fill.type]; [None] when the fill is not set *)
  fill_type : option MSO_FILL_TYPE.t;
  (** [fill.fore_color.rgb]; absent for a theme colour *)
  fore_color_rgb : attr rgb;
  (** [fill.back_color.rgb] *)
  back_color_rgb : attr rgb;
  (** [fill.picture.image.blob] *)
  picture_blob : attr bytes
}.

Record FontColor := {
  (** [color.type] as the integer it compares as *)
  color_type : option Z;
  color_rgb : option rgb
}.

Record Run := {
  run_text : string;
  (** [run.font.size], a length in EMU, or [None] *)
  run_font_size : option Z;
  (** [run.font.color] *)
  run_font_color : attr FontColor
}.

Record Paragraph := { runs : list Run }.

Record TextFrame := { paragraphs : list Paragraph }.

Record Table := {
  (** the cell texts, row by row *)
  table_rows : list (list string);
  (** [len(table.columns)] *)
  table_columns : Z
}.

Record Shape := {
  shape_name : string;
  shape_type : option MSO_SHAPE_TYPE.t;
  shape_fill : attr FillFormat;
  (** position and size in EMU; the value may be [None] *)
  shape_left : attr (option Z);
  shape_top : attr (option Z);
  shape_width : attr (option Z);
  shape_height : attr (option Z);
  shape_text_frame : attr (option TextFrame);
  (** [shape.image.blob] *)
  shape_image : attr bytes;
  shape_table : attr Table
}.

Record Background := { background_fill : attr FillFormat }.

Record SlideMaster := { master_background : option Background }.

Record SlideLayout := {
  layout_background : option Background;
  slide_master : option SlideMaster
}.

Record Slide := {
  (** [slide.background], when present and truthy *)
  background : option Background;
  (** [slide.slide_layout]: the attribute may be missing, or be [None] *)
  slide_layout : attr (option SlideLayout);
  shapes : list Shape
}.

Record Presentation := {
  slides : list Slide;
  slide_width : Z;
  slide_height : Z
}.

(* ===================================================================== *)
(** * [get_font_color] *)
(* ===================================================================== *)

Definition black : rgba := (0, 0, 0, 255).

Definition get_font_color (run : Run) : rgba :=
  match run_font_color run with
  | Some color =>
      match color_type color with
      | Some ty =>
          if ty =? MSO_THEME_COLOR_INDEX.NOT_THEME_COLOR then
            match color_rgb color with
            | Some c => opaque c
            | None => black
            end
          else black
      | None => black
      end
  | None => black
  end.

(* ===================================================================== *)
(** * [create_slide_clip] *)
(* ===================================================================== *)

(** ** Native units to pixels *)

(** [shape.left if hasattr(shape, 'left') else default] *)
Definition attr_or (a : attr (option Z)) (default : Z) : option Z :=
  match a with
  | Some v => v
  | None => Some default
  end.

(** [int((v / total) * out)] *)
Definition emu_to_px (v : option Z) (total out : Z) : result Z :=
  match v with
  | None =>
      Raise (mk_exn TypeError
               "unsupported operand type(s) for /: 'NoneType' and 'int'")
  | Some v =>
      q <-? truediv v total ;
      o <-? py_float out ;
      py_int (q * o)%float
  end.

(** [a // b] *)
Definition floordiv (a b : Z) : result Z :=
  if b =? 0
  then Raise (mk_exn ZeroDivisionError "integer division or modulo by zero")
  else Ok (a / b).

(** ** Background *)

Definition fill_of (bg : option Background) : option FillFormat :=
  match bg with
  | Some b => background_fill b
  | None => None
  end.

(** Lines 125-147: slide, then layout, then master; the third probe reads
    [slide.slide_layout] without a guard. *)
Definition find_background_fill (slide : Slide) : result (option FillFormat) :=
  let from_slide := fill_of (background slide) in
  let from_layout :=
    match from_slide with
    | Some f => Some f
    | None =>
        match slide_layout slide with
        | Some (Some layout) => fill_of (layout_background layout)
        | _ => None
        end
    end in
  match from_layout with
  | Some f => Ok (Some f)
  | None =>
      match slide_layout slide with
      | None =>
          Raise (mk_exn AttributeError
                   "'Slide' object has no attribute 'slide_layout'")
      | Some None => Ok None
      | Some (Some layout) =>
          match slide_master layout with
          | Some master => Ok (fill_of (master_background master))
          | None => Ok None
          end
      end
  end.

(** Lines 169-181: the picture branch with its own handler. *)
Definition picture_background (pil : Pillow) (f : FillFormat)
           (width height : Z) (current : image) : image :=
  match picture_blob f with
  | None => current
  | Some blob =>
      match Image_open pil blob with
      | None => current
      | Some _ =>
          match resize (Frame_of blob 0) (width, height) with
          | Ok im => Convert im RGB
          | Raise _ => current
          end
      end
  end.

(** Lines 124 and 149-189.  No [create_gradient_background] is defined or
    imported anywhere in the repository, so the call at line 166 raises
    [NameError]. *)
Definition background_image_of (pil : Pillow) (fill : option FillFormat)
           (width height : Z) : result image :=
  let background_image := Image_new RGB (width, height) white in
  match fill with
  | None => Ok background_image
  | Some f =>
      match fill_type f with
      | Some MSO_FILL_TYPE.SOLID =>
          match fore_color_rgb f with
          | Some color => Ok (Image_new RGB (width, height) (opaque color))
          | None => Ok background_image
          end
      | Some MSO_FILL_TYPE.GRADIENT =>
          Raise (mk_exn NameError
                   "name 'create_gradient_background' is not defined")
      | Some MSO_FILL_TYPE.PICTURE =>
          Ok (picture_background pil f width height background_image)
      | _ => Ok (Image_new RGB (width, height) white)
      end
  end.

(** ** Local variables of [create_slide_clip] that outlive a raise *)

Record locals := {
  (** [None] until line 193 binds it *)
  background_clip : option clip;
  clips : list clip
}.

Definition unbound : locals := {| background_clip := None; clips := [] |}.

Definition clips_append (c : clip) : M locals unit :=
  modify (fun l => {| background_clip := background_clip l;
                      clips := clips l ++ [c] |}).

Section Rasteriser.

Variable pil : Pillow.
Variables width height : Z.
Variable duration : float.
Variables slide_width_emus slide_height_emus : Z.

Definition still (im : image) : clip :=
  set_duration (ImageClip im) (Some duration).

Definition blank_layer : image := Image_new RGBA (width, height) transparent.

(** ** Solid fill: lines 203-234 *)
Definition render_fill (shape : Shape) : M locals unit :=
  match shape_fill shape with
  | None => ret tt
  | Some fill =>
      match fill_type fill with
      | Some MSO_FILL_TYPE.SOLID =>
          let left := attr_or (shape_left shape) 0 in
          let top := attr_or (shape_top shape) 0 in
          let shape_width := attr_or (shape_width shape) width in
          let shape_height := attr_or (shape_height shape) height in
          x <- lift (emu_to_px left slide_width_emus width) ;;
          y <- lift (emu_to_px top slide_height_emus height) ;;
          w <- lift (emu_to_px shape_width slide_width_emus width) ;;
          h <- lift (emu_to_px shape_height slide_height_emus height) ;;
          color <- lift (match fore_color_rgb fill with
                         | Some c => Ok c
                         | None =>
                             Raise (mk_exn AttributeError
                                      "no .rgb property on color type")
                         end) ;;
          clips_append
            (still (Draw_rectangle blank_layer (x, y, x + w, y + h)
                      (opaque color) None))
      | _ => ret tt
      end
  end.

(** ** Text frame: lines 243-275 *)

(** Line 249: [run.font.size.pt if run.font.size else 24], outside the
    [try] of the font.  [Length.pt] is [self / float(12700)], the EMU count
    as a float over 12700.0; the default is kept as the float 24.0, whose
    [int] is the same 24. *)
Definition font_size_of (run : Run) : result float :=
  match run_font_size run with
  | Some emu =>
      if emu =? 0 then Ok 24%float
      else f <-? py_float emu ; Ok (f / 12700)%float
  | None => Ok 24%float
  end.

(** Lines 253-261: [int(font_size)] and [ImageFont.truetype] sit in one
    [try]; whatever raises there, the default font is used. *)
Definition font_of (font_size : float) : font :=
  match py_int font_size with
  | Ok size => load_font pil size
  | Raise _ => DefaultFont
  end.

Definition draw_run (shape : Shape) (im : image) (run : Run)
  : result image :=
  let text := strip (run_text run) in
  if String.eqb text "" then Ok im
  else
    font_size <-? font_size_of run ;
    let font_color := get_font_color run in
    let fnt := font_of font_size in
    let left := attr_or (shape_left shape) 0 in
    let top := attr_or (shape_top shape) 0 in
    x <-? emu_to_px left slide_width_emus width ;
    y <-? emu_to_px top slide_height_emus height ;
    Ok (Draw_text im (x, y) text fnt font_color).

Fixpoint draw_runs (shape : Shape) (im : image) (rs : list Run)
  : result image :=
  match rs with
  | [] => Ok im
  | r :: rs' => im' <-? draw_run shape im r ; draw_runs shape im' rs'
  end.

Fixpoint draw_paragraphs (shape : Shape) (im : image) (ps : list Paragraph)
  : result image :=
  match ps with
  | [] => Ok im
  | p :: ps' =>
      im' <-? draw_runs shape im (runs p) ; draw_paragraphs shape im' ps'
  end.

Definition render_text (shape : Shape) (tf : TextFrame) : M locals unit :=
  text_image <- lift (draw_paragraphs shape blank_layer (paragraphs tf)) ;;
  clips_append (still text_image).

(** ** Picture: lines 284-361 *)

(** Lines 295-306 and 334-346: position and size of a picture. *)
Definition picture_box (shape : Shape) : result (Z * Z * Z * Z) :=
  let left := attr_or (shape_left shape) 0 in
  let top := attr_or (shape_top shape) 0 in
  let shape_width := attr_or (shape_width shape) (slide_width_emus / 2) in
  let shape_height := attr_or (shape_height shape) (slide_height_emus / 2) in
  x <-? emu_to_px left slide_width_emus width ;
  y <-? emu_to_px top slide_height_emus height ;
  w <-? emu_to_px shape_width slide_width_emus width ;
  h <-? emu_to_px shape_height slide_height_emus height ;
  Ok (x, y, w, h).

(** Lines 311-319: one resized RGBA frame and its display time per GIF
    frame; a frame without a duration shows for 100 ms. *)
Fixpoint gif_frames (blob : bytes) (w h : Z) (index : nat)
         (infos : list (option Z)) : result (list image * list float) :=
  match infos with
  | [] => Ok ([], [])
  | info :: infos' =>
      frame <-? resize (Convert (Frame_of blob index) RGBA) (w, h) ;
      let d := match info with Some ms => ms | None => 100 end in
      f <-? py_float d ;
      rest <-? gif_frames blob w h (S index) infos' ;
      Ok (frame :: fst rest, (f / 1000)%float :: snd rest)
  end.

Definition render_picture (shape : Shape) (blob : bytes) : M locals unit :=
  pil_image <- lift (match Image_open pil blob with
                     | Some p => Ok p
                     | None =>
                         Raise (mk_exn UnidentifiedImageError
                                  "cannot identify image file")
                     end) ;;
  if String.eqb (pil_format pil_image) "GIF" && pil_is_animated pil_image
  then
    box <- lift (picture_box shape) ;;
    let '(x, y, w, h) := box in
    fd <- lift (gif_frames blob w h 0 (pil_frames pil_image)) ;;
    gif_clip <- lift (mk_ImageSequenceClip (fst fd) (snd fd)) ;;
    clips_append
      (set_duration (set_position gif_clip (At x y)) (Some duration))
  else
    let decoded :=
      if String.eqb (pil_mode pil_image) "RGBA"
      then Frame_of blob 0
      else Convert (Frame_of blob 0) RGBA in
    box <- lift (picture_box shape) ;;
    let '(x, y, w, h) := box in
    resized <- lift (resize decoded (w, h)) ;;
    clips_append (still (Paste blank_layer resized (x, y))).

(** ** Table: lines 363-409 *)

Fixpoint draw_cells (im : image) (fnt : font) (cell_width cell_height : Z)
         (y : Z) (col_idx : Z) (cells : list string) : image :=
  match cells with
  | [] => im
  | cell :: cells' =>
      let x := col_idx * cell_width in
      let im1 := Draw_rectangle im (x, y, x + cell_width, y + cell_height)
                   white (Some black) in
      let text := strip cell in
      let im2 := if String.eqb text "" then im1
                 else Draw_text im1 (x + 5, y + 5) text fnt black in
      draw_cells im2 fnt cell_width cell_height y (col_idx + 1) cells'
  end.

Fixpoint draw_rows (im : image) (fnt : font) (cell_width cell_height : Z)
         (row_idx : Z) (rows : list (list string)) : image :=
  match rows with
  | [] => im
  | row :: rows' =>
      let im' := draw_cells im fnt cell_width cell_height
                   (row_idx * cell_height) 0 row in
      draw_rows im' fnt cell_width cell_height (row_idx + 1) rows'
  end.

Definition render_table (tbl : Table) : M locals unit :=
  let fnt := load_font pil 24 in
  let num_rows := Z.of_nat (List.length (table_rows tbl)) in
  let num_cols := table_columns tbl in
  cell_height <- lift (floordiv height num_rows) ;;
  cell_width <- lift (floordiv width num_cols) ;;
  clips_append
    (still (draw_rows blank_layer fnt cell_width cell_height 0
              (table_rows tbl))).

(** ** One shape: the body of the [try] at lines 202-409 *)
Definition render_content (shape : Shape) : M locals unit :=
  match shape_text_frame shape with
  | Some (Some tf) => render_text shape tf
  | _ =>
      if MSO_SHAPE_TYPE.is_picture (shape_type shape) then
        match shape_image shape with
        | Some blob => render_picture shape blob
        | None => ret tt
        end
      else if MSO_SHAPE_TYPE.is_table (shape_type shape) then
        match shape_table shape with
        | Some tbl => render_table tbl
        | None => ret tt
        end
      else ret tt
  end.

Definition render_shape (shape : Shape) : M locals unit :=
  render_fill shape ;; render_content shape.

(** Lines 202 and 411-414: [except Exception: continue] *)
Definition process_shape (shape : Shape) : M locals unit :=
  try_except (render_shape shape) (fun _ => ret tt).

(** Lines 416-420: one composite of all layers, or the only layer. *)
Definition combine_clips (clips : list clip) : result clip :=
  if 1 <? Z.of_nat (List.length clips)
  then Ok (CompositeVideoClip clips (Some (width, height)))
  else py_index clips 0.

(** ** The whole body of the outer [try], lines 123-420 *)
Definition slide_body (slide : Slide) : M locals clip :=
  background_fill <- lift (find_background_fill slide) ;;
  background_image <-
    lift (background_image_of pil background_fill width height) ;;
  let background_clip := still background_image in
  modify (fun _ => {| background_clip := Some background_clip;
                      clips := [background_clip] |}) ;;
  for_each (shapes slide) process_shape ;;
  l <- get ;;
  lift (combine_clips (clips l)).

(** Lines 422-424: [except Exception: return background_clip].  Reading a
    local that was never bound raises [UnboundLocalError] from inside the
    handler, and that exception leaves the function. *)
Definition slide_handler (l : locals) : result clip :=
  match background_clip l with
  | Some c => Ok c
  | None =>
      Raise (mk_exn UnboundLocalError
               "cannot access local variable 'background_clip' where it is not associated with a value")
  end.

Definition create_slide_clip (slide : Slide) : result clip :=
  match slide_body slide unbound with
  | (Ok c, _) => Ok c
  | (Raise _, l) => slide_handler l
  end.

End Rasteriser.

(* ===================================================================== *)
(** * [create_pattern_background] *)
(* ===================================================================== *)

(** [range(0, stop, step)] for a positive step *)
Definition py_range (stop step : Z) : list Z :=
  map (fun k => Z.of_nat k * step)
      (seq 0 (Z.to_nat ((stop + step - 1) / step))).

Definition pattern_size : Z := 20.

(** Lines 435-443.  Defined in the module; no function of the module calls
    it. *)
Definition create_pattern_background (fore_color back_color : rgb)
           (width height : Z) : image :=
  fold_left
    (fun im x =>
       fold_left
         (fun im' y =>
            Draw_rectangle
              (Draw_rectangle im' (x, y, x + pattern_size, y + pattern_size)
                 (opaque fore_color) None)
              (x + pattern_size, y + pattern_size,
               x + pattern_size * 2, y + pattern_size * 2)
              (opaque fore_color) None)
         (py_range height (pattern_size * 2)) im)
    (py_range width (pattern_size * 2))
    (Image_new RGB (width, height) (opaque back_color)).

(* ===================================================================== *)
(** * [apply_transition_effect] *)
(* ===================================================================== *)

(** The body of the [try], lines 91-114. *)
Definition transition_body (c : clip) (transition_type : string)
           (duration : float) : result clip :=
  if String.eqb transition_type "fade" then
    Ok (fadeout (fadein c duration) duration)
  else if String.eqb transition_type "slide_left" then
    match clip_size c with
    | Some (w, _) =>
        let mask := set_duration (ColorClip (clip_size c) (0, 0, 0))
                      (clip_duration c) in
        let sliding := set_position c (Slide_from_left w duration) in
        Ok (CompositeVideoClip [mask; sliding] None)
    | None =>
        Raise (mk_exn TypeError "cannot unpack non-iterable NoneType object")
    end
  else if String.eqb transition_type "slide_right" then
    match clip_size c with
    | Some (w, _) =>
        let mask := set_duration (ColorClip (clip_size c) (0, 0, 0))
                      (clip_duration c) in
        let sliding := set_position c (Slide_from_right w duration) in
        Ok (CompositeVideoClip [mask; sliding] None)
    | None =>
        Raise (mk_exn TypeError "cannot unpack non-iterable NoneType object")
    end
  else if String.eqb transition_type "zoom" then
    Ok (resize_zoom c duration)
  else Ok c.

(** Lines 115-117: on any exception the clip comes back unchanged. *)
Definition apply_transition_effect (c : clip) (transition_type : string)
           (duration : float) : clip :=
  match transition_body c transition_type duration with
  | Ok c' => c'
  | Raise _ => c
  end.

(* ===================================================================== *)
(** * The world outside the process *)
(* ===================================================================== *)

Record World := {
  world_pil : Pillow;
  (** [subprocess.run(['convert', '-version'])]: [None] when it raises
      [CalledProcessError] or [FileNotFoundError], else
      [result.stdout.split()] *)
  convert_version : option (list string);
  (** [os.path.exists(pptx_path)] *)
  pptx_exists : bool;
  (** [mimetypes.guess_type(pptx_path)[0]] *)
  guess_type : option string;
  os_path_abspath : string -> string;
  (** [os.makedirs(dirname, exist_ok=True)]: the exception it raises *)
  os_makedirs : option exn;
  (** [Presentation(pptx_path)] *)
  load_presentation : result Presentation;
  (** [final_clip.write_videofile(output_path, ...)]: from the clip and
      what is at the output path, whether it returns or raises and what it
      leaves at the output path *)
  write_videofile : clip -> option Z -> result unit * option Z;
  (** whether [os.remove(output_path)] succeeds on an existing path *)
  os_remove_succeeds : bool
}.

(** What a run can change. *)
Record state := {
  (** size in bytes of the file at the output path; [None] when there is
      none *)
  output_file : option Z;
  (** every clip handed to the encoder, oldest first *)
  encoded : list clip
}.

(** [os.path.exists(output_path)] *)
Definition os_path_exists : M state bool :=
  fun st => (Ok (match output_file st with Some _ => true | None => false end),
             st).

(** [os.remove(output_path)] *)
Definition os_remove (w : World) : M state unit :=
  if os_remove_succeeds w
  then modify (fun st => {| output_file := None; encoded := encoded st |})
  else raise (mk_exn OSError "[Errno 13] Permission denied").

Definition run_encoder (w : World) (final_clip : clip) : M state unit :=
  fun st =>
    let '(r, out) := write_videofile w final_clip (output_file st) in
    (r, {| output_file := out; encoded := encoded st ++ [final_clip] |}).

(* ===================================================================== *)
(** * [check_imagemagick], [verify_file_type] *)
(* ===================================================================== *)

Definition check_imagemagick (w : World) : result bool :=
  match convert_version w with
  | Some words => _ <-? py_index words 2 ; Ok true
  | None => Ok false
  end.

Definition verify_file_type (w : World) (expected_type : string) : bool :=
  if negb (pptx_exists w) then false
  else match guess_type w with
       | None => false
       | Some mime_type =>
           if String.eqb mime_type "" then false
           else contains expected_type (lower mime_type)
       end.

(* ===================================================================== *)
(** * [convert_pptx_to_video] *)
(* ===================================================================== *)

Definition transitions : list string :=
  ["fade"; "slide_left"; "slide_right"; "zoom"]%string.

Definition video_width : Z := 1920.
Definition video_height : Z := 1080.

(** [duration = 2] *)
Definition base_duration : Z := 2.
Definition transition_duration : float := 0.5%float.
Definition total_duration : float :=
  (float_of_int base_duration + transition_duration)%float.

(** Lines 501-503: the blank slide appended when a slide raised. *)
Definition fallback_clip : clip :=
  set_duration (ImageClip (Image_new RGB (video_width, video_height) white))
               (Some transition_duration).

(** Lines 480-491: the body of the per-slide [try].  [create_slide_clip]
    never returns [None], so the test at line 484 always passes. *)
Definition slide_try (w : World) (prs : Presentation) (i : Z) (slide : Slide)
  : result clip :=
  c <-? create_slide_clip (world_pil w) video_width video_height
          total_duration (slide_width prs) (slide_height prs) slide ;
  transition_type <-?
    py_index transitions (i mod Z.of_nat (List.length transitions)) ;
  Ok (apply_transition_effect c transition_type transition_duration).

(** One turn of the loop at line 470: what gets appended to [clips]. *)
Definition slide_segment (w : World) (prs : Presentation) (i : Z)
           (slide : Slide) : clip :=
  match slide_try w prs i slide with
  | Ok c => c
  | Raise _ => fallback_clip
  end.

(** [enumerate(l, start)] *)
Fixpoint enumerate {A} (start : Z) (l : list A) : list (Z * A) :=
  match l with
  | [] => []
  | a :: l' => (start, a) :: enumerate (start + 1) l'
  end.

(** [for i, slide in enumerate(prs.slides, 1)], threading [clips]. *)
Fixpoint process_slides (w : World) (prs : Presentation) (i : Z)
         (todo : list Slide) (clips : list clip) : list clip :=
  match todo with
  | [] => clips
  | slide :: rest =>
      process_slides w prs (i + 1) rest
        (clips ++ [slide_segment w prs i slide])
  end.

Definition convert_pptx_to_video (w : World) : M state unit :=
  try_except
    (prs <- lift (load_presentation w) ;;
     let clips := process_slides w prs 1 (slides prs) [] in
     match clips with
     | [] => raise (mk_exn ValueError "No valid slides were processed")
     | _ =>
         let final_clip := concatenate_videoclips clips in
         run_encoder w final_clip
     end)
    (fun e =>
       raise (mk_exn RuntimeError
                ("Failed to convert PPTX to video: " ++ exn_str e))).

(* ===================================================================== *)
(** * [convert_to_video] *)
(* ===================================================================== *)

(** Lines 546-575: the body of the [try]. *)
Definition convert_body (w : World) (output_path : string) : M state bool :=
  ok <- lift (check_imagemagick w) ;;
  if negb ok
  then raise (mk_exn RuntimeError "ImageMagick is not properly configured")
  else
    if negb (verify_file_type w "officedocument")
    then raise (mk_exn ValueError "Invalid PPTX file format")
    else
      let output_path := os_path_abspath w output_path in
      lift (match os_makedirs w with
            | Some e => Raise e
            | None => Ok tt
            end) ;;
      convert_pptx_to_video w ;;
      st <- get ;;
      match output_file st with
      | None =>
          raise (mk_exn FileNotFoundError
                   ("Video was not created at " ++ output_path))
      | Some video_size =>
          if video_size <? 1000
          then raise (mk_exn ValueError
                        ("Generated video is too small ("
                           ++ str_of_int video_size ++ " bytes)"))
          else ret true
      end.

(** Lines 577-584: delete what is at the output path, ignoring a failure to
    delete, and re-raise. *)
Definition convert_cleanup (w : World) (e : exn) : M state bool :=
  present <- os_path_exists ;;
  (if present
   then try_except (os_remove w) (fun _ => ret tt)
   else ret tt) ;;
  raise e.

Definition convert_to_video (w : World) (output_path : string)
  : M state bool :=
  try_except (convert_body w output_path) (convert_cleanup w).

(* ===================================================================== *)
(** * Vocabulary of the design document *)
(* ===================================================================== *)

(** [transitions[i % 4]] *)
Definition transition_of (i : Z) : string :=
  nth (Z.to_nat (i mod 4)) transitions "fade"%string.

(** Adding layers to [clips] and touching nothing else. *)
Definition add_layers (l : locals) (cs : list clip) : locals :=
  {| background_clip := background_clip l; clips := clips l ++ cs |}.

(** The layers one shape leaves in [clips], whether its rendering completes
    or raises half-way. *)
Definition shape_layers (pil : Pillow) (width height : Z) (duration : float)
           (slide_width_emus slide_height_emus : Z) (shape : Shape)
  : list clip :=
  clips (snd (render_shape pil width height duration slide_width_emus
                slide_height_emus shape unbound)).

(** Whether rendering one shape raises. *)
Definition shape_raises (pil : Pillow) (width height : Z) (duration : float)
           (slide_width_emus slide_height_emus : Z) (shape : Shape) : Prop :=
  exists e, fst (render_shape pil width height duration slide_width_emus
                   slide_height_emus shape unbound) = Raise e.

(** The background stage of [create_slide_clip], lines 124-189. *)
Definition background_stage (pil : Pillow) (width height : Z) (slide : Slide)
  : result image :=
  fill <-? find_background_fill slide ;
  background_image_of pil fill width height.


(** A computation is append-only when its outcome does not depend on the
    locals and its only effect is to add layers. *)
Definition appends {A} (c : M locals A) (r : result A) (cs : list clip)
  : Prop :=
  forall l, c l = (r, add_layers l cs).

Definition append_only {A} (c : M locals A) : Prop :=
  exists r cs, appends c r cs.

(** An atomic renderer adds at most one layer, and none when it raises;
    [P] holds of what it adds. *)
Definition atomic {A} (P : clip -> Prop) (c : M locals A) : Prop :=
  exists r cs,
    appends c r cs /\
    match r with
    | Ok _ => (List.length cs <= 1)%nat
    | Raise _ => cs = []
    end /\
    Forall P cs.

(** The clip plays for [d] seconds. *)
Definition lasts (d : float) (c : clip) : Prop := clip_duration c = Some d.

(** Lines 416-420 on a background and the layers above it. *)
Definition stack (width height : Z) (background_clip : clip)
           (layers : list clip) : clip :=
  match layers with
  | [] => background_clip
  | _ => CompositeVideoClip (background_clip :: layers) (Some (width, height))
  end.

(** The state the handler of [convert_to_video] leaves: the file at the
    output path is gone when there was one and deleting it worked. *)
Definition after_cleanup (w : World) (s : state) : state :=
  match output_file s with
  | Some _ =>
      if os_remove_succeeds w
      then {| output_file := None; encoded := encoded s |}
      else s
  | None => s
  end.

(** The checks of lines 546-559 all pass. *)
Definition preflight_ok (w : World) : Prop :=
  check_imagemagick w = Ok true /\
  verify_file_type w "officedocument" = true /\
  os_makedirs w = None.

(* ===================================================================== *)
(** * Sample decks, shapes and machines *)
(* ===================================================================== *)

(** A machine without image codecs or fonts. *)
Definition no_codecs : Pillow :=
  {| Image_open := fun _ => None; truetype_loads := fun _ _ => false |}.

(** A machine on which every byte string decodes as a still RGBA PNG. *)
Definition png_codecs : Pillow :=
  {| Image_open := fun _ =>
       Some {| pil_format := "PNG"; pil_is_animated := false;
               pil_mode := "RGBA"; pil_frames := [None] |};
     truetype_loads := fun _ _ => true |}.

Definition gradient_fill : FillFormat :=
  {| fill_type := Some MSO_FILL_TYPE.GRADIENT;
     fore_color_rgb := None; back_color_rgb := None; picture_blob := None |}.

Definition pattern_fill : FillFormat :=
  {| fill_type := Some MSO_FILL_TYPE.PATTERNED;
     fore_color_rgb := Some (0, 0, 0);
     back_color_rgb := Some (255, 255, 255);
     picture_blob := None |}.

Definition red_fill : FillFormat :=
  {| fill_type := Some MSO_FILL_TYPE.SOLID;
     fore_color_rgb := Some (255, 0, 0);
     back_color_rgb := None; picture_blob := None |}.

Definition slide_on (f : FillFormat) (ss : list Shape) : Slide :=
  {| background := Some {| background_fill := Some f |};
     slide_layout := Some None;
     shapes := ss |}.

Definition plain_slide (ss : list Shape) : Slide :=
  {| background := None; slide_layout := Some None; shapes := ss |}.

Definition gradient_slide : Slide := slide_on gradient_fill [].
Definition pattern_slide : Slide := slide_on pattern_fill [].

(** The default 10 in x 7.5 in deck of python-pptx, in EMU. *)
Definition deck_of (ss : list Slide) : Presentation :=
  {| slides := ss; slide_width := 9144000; slide_height := 6858000 |}.

(** A red box 1171575 EMU from the left edge, quarter of the slide wide. *)
Definition red_box : Shape :=
  {| shape_name := "box"; shape_type := Some MSO_SHAPE_TYPE.AUTO_SHAPE;
     shape_fill := Some red_fill;
     shape_left := Some (Some 1171575); shape_top := Some (Some 0);
     shape_width := Some (Some 2286000); shape_height := Some (Some 1714500);
     shape_text_frame := None; shape_image := None; shape_table := None |}.

(** A picture whose bytes are not an image. *)
Definition broken_picture : Shape :=
  {| shape_name := "photo"; shape_type := Some MSO_SHAPE_TYPE.PICTURE;
     shape_fill := None;
     shape_left := Some (Some 0); shape_top := Some (Some 0);
     shape_width := Some (Some 4572000); shape_height := Some (Some 3429000);
     shape_text_frame := None;
     shape_image := Some [Byte.x00; Byte.x01];
     shape_table := None |}.

Definition caption : TextFrame :=
  {| paragraphs :=
       [ {| runs := [ {| run_text := "A"; run_font_size := None;
                         run_font_color := None |} ] |} ] |}.


(** The same shape without its text frame. *)
Definition filled_picture : Shape :=
  {| shape_name := "mixed"; shape_type := Some MSO_SHAPE_TYPE.PICTURE;
     shape_fill := Some red_fill;
     shape_left := Some (Some 0); shape_top := Some (Some 0);
     shape_width := Some (Some 4572000); shape_height := Some (Some 3429000);
     shape_text_frame := None;
     shape_image := Some [Byte.x89; Byte.x50];
     shape_table := None |}.

(** An encoder that returns normally and leaves [n] bytes. *)
Definition writes (n : Z) : clip -> option Z -> result unit * option Z :=
  fun _ _ => (Ok tt, Some n).

(** An encoder that raises and leaves [n] bytes of partial output. *)
Definition crashes_leaving (n : Z)
  : clip -> option Z -> result unit * option Z :=
  fun _ _ => (Raise (mk_exn OSError "[Errno 32] Broken pipe"), Some n).

(** A machine with ImageMagick installed, a readable .pptx holding [prs],
    the encoder [enc], and a file system on which deleting the output
    succeeds or not. *)
Definition studio (prs : Presentation)
           (enc : clip -> option Z -> result unit * option Z)
           (can_delete : bool) : World :=
  {| world_pil := no_codecs;
     convert_version := Some ["Version:"; "ImageMagick"; "6.9.11-60"]%string;
     pptx_exists := true;
     guess_type :=
       Some "application/vnd.openxmlformats-officedocument.presentationml.presentation"%string;
     os_path_abspath := fun p => p;
     os_makedirs := None;
     load_presentation := Ok prs;
     write_videofile := enc;
     os_remove_succeeds := can_delete |}.

(** Nothing at the output path, nothing encoded yet. *)
Definition fresh : state := {| output_file := None; encoded := [] |}.

(* ===================================================================== *)
(** * Reading an image term *)
(* ===================================================================== *)

(** Where text was drawn, in drawing order. *)
Fixpoint text_origins (im : image) : list (Z * Z) :=
  match im with
  | Image_new _ _ _ => []
  | Frame_of _ _ => []
  | Resize im' _ => text_origins im'
  | Convert im' _ => text_origins im'
  | Draw_rectangle im' _ _ _ => text_origins im'
  | Draw_text im' xy _ _ _ => text_origins im' ++ [xy]
  | Paste im' _ _ => text_origins im'
  end.

(** The colours text was drawn in, in drawing order. *)
Fixpoint text_colours (im : image) : list rgba :=
  match im with
  | Image_new _ _ _ => []
  | Frame_of _ _ => []
  | Resize im' _ => text_colours im'
  | Convert im' _ => text_colours im'
  | Draw_rectangle im' _ _ _ => text_colours im'
  | Draw_text im' _ _ _ c => text_colours im' ++ [c]
  | Paste im' _ _ => text_colours im'
  end.

(** How many rectangles were drawn. *)
Fixpoint count_rectangles (im : image) : nat :=
  match im with
  | Image_new _ _ _ => 0
  | Frame_of _ _ => 0
  | Resize im' _ => count_rectangles im'
  | Convert im' _ => count_rectangles im'
  | Draw_rectangle im' _ _ _ => S (count_rectangles im')
  | Draw_text im' _ _ _ _ => count_rectangles im'
  | Paste im' _ _ => count_rectangles im'
  end.

(** A run has something to draw when its stripped text is not empty. *)
Definition visible (r : Run) : bool :=
  negb (String.eqb (strip (run_text r)) "").

(** The runs of a text frame that have something to draw. *)
Definition visible_runs (tf : TextFrame) : list Run :=
  filter visible (List.concat (map runs (paragraphs tf))).

(** The four transition names [apply_transition_effect] knows. *)
Definition known_transition (t : string) : bool :=
  String.eqb t "fade" || String.eqb t "slide_left"
  || String.eqb t "slide_right" || String.eqb t "zoom".

(** U+00A0, the no-break space: bytes C2 A0. *)
Definition no_break_space : string :=
  String (ascii_of_nat 194) (String (ascii_of_nat 160) EmptyString).

(** U+3000, the ideographic space: bytes E3 80 80. *)
Definition ideographic_space : string :=
  String (ascii_of_nat 227)
    (String (ascii_of_nat 128) (String (ascii_of_nat 128) EmptyString)).

(** A text frame holding only whitespace: blanks, a no-break space, an
    ideographic space between a tab and a line feed. *)
Definition blank_caption : TextFrame :=
  {| paragraphs :=
       [ {| runs := [ {| run_text := "  "; run_font_size := None;
                         run_font_color := None |};
                      {| run_text := no_break_space; run_font_size := None;
                         run_font_color := None |} ] |};
         {| runs := [] |};
         {| runs := [ {| run_text :=
                           String (ascii_of_nat 9)
                             (ideographic_space
                                ++ String (ascii_of_nat 10) EmptyString);
                         run_font_size := None;
                         run_font_color := None |} ] |} ] |}.

(** An explicit red, and a theme colour (no RGB value of its own). *)
Definition red_font : FontColor :=
  {| color_type := Some MSO_THEME_COLOR_INDEX.NOT_THEME_COLOR;
     color_rgb := Some (255, 0, 0) |}.

Definition theme_font : FontColor :=
  {| color_type := Some 5; color_rgb := None |}.

(** Two paragraphs: three runs with text, in three colours, among runs that
    hold only whitespace. *)
Definition two_line_caption : TextFrame :=
  {| paragraphs :=
       [ {| runs := [ {| run_text := "Title"; run_font_size := None;
                         run_font_color := None |};
                      {| run_text := no_break_space; run_font_size := None;
                         run_font_color := Some red_font |};
                      {| run_text := " in red "; run_font_size := None;
                         run_font_color := Some red_font |} ] |};
         {| runs := [ {| run_text := "  "; run_font_size := None;
                         run_font_color := None |};
                      {| run_text := "and theme"; run_font_size := None;
                         run_font_color := Some theme_font |} ] |} ] |}.

(** A text box 1171575 EMU from the left edge and a quarter of the slide
    down. *)
Definition text_box : Shape :=
  {| shape_name := "text"; shape_type := Some MSO_SHAPE_TYPE.TEXT_BOX;
     shape_fill := None;
     shape_left := Some (Some 1171575); shape_top := Some (Some 1714500);
     shape_width := Some (Some 2286000); shape_height := Some (Some 1714500);
     shape_text_frame := Some (Some two_line_caption);
     shape_image := None; shape_table := None |}.

(** A shape with blank text whose position and size are [None]. *)
Definition unplaced_blank : Shape :=
  {| shape_name := "title"; shape_type := Some MSO_SHAPE_TYPE.PLACEHOLDER;
     shape_fill := None;
     shape_left := Some None; shape_top := Some None;
     shape_width := Some None; shape_height := Some None;
     shape_text_frame := Some (Some blank_caption);
     shape_image := None; shape_table := None |}.

(** A title with text whose position and size are [None]. *)
Definition unplaced_title : Shape :=
  {| shape_name := "title"; shape_type := Some MSO_SHAPE_TYPE.PLACEHOLDER;
     shape_fill := None;
     shape_left := Some None; shape_top := Some None;
     shape_width := Some None; shape_height := Some None;
     shape_text_frame := Some (Some caption);
     shape_image := None; shape_table := None |}.

(** A two-by-two table. *)
Definition small_table : Table :=
  {| table_rows := [["a"; "b"]; ["c"; ""]]%string; table_columns := 2 |}.

(** The two-by-two table as a shape at a given place and of a given size. *)
Definition table_shape (left top w h : Z) : Shape :=
  {| shape_name := "table"; shape_type := Some MSO_SHAPE_TYPE.TABLE;
     shape_fill := None;
     shape_left := Some (Some left); shape_top := Some (Some top);
     shape_width := Some (Some w); shape_height := Some (Some h);
     shape_text_frame := None; shape_image := None;
     shape_table := Some small_table |}.



(* ===================================================================== *)
(** * The caller: the conversion step of the [/convert-video] route
      ([src/routes.py], lines 191-231) *)
(* ===================================================================== *)

(** A Flask response: the status code and the JSON object, key by key. *)
Record Response := {
  status_code : Z;
  json : list (string * string)
}.

(** [os.path.getsize(video_path)] *)
Definition os_path_getsize : M state Z :=
  fun st => match output_file st with
            | Some n => (Ok n, st)
            | None =>
                (Raise (mk_exn FileNotFoundError
                          "[Errno 2] No such file or directory"), st)
            end.

(** Lines 192-214: the body of the inner [try].  [and] evaluates
    [os.path.exists] only when [success] is true. *)
Definition route_try (w : World) (video_path video_url : string)
  : M state Response :=
  success <- convert_to_video w video_path ;;
  present <- (if success then os_path_exists else ret false) ;;
  if present then
    size <- os_path_getsize ;;
    if size <? 1000
    then raise (mk_exn ValueError "Generated video file is too small")
    else ret {| status_code := 200;
                json := [ ("video_path", video_path);
                          ("video_url", video_url);
                          ("message", "Video generated successfully")
                        ]%string |}
  else
    ret {| status_code := 500;
           json := [ ("error", "Video conversion failed");
                     ("details",
                      "The conversion process completed but no video was generated")
                   ]%string |}.

(** Lines 216-237: [except ValueError], [except RuntimeError],
    [except Exception], in that order. *)
Definition route_except (e : exn) : M state Response :=
  match exn_type e with
  | ValueError =>
      ret {| status_code := 422;
             json := [ ("error", "Invalid file format or content");
                       ("details", exn_str e) ]%string |}
  | RuntimeError =>
      ret {| status_code := 500;
             json := [ ("error", "Conversion process failed");
                       ("details", exn_str e) ]%string |}
  | _ =>
      ret {| status_code := 500;
             json := [ ("error", "An unexpected error occurred");
                       ("details", exn_str e) ]%string |}
  end.

Definition route_convert (w : World) (video_path video_url : string)
  : M state Response :=
  try_except (route_try w video_path video_url) route_except.

(** ** The whole route, lines 157-243 *)

(** What [data.get('pptx_path')] gives for a body that parses to a JSON
    object: nothing (the key is missing or null), a string, or a value of
    another type, of which the route sees the type name and the truth
    value. *)
Inductive json_value :=
| JNone
| JStr (s : string)
| JOther (type_name : string) (truthy : bool).

(** [not value] *)
Definition falsy (v : json_value) : bool :=
  match v with
  | JNone => true
  | JStr s => String.eqb s ""
  | JOther _ truthy => negb truthy
  end.

Record Request := {
  (** [request.is_json] *)
  is_json : bool;
  (** [request.get_json().get('pptx_path')] *)
  pptx_path_field : json_value
}.

(** What the route reads besides the request. *)
Record Server := {
  server_world : World;
  (** [app.config['UPLOAD_FOLDER']] *)
  UPLOAD_FOLDER : string;
  (** [os.path.getsize(pptx_path)] *)
  pptx_getsize : result Z;
  (** lines 188-189: the path of the new video, its name ending in four
      random bytes *)
  new_video_path : string;
  (** line 204: [url_for('static', ...)] *)
  new_video_url : string
}.

(** [app.config["MAX_CONTENT_LENGTH"]], [src/app.py] line 20 *)
Definition MAX_CONTENT_LENGTH : Z := 16 * 1024 * 1024.

(** [os.path.abspath(value)] *)
Definition abspath_of (w : World) (v : json_value) : result string :=
  match v with
  | JStr s => Ok (os_path_abspath w s)
  | JNone =>
      Raise (mk_exn TypeError
               "expected str, bytes or os.PathLike object, not NoneType")
  | JOther type_name _ =>
      Raise (mk_exn TypeError
               ("expected str, bytes or os.PathLike object, not "
                  ++ type_name))
  end.

(** Lines 169-237: the body of the outer [try]. *)
Definition convert_checked (srv : Server) (value : json_value)
  : M state Response :=
  let w := server_world srv in
  pptx_path <- lift (abspath_of w value) ;;
  if negb (pptx_exists w) then
    ret {| status_code := 404;
           json := [ ("error", "PPTX file not found") ]%string |}
  else if negb (String.prefix (os_path_abspath w (UPLOAD_FOLDER srv))
                  pptx_path) then
    ret {| status_code := 403;
           json := [ ("error", "Invalid file path") ]%string |}
  else
    file_size <- lift (pptx_getsize srv) ;;
    let max_size := MAX_CONTENT_LENGTH in
    if file_size >? max_size then
      ret {| status_code := 413;
             json := [ ("error", "File too large. Maximum size is 16.0MB")
                     ]%string |}
    else route_convert w (new_video_path srv) (new_video_url srv).

(** Lines 238-243 *)
Definition convert_except (e : exn) : M state Response :=
  ret {| status_code := 500;
         json := [ ("error", "Failed to process request");
                   ("details", exn_str e) ]%string |}.

Definition convert (srv : Server) (req : Request) : M state Response :=
  if negb (is_json req) then
    ret {| status_code := 400;
           json := [ ("error", "Content-Type must be application/json")
                   ]%string |}
  else
    let pptx_path := pptx_path_field req in
    if falsy pptx_path then
      ret {| status_code := 400;
             json := [ ("error", "No PPTX path provided") ]%string |}
    else try_except (convert_checked srv pptx_path) convert_except.

(** A server whose upload folder is [/srv/uploads] and whose input file has
    [size] bytes. *)
Definition server_of (w : World) (size : Z) : Server :=
  {| server_world := w;
     UPLOAD_FOLDER := "/srv/uploads";
     pptx_getsize := Ok size;
     new_video_path := "/srv/uploads/deck_0a1b2c3d.mp4";
     new_video_url := "/static/uploads/deck_0a1b2c3d.mp4" |}.

Definition post (path : string) : Request :=
  {| is_json := true; pptx_path_field := JStr path |}.
(* ===================================================================== *)
(** * Reasoning about the monad *)
(* ===================================================================== *)

Lemma add_layers_nil l : add_layers l [] = l.
Proof. destruct l; unfold add_layers; simpl. now rewrite app_nil_r. Qed.

Lemma add_layers_app l cs cs' :
  add_layers (add_layers l cs) cs' = add_layers l (cs ++ cs').
Proof. unfold add_layers; simpl. now rewrite app_assoc. Qed.

Lemma appends_ret {A} (a : A) : appends (ret a) (Ok a) [].
Proof. intros l. unfold ret. now rewrite add_layers_nil. Qed.

Lemma appends_lift {A} (r : result A) : appends (lift r) r [].
Proof. intros l. unfold lift. now rewrite add_layers_nil. Qed.

Lemma appends_clips_append c : appends (clips_append c) (Ok tt) [c].
Proof. intros l. reflexivity. Qed.

Lemma appends_bind_ok {A B} (c : M locals A) (k : A -> M locals B)
      a cs r cs' :
  appends c (Ok a) cs -> appends (k a) r cs' ->
  appends (bind c k) r (cs ++ cs').
Proof.
  intros Hc Hk l. unfold bind. rewrite Hc, Hk. now rewrite add_layers_app.
Qed.

Lemma appends_bind_raise {A B} (c : M locals A) (k : A -> M locals B) e cs :
  appends c (Raise e) cs -> appends (bind c k) (Raise e) cs.
Proof. intros Hc l. unfold bind. now rewrite Hc. Qed.

Lemma appends_lift_bind {A B} (r : result A) (k : A -> M locals B) r' cs :
  match r with
  | Ok a => appends (k a) r' cs
  | Raise e => r' = Raise e /\ cs = []
  end ->
  appends (bind (lift r) k) r' cs.
Proof.
  destruct r as [a | e]; intros H l; unfold bind, lift.
  - apply H.
  - destruct H as [-> ->]. now rewrite add_layers_nil.
Qed.

Lemma append_only_bind {A B} (c : M locals A) (k : A -> M locals B) :
  append_only c -> (forall a, append_only (k a)) -> append_only (bind c k).
Proof.
  intros (r & cs & Hc) Hk. destruct r as [a | e].
  - destruct (Hk a) as (r' & cs' & Hk').
    eexists _, _. eapply appends_bind_ok; eauto.
  - eexists _, _. eapply appends_bind_raise; eauto.
Qed.

Lemma atomic_append_only {A} P (c : M locals A) :
  atomic P c -> append_only c.
Proof. intros (r & cs & H & _). now exists r, cs. Qed.

Lemma atomic_ret {A} P (a : A) : atomic P (@ret locals A a).
Proof.
  exists (Ok a), []. repeat split; [apply appends_ret | simpl; lia | constructor].
Qed.

Lemma atomic_clips_append (P : clip -> Prop) c :
  P c -> atomic P (clips_append c).
Proof.
  intros Hc. exists (Ok tt), [c].
  repeat split; [simpl; lia | now repeat constructor].
Qed.

Lemma atomic_lift_bind {A B} P (r : result A) (k : A -> M locals B) :
  (forall a, r = Ok a -> atomic P (k a)) -> atomic P (bind (lift r) k).
Proof.
  intros H. destruct r as [a | e].
  - destruct (H a eq_refl) as (r' & cs & Hk & Hcs).
    exists r', cs. split; [now apply appends_lift_bind | exact Hcs].
  - exists (Raise e), [].
    repeat split; [now apply appends_lift_bind | constructor].
Qed.

(** A layer-adding computation run from any locals. *)
Lemma appends_unique {A} (c : M locals A) r cs r' cs' :
  appends c r cs -> appends c r' cs' -> r = r' /\ cs = cs'.
Proof.
  intros H H'. specialize (H unbound). rewrite (H' unbound) in H.
  inversion H. split; [reflexivity |].
  unfold add_layers in *; simpl in *. congruence.
Qed.

(** ** Durations *)

Lemma float_max_same d : float_max d d = d.
Proof. unfold float_max. now destruct (d <? d)%float. Qed.

Lemma max_end_all d ends :
  ends <> [] -> Forall (fun e => e = Some d) ends -> max_end ends = Some d.
Proof.
  destruct ends as [| e es]; [congruence |]. intros _ H.
  apply Forall_cons_iff in H. destruct H as [-> Hes]. simpl.
  induction es as [| x es IH]; simpl; [reflexivity |].
  apply Forall_cons_iff in Hes. destruct Hes as [-> Hes].
  rewrite float_max_same. now apply IH.
Qed.

Lemma composite_lasts d layers size :
  layers <> [] -> Forall (lasts d) layers ->
  lasts d (CompositeVideoClip layers size).
Proof.
  intros Hne H. unfold lasts. simpl. apply max_end_all.
  - destruct layers; [congruence | discriminate].
  - apply Forall_map. exact H.
Qed.

Lemma apply_transition_effect_lasts d c transition_type td :
  lasts d c -> lasts d (apply_transition_effect c transition_type td).
Proof.
  intros H. unfold apply_transition_effect, transition_body.
  repeat match goal with
         | |- context [String.eqb ?a ?b] => destruct (String.eqb a b)
         end; try exact H;
    destruct (clip_size c) as [[w h] |]; try exact H;
    apply composite_lasts; try discriminate;
    repeat constructor; exact H.
Qed.

Section RasteriserFacts.

Variable pil : Pillow.
Variables width height : Z.
Variable duration : float.
Variables slide_width_emus slide_height_emus : Z.

#[local] Abbreviation fill_step :=
(render_fill width height duration slide_width_emus slide_height_emus).
#[local] Abbreviation content_step :=
(render_content pil width height duration slide_width_emus
     slide_height_emus).
#[local] Abbreviation shape_steps :=
(render_shape pil width height duration slide_width_emus
     slide_height_emus).
#[local] Abbreviation guarded_shape :=
(process_shape pil width height duration slide_width_emus
     slide_height_emus).
#[local] Abbreviation layers_of :=
(shape_layers pil width height duration slide_width_emus
     slide_height_emus).
#[local] Abbreviation slide_clip :=
(create_slide_clip pil width height duration slide_width_emus
     slide_height_emus).

Lemma render_fill_atomic shape : atomic (lasts duration) (fill_step shape).
Proof.
  unfold render_fill.
  destruct (shape_fill shape) as [fill |]; [| apply atomic_ret].
  destruct (fill_type fill) as [[] |]; try apply atomic_ret.
  repeat (apply atomic_lift_bind; intros ? _).
  apply atomic_clips_append; reflexivity.
Qed.

Lemma render_picture_atomic shape blob :
  atomic (lasts duration)
         (render_picture pil width height duration slide_width_emus
            slide_height_emus shape blob).
Proof.
  unfold render_picture.
  apply atomic_lift_bind; intros p _.
  destruct (_ && _);
    (apply atomic_lift_bind; intros [[[x y] w] h] _;
     repeat (apply atomic_lift_bind; intros ? _);
     apply atomic_clips_append; reflexivity).
Qed.

Lemma render_table_atomic tbl :
  atomic (lasts duration) (render_table pil width height duration tbl).
Proof.
  unfold render_table.
  repeat (apply atomic_lift_bind; intros ? _).
  apply atomic_clips_append; reflexivity.
Qed.

Lemma render_content_atomic shape :
  atomic (lasts duration) (content_step shape).
Proof.
  unfold render_content.
  assert (Hrest :
    atomic (lasts duration)
      (if MSO_SHAPE_TYPE.is_picture (shape_type shape)
       then match shape_image shape with
            | Some blob =>
                render_picture pil width height duration slide_width_emus
                  slide_height_emus shape blob
            | None => ret tt
            end
       else if MSO_SHAPE_TYPE.is_table (shape_type shape)
            then match shape_table shape with
                 | Some tbl => render_table pil width height duration tbl
                 | None => ret tt
                 end
            else ret tt)).
  { destruct (MSO_SHAPE_TYPE.is_picture _).
    - destruct (shape_image shape);
        [apply render_picture_atomic | apply atomic_ret].
    - destruct (MSO_SHAPE_TYPE.is_table _); [| apply atomic_ret].
      destruct (shape_table shape);
        [apply render_table_atomic | apply atomic_ret]. }
  destruct (shape_text_frame shape) as [[tf |] |]; try exact Hrest.
  unfold render_text.
  apply atomic_lift_bind; intros ? _. apply atomic_clips_append; reflexivity.
Qed.

Lemma render_shape_append_only shape : append_only (shape_steps shape).
Proof.
  apply append_only_bind.
  - eapply atomic_append_only, render_fill_atomic.
  - intros _. eapply atomic_append_only, render_content_atomic.
Qed.

(** Rendering a shape from any locals: same outcome, same added layers. *)
Lemma render_shape_run shape l :
  shape_steps shape l =
  (fst (shape_steps shape unbound), add_layers l (layers_of shape)).
Proof.
  destruct (render_shape_append_only shape) as (r & cs & H).
  unfold shape_layers. rewrite (H unbound), (H l). reflexivity.
Qed.

(** The per-shape handler swallows the exception and keeps the layers. *)
Lemma process_shape_run shape l :
  guarded_shape shape l = (Ok tt, add_layers l (layers_of shape)).
Proof.
  unfold process_shape, try_except.
  rewrite render_shape_run.
  destruct (fst _) as [[] | e]; reflexivity.
Qed.

Lemma for_each_process_shape ss l :
  for_each ss guarded_shape l =
  (Ok tt, add_layers l (List.concat (map layers_of ss))).
Proof.
  revert l. induction ss as [| s ss IH]; intros l; simpl.
  - unfold ret. now rewrite add_layers_nil.
  - unfold bind. rewrite process_shape_run, IH, add_layers_app. reflexivity.
Qed.

Lemma combine_clips_cons c cs :
  combine_clips width height (c :: cs) =
  Ok (match cs with
      | [] => c
      | _ => CompositeVideoClip (c :: cs) (Some (width, height))
      end).
Proof.
  unfold combine_clips. destruct cs as [| c' cs]; [reflexivity |].
  replace (1 <? _) with true; [reflexivity |].
  symmetry. apply Z.ltb_lt. cbn [List.length]. lia.
Qed.

(** [slide_clip], stage by stage. *)
Lemma create_slide_clip_run slide :
  slide_clip slide =
  match background_stage pil width height slide with
  | Raise _ => slide_handler unbound
  | Ok im =>
      Ok (stack width height (still duration im)
            (List.concat (map layers_of (shapes slide))))
  end.
Proof.
  unfold create_slide_clip, slide_body, background_stage.
  unfold bind at 1, lift at 1.
  destruct (find_background_fill slide) as [f | e]; simpl; [| reflexivity].
  unfold bind at 1, lift at 1.
  destruct (background_image_of pil f width height) as [im | e]; simpl;
    [| reflexivity].
  unfold bind at 1, modify at 1.
  unfold bind at 1. rewrite for_each_process_shape.
  unfold bind, get, lift, add_layers; simpl.
  rewrite combine_clips_cons. unfold stack.
  destruct (List.concat _); reflexivity.
Qed.

Lemma shape_layers_last shape : Forall (lasts duration) (layers_of shape).
Proof.
  destruct (render_fill_atomic shape) as (r1 & cs1 & H1 & _ & F1).
  destruct (render_content_atomic shape) as (r2 & cs2 & H2 & _ & F2).
  unfold shape_layers, render_shape, bind.
  rewrite H1. destruct r1 as [[] | e1]; simpl.
  - rewrite H2. simpl. apply Forall_app. split; assumption.
  - exact F1.
Qed.

(** Whatever [slide_clip] returns plays for [duration]. *)
Lemma create_slide_clip_lasts slide c :
  slide_clip slide = Ok c -> lasts duration c.
Proof.
  rewrite create_slide_clip_run.
  destruct (background_stage pil width height slide) as [im | e];
    [| discriminate].
  intros [= <-]. unfold stack.
  assert (HF : Forall (lasts duration)
                 (List.concat (map layers_of (shapes slide)))).
  { apply Forall_concat, Forall_map, Forall_forall.
    intros s _. apply shape_layers_last. }
  destruct (List.concat _) as [| c cs]; [reflexivity |].
  apply composite_lasts; [discriminate |].
  constructor; [reflexivity | exact HF].
Qed.

(** When a shape raises, what it leaves behind is what its fill step had
    already drawn: at most the one rectangle, and nothing of its text,
    picture or table. *)
Lemma raising_shape_layers shape :
  shape_raises pil width height duration slide_width_emus
    slide_height_emus shape ->
  layers_of shape = clips (snd (fill_step shape unbound)) /\
  (List.length (layers_of shape) <= 1)%nat.
Proof.
  intros [e He].
  destruct (render_fill_atomic shape) as (r1 & cs1 & H1 & Hcs1 & _).
  destruct (render_content_atomic shape) as (r2 & cs2 & H2 & Hcs2 & _).
  unfold shape_layers, shape_raises in *.
  unfold render_shape, bind in *.
  rewrite H1 in *. destruct r1 as [[] | e1].
  - rewrite H2 in *. simpl in He. subst r2. subst cs2.
    simpl. rewrite app_nil_r. split; [reflexivity | exact Hcs1].
  - subst cs1. simpl. split; [reflexivity | lia].
Qed.

Lemma unfilled_shape_fill_layers shape :
  (forall fill,
      shape_fill shape = Some fill ->
      fill_type fill <> Some MSO_FILL_TYPE.SOLID) ->
  clips (snd (fill_step shape unbound)) = [].
Proof.
  intros H. unfold render_fill.
  destruct (shape_fill shape) as [fill |]; [| reflexivity].
  specialize (H fill eq_refl).
  destruct (fill_type fill) as [[] |]; try reflexivity.
  now elim H.
Qed.

Lemma failed_fill_layers shape e :
  fst (fill_step shape unbound) = Raise e ->
  clips (snd (fill_step shape unbound)) = [].
Proof.
  destruct (render_fill_atomic shape) as (r & cs & H & Hcs & _).
  rewrite (H unbound). cbn [fst snd]. intros ->. subst cs. reflexivity.
Qed.

(** C8, as the code has it: when rendering one shape of a slide raises, the
    exception is caught, the remaining steps of that shape are skipped and
    the loop goes on: the slide still yields a clip, in which every other
    shape has exactly the layers it renders to, in slide order, above the
    background.  The failing shape is not removed from the frame: the fill
    rectangle it had appended before raising stays; it leaves nothing when
    it has no solid fill or when the fill step itself was what raised, and
    it never leaves any of its text, picture or table. *)
Theorem bad_shape_keeps_at_most_its_fill slide before bad after im :
  shapes slide = before ++ bad :: after ->
  background_stage pil width height slide = Ok im ->
  shape_raises pil width height duration slide_width_emus
    slide_height_emus bad ->
  exists kept,
    slide_clip slide =
    Ok (stack width height (still duration im)
          (List.concat (map layers_of before) ++ kept ++
           List.concat (map layers_of after))) /\
    kept = clips (snd (fill_step bad unbound)) /\
    (List.length kept <= 1)%nat /\
    ((forall fill,
         shape_fill bad = Some fill ->
         fill_type fill <> Some MSO_FILL_TYPE.SOLID) ->
     kept = []) /\
    (forall e, fst (fill_step bad unbound) = Raise e -> kept = []).
Proof.
  intros Hshapes Hbg Hbad.
  destruct (raising_shape_layers bad Hbad) as [Hkept Hlen].
  exists (layers_of bad).
  split; [| split; [exact Hkept | split; [exact Hlen | split]]].
  - rewrite create_slide_clip_run, Hbg, Hshapes.
    rewrite map_app, concat_app. simpl. reflexivity.
  - intros H. rewrite Hkept. apply unfilled_shape_fill_layers. exact H.
  - intros e H. rewrite Hkept. eapply failed_fill_layers. exact H.
Qed.

(** C10: the handler of [slide_clip] returns the background clip
    only once that clip is bound.  An exception raised while the
    background is being resolved reaches the handler with the local still
    unbound, the [return] itself raises [UnboundLocalError], and
    [slide_clip] propagates that exception instead of returning a
    fallback clip.  Once the background stage has completed a clip is
    always returned. *)
Theorem fallback_needs_bound_background slide :
  (forall e, background_stage pil width height slide = Raise e ->
             exists e', slide_clip slide = Raise e' /\
                        exn_type e' = UnboundLocalError) /\
  (forall l c, background_clip l = Some c -> slide_handler l = Ok c) /\
  (forall l, background_clip l = None ->
             exists e', slide_handler l = Raise e' /\
                        exn_type e' = UnboundLocalError) /\
  (forall im, background_stage pil width height slide = Ok im ->
              exists c, slide_clip slide = Ok c).
Proof.
  repeat split.
  - intros e He. rewrite create_slide_clip_run, He.
    eexists. split; reflexivity.
  - intros l c H. unfold slide_handler. now rewrite H.
  - intros l H. unfold slide_handler. rewrite H.
    eexists. split; reflexivity.
  - intros im Him. rewrite create_slide_clip_run, Him. eauto.
Qed.

End RasteriserFacts.

(* ===================================================================== *)
(** * The per-deck loop *)
(* ===================================================================== *)

Lemma transition_index i :
  py_index transitions (i mod Z.of_nat (List.length transitions)) =
  Ok (transition_of i).
Proof.
  unfold transition_of. change (Z.of_nat (List.length transitions)) with 4.
  assert (H : 0 <= i mod 4 < 4) by (apply Z.mod_pos_bound; lia).
  assert (C : i mod 4 = 0 \/ i mod 4 = 1 \/ i mod 4 = 2 \/ i mod 4 = 3)
    by lia.
  destruct C as [-> | [-> | [-> | ->]]]; reflexivity.
Qed.

(** What one turn of the loop appends. *)
Lemma slide_segment_run w prs i slide :
  slide_segment w prs i slide =
  match create_slide_clip (world_pil w) video_width video_height
          total_duration (slide_width prs) (slide_height prs) slide with
  | Ok c => apply_transition_effect c (transition_of i) transition_duration
  | Raise _ => fallback_clip
  end.
Proof.
  unfold slide_segment, slide_try.
  destruct (create_slide_clip _ _ _ _ _ _ _) as [c | e]; simpl;
    [| reflexivity].
  now rewrite transition_index.
Qed.

Lemma process_slides_run w prs i todo acc :
  process_slides w prs i todo acc =
  acc ++ map (fun p => slide_segment w prs (fst p) (snd p)) (enumerate i todo).
Proof.
  revert i acc. induction todo as [| s todo IH]; intros i acc; simpl.
  - now rewrite app_nil_r.
  - rewrite IH, <- app_assoc. reflexivity.
Qed.

Lemma enumerate_length {A} i (l : list A) :
  List.length (enumerate i l) = List.length l.
Proof. revert i. induction l; intros i; simpl; congruence. Qed.

(** C2: the transition wrapped around the slide at 1-based index [i] is
    [transitions[i % 4]] of the fixed list fade, slide_left, slide_right,
    zoom: the index computed at line 486 is always in range and selects
    [transition_of i], every rendered slide of every deck is wrapped with
    it, slides 1 to 5 get slide_left, slide_right, zoom, fade, slide_left,
    and the selection has period 4; it depends on the index alone. *)
Theorem transition_selection_is_cyclic :
  (forall i,
      py_index transitions (i mod Z.of_nat (List.length transitions)) =
      Ok (transition_of i)) /\
  (forall w prs,
      process_slides w prs 1 (slides prs) [] =
      map (fun p =>
             match create_slide_clip (world_pil w) video_width video_height
                     total_duration (slide_width prs) (slide_height prs)
                     (snd p) with
             | Ok c => apply_transition_effect c (transition_of (fst p))
                         transition_duration
             | Raise _ => fallback_clip
             end)
          (enumerate 1 (slides prs))) /\
  transitions = ["fade"; "slide_left"; "slide_right"; "zoom"]%string /\
  transition_of 1 = "slide_left"%string /\
  transition_of 2 = "slide_right"%string /\
  transition_of 3 = "zoom"%string /\
  transition_of 4 = "fade"%string /\
  transition_of 5 = "slide_left"%string /\
  (forall i, transition_of (i + 4) = transition_of i).
Proof.
  split; [exact transition_index |].
  split.
  { intros w prs. rewrite process_slides_run. simpl.
    apply map_ext. intros [i s]. apply slide_segment_run. }
  repeat (split; [reflexivity |]).
  intros i. unfold transition_of.
  replace ((i + 4) mod 4) with (i mod 4); [reflexivity |].
  rewrite <- (Z.mod_add i 1 4) by lia. reflexivity.
Qed.

Lemma fallback_clip_lasts : lasts transition_duration fallback_clip.
Proof. reflexivity. Qed.

Lemma slide_segment_cases w prs i slide :
  match create_slide_clip (world_pil w) video_width video_height
          total_duration (slide_width prs) (slide_height prs) slide with
  | Ok c =>
      slide_segment w prs i slide =
      apply_transition_effect c (transition_of i) transition_duration /\
      lasts total_duration (slide_segment w prs i slide)
  | Raise _ =>
      slide_segment w prs i slide = fallback_clip /\
      lasts transition_duration (slide_segment w prs i slide)
  end.
Proof.
  rewrite slide_segment_run.
  destruct (create_slide_clip _ _ _ _ _ _ _) as [c | e] eqn:E.
  - split; [reflexivity |].
    apply apply_transition_effect_lasts.
    eapply create_slide_clip_lasts. exact E.
  - split; [reflexivity | exact fallback_clip_lasts].
Qed.

(** What the deck loop hands to the encoder. *)
Lemma convert_pptx_to_video_run w st :
  convert_pptx_to_video w st =
  match load_presentation w with
  | Raise e =>
      (Raise (mk_exn RuntimeError
                ("Failed to convert PPTX to video: " ++ exn_str e)), st)
  | Ok prs =>
      match process_slides w prs 1 (slides prs) [] with
      | [] =>
          (Raise (mk_exn RuntimeError
                    "Failed to convert PPTX to video: No valid slides were processed"),
           st)
      | clips =>
          let final_clip := concatenate_videoclips clips in
          let st' := {| output_file :=
                          snd (write_videofile w final_clip (output_file st));
                        encoded := encoded st ++ [final_clip] |} in
          match fst (write_videofile w final_clip (output_file st)) with
          | Ok u => (Ok u, st')
          | Raise e =>
              (Raise (mk_exn RuntimeError
                        ("Failed to convert PPTX to video: " ++ exn_str e)),
               st')
          end
      end
  end.
Proof.
  unfold convert_pptx_to_video, try_except, bind, lift.
  destruct (load_presentation w) as [prs | e]; [| reflexivity].
  destruct (process_slides w prs 1 (slides prs) []) as [| c cs];
    [reflexivity |].
  unfold run_encoder.
  destruct (write_videofile w _ _) as [[u | e] out]; reflexivity.
Qed.

(** C6, as the code has it: a deck of N >= 1 slides is encoded as the
    concatenation of exactly N segments in slide order.  The segment of a
    slide that rendered is its clip wrapped in the transition of its index
    and lasts base_duration + transition_duration = 2.5 s; the segment of a
    slide that failed to render is the blank fallback clip, which is not
    wrapped in a transition and lasts transition_duration = 0.5 s. *)
Theorem segments_in_order_with_durations w prs st :
  load_presentation w = Ok prs ->
  slides prs <> [] ->
  let segments := process_slides w prs 1 (slides prs) [] in
  encoded (snd (convert_pptx_to_video w st)) =
    encoded st ++ [concatenate_videoclips segments] /\
  List.length segments = List.length (slides prs) /\
  Forall2
    (fun p seg =>
       match create_slide_clip (world_pil w) video_width video_height
               total_duration (slide_width prs) (slide_height prs)
               (snd p) with
       | Ok c =>
           seg = apply_transition_effect c (transition_of (fst p))
                   transition_duration /\
           lasts total_duration seg
       | Raise _ => seg = fallback_clip /\ lasts transition_duration seg
       end)
    (enumerate 1 (slides prs)) segments /\
  total_duration = 2.5%float /\
  transition_duration = 0.5%float.
Proof.
  intros Hload Hne segments.
  assert (Hseg : segments =
                 map (fun p => slide_segment w prs (fst p) (snd p))
                     (enumerate 1 (slides prs))).
  { unfold segments. now rewrite process_slides_run. }
  split; [| split; [| split; [| split; reflexivity]]].
  - rewrite convert_pptx_to_video_run, Hload. fold segments.
    destruct segments as [| c cs] eqn:E.
    + exfalso. apply Hne. apply (f_equal (@List.length clip)) in Hseg.
      rewrite length_map, enumerate_length in Hseg.
      destruct (slides prs); [reflexivity | discriminate].
    + cbv zeta. destruct (fst (write_videofile w _ _)); reflexivity.
  - rewrite Hseg, length_map. apply enumerate_length.
  - rewrite Hseg. clear Hseg segments.
    induction (enumerate 1 (slides prs)) as [| [i s] ps IH]; simpl;
      constructor; [| exact IH].
    apply slide_segment_cases.
Qed.

(* ===================================================================== *)
(** * The pipeline entry point *)
(* ===================================================================== *)

Lemma convert_to_video_run w output_path st :
  convert_to_video w output_path st =
  match convert_body w output_path st with
  | (Ok b, s) => (Ok b, s)
  | (Raise e, s) => (Raise e, after_cleanup w s)
  end.
Proof.
  unfold convert_to_video, try_except.
  destruct (convert_body w output_path st) as [[b | e] s]; [reflexivity |].
  unfold convert_cleanup, bind, os_path_exists, after_cleanup, os_remove,
    try_except, raise, ret, modify.
  destruct (output_file s); [| reflexivity].
  destruct (os_remove_succeeds w); reflexivity.
Qed.

(** The body once the checks have passed. *)
Lemma convert_body_after_preflight w output_path st :
  preflight_ok w ->
  convert_body w output_path st =
  match convert_pptx_to_video w st with
  | (Raise e, mid) => (Raise e, mid)
  | (Ok _, mid) =>
      match output_file mid with
      | None =>
          (Raise (mk_exn FileNotFoundError
                    ("Video was not created at "
                       ++ os_path_abspath w output_path)), mid)
      | Some video_size =>
          if video_size <? 1000
          then (Raise (mk_exn ValueError
                         ("Generated video is too small ("
                            ++ str_of_int video_size ++ " bytes)")), mid)
          else (Ok true, mid)
      end
  end.
Proof.
  intros (Hmagick & Htype & Hdirs).
  unfold convert_body, bind, lift, get, raise, ret.
  rewrite Hmagick, Htype, Hdirs. simpl.
  destruct (convert_pptx_to_video w st) as [[[] | e] mid]; [| reflexivity].
  destruct (output_file mid) as [sz |]; [| reflexivity].
  destruct (sz <? 1000); reflexivity.
Qed.

(** The body returns only [True], and only past the size check. *)
Lemma convert_body_ok w output_path st b s :
  convert_body w output_path st = (Ok b, s) ->
  b = true /\ exists sz, output_file s = Some sz /\ 1000 <= sz.
Proof.
  unfold convert_body, bind, lift, get, raise, ret.
  destruct (check_imagemagick w) as [[|] | e]; simpl; try discriminate.
  destruct (verify_file_type w _); simpl; try discriminate.
  destruct (os_makedirs w); simpl; try discriminate.
  destruct (convert_pptx_to_video w st) as [[[] | e] mid]; try discriminate.
  destruct (output_file mid) as [sz |] eqn:Eout; try discriminate.
  destruct (sz <? 1000) eqn:Esz; try discriminate.
  intros [= <- <-]. split; [reflexivity |].
  exists sz. split; [exact Eout |]. apply Z.ltb_ge. exact Esz.
Qed.

Lemma after_cleanup_deleted w s :
  os_remove_succeeds w = true -> output_file (after_cleanup w s) = None.
Proof.
  intros H. unfold after_cleanup.
  destruct (output_file s) eqn:E; [now rewrite H | exact E].
Qed.

Lemma after_cleanup_encoded w s : encoded (after_cleanup w s) = encoded s.
Proof.
  unfold after_cleanup.
  destruct (output_file s); [destruct (os_remove_succeeds w) |]; reflexivity.
Qed.

(** C1, counterexample: a run whose encoder leaves exactly 1000 bytes is
    reported as a success although 1000 bytes do not exceed 1000 bytes; and
    a run whose encoder leaves 500 bytes on a file system that refuses the
    deletion raises with the 500-byte file still at the output path. *)
Lemma success_at_exactly_1000_bytes :
  (exists st',
      convert_to_video (studio (deck_of [plain_slide []]) (writes 1000) true)
        "out.mp4" fresh = (Ok true, st') /\
      output_file st' = Some 1000 /\ ~ 1000 < 1000) /\
  (exists e st',
      convert_to_video (studio (deck_of [plain_slide []]) (writes 500) false)
        "out.mp4" fresh = (Raise e, st') /\
      output_file st' = Some 500).
Proof.
  split.
  - eexists. split; [vm_compute; reflexivity |]. split; [reflexivity | lia].
  - eexists _, _. split; [vm_compute; reflexivity | reflexivity].
Qed.

(** C1, as the code has it: [convert_to_video] reports success only if,
    after encoding, the output file exists and has at least 1000 bytes (a
    file of exactly 1000 bytes passes).  Whenever the encoder returned
    normally but left a file of fewer than 1000 bytes the run raises
    [ValueError]; before it propagates the handler tries to delete the
    file, which is gone unless the deletion itself fails (that failure is
    swallowed and the file stays). *)
Theorem success_needs_at_least_1000_bytes w output_path st :
  (forall b st',
      convert_to_video w output_path st = (Ok b, st') ->
      b = true /\ exists sz, output_file st' = Some sz /\ 1000 <= sz) /\
  (forall mid sz,
      preflight_ok w ->
      convert_pptx_to_video w st = (Ok tt, mid) ->
      output_file mid = Some sz ->
      sz < 1000 ->
      exists e st',
        convert_to_video w output_path st = (Raise e, st') /\
        exn_type e = ValueError /\
        output_file st' = if os_remove_succeeds w then None else Some sz).
Proof.
  split.
  - intros b st' H. rewrite convert_to_video_run in H.
    destruct (convert_body w output_path st) as [[b' | e] s] eqn:E;
      [| discriminate].
    injection H as <- <-. eapply convert_body_ok. exact E.
  - intros mid sz Hpre Hconv Hout Hsz.
    rewrite convert_to_video_run, (convert_body_after_preflight _ _ _ Hpre).
    rewrite Hconv, Hout.
    replace (sz <? 1000) with true by (symmetry; apply Z.ltb_lt; exact Hsz).
    eexists _, _. split; [reflexivity |]. split; [reflexivity |].
    unfold after_cleanup. rewrite Hout.
    destruct (os_remove_succeeds w); [reflexivity | exact Hout].
Qed.

(** C9, counterexample: the encoder raises after writing 4096 bytes and the
    file system refuses the deletion; [convert_to_video] raises and the
    partial file is still at the output path. *)
Lemma failed_run_can_leave_artifact :
  exists e st',
    convert_to_video
      (studio (deck_of [plain_slide []]) (crashes_leaving 4096) false)
      "out.mp4" fresh = (Raise e, st') /\
    output_file fresh = None /\
    output_file st' = Some 4096.
Proof.
  eexists _, _. split; [vm_compute; reflexivity |]. split; reflexivity.
Qed.

(** C9, as the code has it: [convert_to_video] never returns [False]; it
    returns [True] or raises.  Before an exception propagates the handler
    tries to delete what is at the output path and ignores a failure to
    delete: nothing is left there whenever the deletion succeeds, and when
    it fails the file stays. *)
Theorem returns_true_or_raises_after_cleanup w output_path st :
  (forall st', convert_to_video w output_path st <> (Ok false, st')) /\
  (forall e st',
      convert_to_video w output_path st = (Raise e, st') ->
      exists s,
        convert_body w output_path st = (Raise e, s) /\
        st' = after_cleanup w s /\
        (os_remove_succeeds w = true -> output_file st' = None) /\
        (os_remove_succeeds w = false -> output_file st' = output_file s)).
Proof.
  split.
  - intros st' H. rewrite convert_to_video_run in H.
    destruct (convert_body w output_path st) as [[b | e] s] eqn:E;
      [| discriminate].
    injection H as -> <-. apply convert_body_ok in E. now destruct E.
  - intros e st' H. rewrite convert_to_video_run in H.
    destruct (convert_body w output_path st) as [[b | e'] s] eqn:E;
      [discriminate |].
    injection H as <- <-. exists s. split; [reflexivity |].
    split; [reflexivity |]. split.
    + apply after_cleanup_deleted.
    + intros Hrm. unfold after_cleanup. rewrite Hrm.
      destruct (output_file s) eqn:Eout; exact Eout.
Qed.

(** C3, counterexample: a deck with zero slides, a file of 7 bytes already
    at the output path and a file system that refuses the deletion.  The
    run raises the "No valid slides were processed" error and encodes
    nothing, and a file exists at the output path after the run: the one
    that was there before. *)
Lemma zero_slide_run_can_leave_old_file :
  let w := studio (deck_of []) (writes 50000) false in
  let st := {| output_file := Some 7; encoded := [] |} in
  convert_to_video w "out.mp4" st =
    (Raise (mk_exn RuntimeError
              "Failed to convert PPTX to video: No valid slides were processed"),
     st) /\
  output_file st = Some 7.
Proof. cbv zeta. split; [vm_compute; reflexivity | reflexivity]. Qed.

(** C3, as the code has it: once the pre-flight checks have passed, a deck
    with zero slides makes the pipeline fail with the "No valid slides were
    processed" error, wrapped by [convert_pptx_to_video] and re-raised by
    [convert_to_video]; the encoder is never called and the run writes no
    file.  What is at the output path afterwards is what the handler's
    deletion leaves of what was there before: nothing when the path held no
    file or when [os.remove] succeeds, the old file when [os.remove]
    fails. *)
Theorem zero_slides_fail_before_encoding w output_path st prs :
  preflight_ok w ->
  load_presentation w = Ok prs ->
  slides prs = [] ->
  convert_to_video w output_path st =
    (Raise (mk_exn RuntimeError
              "Failed to convert PPTX to video: No valid slides were processed"),
     after_cleanup w st) /\
  encoded (after_cleanup w st) = encoded st /\
  (output_file st = None -> after_cleanup w st = st) /\
  (output_file st = None \/ os_remove_succeeds w = true ->
   output_file (after_cleanup w st) = None) /\
  (os_remove_succeeds w = false ->
   output_file (after_cleanup w st) = output_file st).
Proof.
  intros Hpre Hload Hnil.
  assert (Hconv : convert_pptx_to_video w st =
                  (Raise (mk_exn RuntimeError
                            "Failed to convert PPTX to video: No valid slides were processed"),
                   st)).
  { rewrite convert_pptx_to_video_run, Hload, Hnil. reflexivity. }
  split; [| split; [| split; [| split]]].
  - rewrite convert_to_video_run, (convert_body_after_preflight _ _ _ Hpre).
    now rewrite Hconv.
  - apply after_cleanup_encoded.
  - intros H. unfold after_cleanup. now rewrite H.
  - intros [H | H].
    + unfold after_cleanup. now rewrite H.
    + apply after_cleanup_deleted. exact H.
  - intros H. unfold after_cleanup. rewrite H.
    destruct (output_file st) eqn:E; exact E.
Qed.

(* ===================================================================== *)
(** * Layers of one shape *)
(* ===================================================================== *)

Section ShapeLayers.

Variable pil : Pillow.
Variables width height : Z.
Variable duration : float.
Variables slide_width_emus slide_height_emus : Z.

#[local] Abbreviation fill_step :=
(render_fill width height duration slide_width_emus slide_height_emus).
#[local] Abbreviation guarded_shape :=
(process_shape pil width height duration slide_width_emus
     slide_height_emus).
#[local] Abbreviation blank := (blank_layer width height).

(** The solid-fill step: one rectangle, each coordinate through
    [emu_to_px] against the deck extent of its own axis. *)
Lemma render_fill_run shape fill color x y w h l :
  shape_fill shape = Some fill ->
  fill_type fill = Some MSO_FILL_TYPE.SOLID ->
  fore_color_rgb fill = Some color ->
  emu_to_px (attr_or (shape_left shape) 0) slide_width_emus width = Ok x ->
  emu_to_px (attr_or (shape_top shape) 0) slide_height_emus height = Ok y ->
  emu_to_px (attr_or (shape_width shape) width) slide_width_emus width
    = Ok w ->
  emu_to_px (attr_or (shape_height shape) height) slide_height_emus height
    = Ok h ->
  fill_step shape l =
  (Ok tt,
   add_layers l
     [still duration
        (Draw_rectangle blank (x, y, x + w, y + h) (opaque color) None)]).
Proof.
  intros Hfill Htype Hcolor Hx Hy Hw Hh.
  unfold render_fill. rewrite Hfill, Htype. cbv zeta.
  unfold bind, lift. rewrite Hx, Hy, Hw, Hh, Hcolor. reflexivity.
Qed.


End ShapeLayers.

(* ===================================================================== *)
(** * The properties on the sample decks *)
(* ===================================================================== *)

Lemma studio_preflight prs enc can_delete :
  preflight_ok (studio prs enc can_delete).
Proof. repeat split. Qed.

(** C5, on the code: a patterned background is rendered as plain white, not
    as the checkerboard of [create_pattern_background], which nothing
    calls; a gradient background raises [NameError] because
    [create_gradient_background] does not exist, [create_slide_clip] then
    raises [UnboundLocalError] and the deck loop replaces the whole slide
    by the blank fallback clip. *)
Theorem pattern_and_gradient_backgrounds_not_rendered :
  (forall pil f width height,
      fill_type f = Some MSO_FILL_TYPE.PATTERNED ->
      background_image_of pil (Some f) width height =
      Ok (Image_new RGB (width, height) white)) /\
  create_slide_clip no_codecs 1920 1080 total_duration 9144000 6858000
    pattern_slide =
  Ok (still total_duration (Image_new RGB (1920, 1080) white)) /\
  Image_new RGB (1920, 1080) white <>
  create_pattern_background (0, 0, 0) (255, 255, 255) 1920 1080 /\
  (forall pil f width height,
      fill_type f = Some MSO_FILL_TYPE.GRADIENT ->
      exists e,
        background_image_of pil (Some f) width height = Raise e /\
        exn_type e = NameError) /\
  (exists e,
      create_slide_clip no_codecs 1920 1080 total_duration 9144000 6858000
        gradient_slide = Raise e /\
      exn_type e = UnboundLocalError) /\
  process_slides (studio (deck_of [gradient_slide]) (writes 50000) true)
    (deck_of [gradient_slide]) 1 [gradient_slide] [] = [fallback_clip].
Proof.
  split; [| split; [| split; [| split; [| split]]]].
  - intros pil f width height H. unfold background_image_of. now rewrite H.
  - vm_compute. reflexivity.
  - intros H.
    apply (f_equal (fun im => match im with
                              | Image_new _ _ _ => true
                              | _ => false
                              end)) in H.
    vm_compute in H. discriminate.
  - intros pil f width height H. unfold background_image_of. rewrite H.
    eexists. split; reflexivity.
  - eexists. split; [vm_compute; reflexivity | reflexivity].
  - vm_compute. reflexivity.
Qed.

Lemma pattern_and_gradient_backgrounds_not_rendered_witness :
  fill_type pattern_fill = Some MSO_FILL_TYPE.PATTERNED /\
  background_image_of no_codecs (Some pattern_fill) 1920 1080 =
  Ok (Image_new RGB (1920, 1080) white).
Proof.
  split; [reflexivity |].
  apply (proj1 pattern_and_gradient_backgrounds_not_rendered). reflexivity.
Defined.

Lemma half_second_is_not_full_length :
  Some transition_duration <> Some total_duration.
Proof.
  intros H.
  apply (f_equal (fun d => match d with
                           | Some f => Prim2SF f
                           | None => S754_nan
                           end)) in H.
  vm_compute in H. discriminate.
Qed.

(** C6, counterexample: a deck of one slide whose background is a gradient.
    Its only segment is the blank fallback clip, which is not wrapped in
    any transition and lasts 0.5 s, not 2.5 s. *)
Lemma fallback_segment_lasts_half_a_second :
  let w := studio (deck_of [gradient_slide]) (writes 50000) true in
  process_slides w (deck_of [gradient_slide]) 1 [gradient_slide] [] =
    [fallback_clip] /\
  encoded (snd (convert_pptx_to_video w fresh)) =
    [concatenate_videoclips [fallback_clip]] /\
  fallback_clip =
    set_duration (ImageClip (Image_new RGB (1920, 1080) white))
                 (Some 0.5%float) /\
  clip_duration fallback_clip = Some 0.5%float /\
  clip_duration fallback_clip <> Some total_duration.
Proof.
  cbv zeta. split; [vm_compute; reflexivity |].
  split; [vm_compute; reflexivity |].
  split; [reflexivity |]. split; [reflexivity |].
  exact half_second_is_not_full_length.
Qed.

Lemma segments_in_order_with_durations_witness :
  let w := studio (deck_of [plain_slide []; gradient_slide]) (writes 50000)
             true in
  let prs := deck_of [plain_slide []; gradient_slide] in
  load_presentation w = Ok prs /\
  slides prs <> [] /\
  List.length (process_slides w prs 1 (slides prs) []) =
  List.length (slides prs).
Proof.
  cbv zeta. split; [reflexivity |]. split; [discriminate |].
  apply (segments_in_order_with_durations
           (studio (deck_of [plain_slide []; gradient_slide]) (writes 50000)
              true)
           (deck_of [plain_slide []; gradient_slide]) fresh);
    [reflexivity | discriminate].
Defined.



(** C8, counterexample: a picture with a solid red fill whose bytes do not
    decode.  Rendering it raises, yet the shape is not skipped: its fill
    rectangle is a layer of the slide's clip. *)
Lemma failing_picture_keeps_its_fill_rectangle :
  (exists e,
      fst (render_shape no_codecs 1920 1080 total_duration 9144000 6858000
             filled_picture unbound) = Raise e /\
      exn_type e = UnidentifiedImageError) /\
  create_slide_clip no_codecs 1920 1080 total_duration 9144000 6858000
    (plain_slide [filled_picture]) =
  Ok (CompositeVideoClip
        [ still total_duration (Image_new RGB (1920, 1080) white);
          still total_duration
            (Draw_rectangle (blank_layer 1920 1080) (0, 0, 960, 540)
               (255, 0, 0, 255) None) ]
        (Some (1920, 1080))).
Proof.
  split.
  - eexists. split; [vm_compute; reflexivity | reflexivity].
  - vm_compute. reflexivity.
Qed.

Lemma bad_shape_keeps_at_most_its_fill_witness :
  exists kept,
    create_slide_clip no_codecs 1920 1080 total_duration 9144000 6858000
      (plain_slide [red_box; filled_picture; red_box]) =
    Ok (stack 1920 1080
          (still total_duration (Image_new RGB (1920, 1080) white))
          (List.concat
             (map (shape_layers no_codecs 1920 1080 total_duration
                     9144000 6858000) [red_box])
           ++ kept ++
           List.concat
             (map (shape_layers no_codecs 1920 1080 total_duration
                     9144000 6858000) [red_box]))) /\
    kept =
    [ still total_duration
        (Draw_rectangle (blank_layer 1920 1080) (0, 0, 960, 540)
           (255, 0, 0, 255) None) ].
Proof.
  destruct (bad_shape_keeps_at_most_its_fill no_codecs 1920 1080
              total_duration 9144000 6858000
              (plain_slide [red_box; filled_picture; red_box])
              [red_box] filled_picture [red_box]
              (Image_new RGB (1920, 1080) white)
              eq_refl eq_refl
              (ex_intro _ (mk_exn UnidentifiedImageError
                             "cannot identify image file") eq_refl))
    as (kept & Hclip & Hkept & _).
  exists kept. split; [exact Hclip |].
  rewrite Hkept. vm_compute. reflexivity.
Defined.

Lemma fallback_needs_bound_background_witness :
  exists e,
    background_stage no_codecs 1920 1080 gradient_slide = Raise e /\
    exists e',
      create_slide_clip no_codecs 1920 1080 total_duration 9144000 6858000
        gradient_slide = Raise e' /\
      exn_type e' = UnboundLocalError.
Proof.
  eexists. split; [reflexivity |].
  apply (proj1 (fallback_needs_bound_background no_codecs 1920 1080
                  total_duration 9144000 6858000 gradient_slide)
               (mk_exn NameError
                  "name 'create_gradient_background' is not defined")).
  reflexivity.
Defined.

Lemma success_needs_at_least_1000_bytes_witness :
  let w := studio (deck_of [plain_slide []]) (writes 500) true in
  preflight_ok w /\
  convert_pptx_to_video w fresh =
    (Ok tt, snd (convert_pptx_to_video w fresh)) /\
  output_file (snd (convert_pptx_to_video w fresh)) = Some 500 /\
  500 < 1000 /\
  exists e st',
    convert_to_video w "out.mp4" fresh = (Raise e, st') /\
    exn_type e = ValueError /\
    output_file st' = if os_remove_succeeds w then None else Some 500.
Proof.
  cbv zeta.
  split; [apply studio_preflight |].
  split; [vm_compute; reflexivity |].
  split; [vm_compute; reflexivity |].
  split; [lia |].
  apply (proj2 (success_needs_at_least_1000_bytes
                  (studio (deck_of [plain_slide []]) (writes 500) true)
                  "out.mp4" fresh)
               (snd (convert_pptx_to_video
                       (studio (deck_of [plain_slide []]) (writes 500) true)
                       fresh))
               500).
  - apply studio_preflight.
  - vm_compute. reflexivity.
  - vm_compute. reflexivity.
  - lia.
Defined.

Lemma returns_true_or_raises_after_cleanup_witness :
  let w := studio (deck_of [plain_slide []]) (crashes_leaving 4096) true in
  exists e st',
    convert_to_video w "out.mp4" fresh = (Raise e, st') /\
    exists s,
      convert_body w "out.mp4" fresh = (Raise e, s) /\
      st' = after_cleanup w s /\
      (os_remove_succeeds w = true -> output_file st' = None) /\
      (os_remove_succeeds w = false -> output_file st' = output_file s).
Proof.
  cbv zeta. eexists _, _. split; [vm_compute; reflexivity |].
  apply (proj2 (returns_true_or_raises_after_cleanup
                  (studio (deck_of [plain_slide []]) (crashes_leaving 4096)
                     true)
                  "out.mp4" fresh)).
  vm_compute. reflexivity.
Defined.

Lemma zero_slides_fail_before_encoding_witness :
  let w := studio (deck_of []) (writes 50000) true in
  let st := {| output_file := Some 7; encoded := [] |} in
  preflight_ok w /\
  load_presentation w = Ok (deck_of []) /\
  slides (deck_of []) = [] /\
  convert_to_video w "out.mp4" st =
    (Raise (mk_exn RuntimeError
              "Failed to convert PPTX to video: No valid slides were processed"),
     after_cleanup w st) /\
  output_file (after_cleanup w st) = None.
Proof.
  cbv zeta.
  split; [apply studio_preflight |].
  split; [reflexivity |]. split; [reflexivity |].
  destruct (zero_slides_fail_before_encoding
              (studio (deck_of []) (writes 50000) true) "out.mp4"
              {| output_file := Some 7; encoded := [] |} (deck_of [])
              (studio_preflight _ _ _) eq_refl eq_refl)
    as (Hrun & _ & _ & Hgone & _).
  split; [exact Hrun |]. apply Hgone. right. reflexivity.
Defined.
(* ===================================================================== *)
(** * Double-precision arithmetic of the unit conversion *)
(* ===================================================================== *)

(** ** Binary digits *)

Lemma digits2_pos_size p : digits2_pos p = Pos.size p.
Proof. induction p; simpl; congruence. Qed.

Lemma digits_bounds p :
  2 ^ (Zpos (digits2_pos p) - 1) <= Zpos p < 2 ^ Zpos (digits2_pos p).
Proof.
  rewrite digits2_pos_size. split.
  - pose proof (Pos.size_le p) as H.
    assert (H' : 2 ^ Zpos (Pos.size p) <= 2 * Zpos p).
    { rewrite <- Pos2Z.inj_pow. change (2 * Zpos p) with (Zpos p~0).
      apply Pos2Z.pos_le_pos. exact H. }
    replace (Zpos (Pos.size p)) with (Zpos (Pos.size p) - 1 + 1) in H' by lia.
    rewrite Z.pow_add_r in H' by lia. change (2 ^ 1) with 2 in H'. lia.
  - rewrite <- Pos2Z.inj_pow. apply Pos2Z.pos_lt_pos. apply Pos.size_gt.
Qed.

Lemma digits_unique p d :
  2 ^ (d - 1) <= Zpos p < 2 ^ d -> Zpos (digits2_pos p) = d.
Proof.
  intros [Hlo Hhi]. pose proof (digits_bounds p) as [Blo Bhi].
  set (k := Zpos (digits2_pos p)) in *.
  assert (0 < d).
  { destruct (Z.ltb_spec 0 d); [assumption |].
    exfalso. assert (2 ^ d <= 2 ^ 0) by (apply Z.pow_le_mono_r; lia).
    change (2 ^ 0) with 1 in *. lia. }
  destruct (Z.lt_trichotomy k d) as [Hlt | [Heq | Hgt]]; [| assumption |].
  - exfalso. assert (2 ^ k <= 2 ^ (d - 1)) by (apply Z.pow_le_mono_r; lia). lia.
  - exfalso. assert (2 ^ d <= 2 ^ (k - 1)) by (apply Z.pow_le_mono_r; lia). lia.
Qed.

(** ** Shifts *)

Lemma iter_xO m d : Zpos (Pos.iter xO m d) = Zpos m * 2 ^ Zpos d.
Proof.
  revert m. induction d using Pos.peano_ind; intros m.
  - simpl. change (2 ^ 1) with 2. lia.
  - rewrite Pos.iter_succ. rewrite Pos2Z.inj_succ, Z.pow_succ_r by lia.
    change (Zpos (Pos.iter xO m d)~0) with (2 * Zpos (Pos.iter xO m d)).
    rewrite IHd. lia.
Qed.

Lemma iter_pos_nat {A} (f : A -> A) p x :
  iter_pos f p x = Nat.iter (Pos.to_nat p) f x.
Proof.
  revert x. induction p as [p IH | p IH |]; intros x; cbn [iter_pos].
  - rewrite !IH. rewrite Pos2Nat.inj_xI.
    replace (S (2 * Pos.to_nat p))%nat with (Pos.to_nat p + (Pos.to_nat p + 1))%nat by lia.
    rewrite !Nat.iter_add. simpl. reflexivity.
  - rewrite !IH. rewrite Pos2Nat.inj_xO.
    replace (2 * Pos.to_nat p)%nat with (Pos.to_nat p + Pos.to_nat p)%nat by lia.
    rewrite Nat.iter_add. reflexivity.
  - reflexivity.
Qed.

(** One step of [shr_1] on a non-negative mantissa. *)
Lemma shr_1_spec m r s :
  0 <= m ->
  shr_1 {| shr_m := m; shr_r := r; shr_s := s |} =
  {| shr_m := m / 2; shr_r := Z.odd m; shr_s := r || s |}.
Proof.
  intros Hm. destruct m as [| p | p]; [reflexivity | | lia].
  destruct p as [p | p |]; cbn [shr_1 Z.odd].
  - replace (Zpos p~1 / 2) with (Zpos p); [reflexivity |].
    apply Z.div_unique with 1; lia.
  - replace (Zpos p~0 / 2) with (Zpos p); [reflexivity |].
    apply Z.div_unique with 0; lia.
  - reflexivity.
Qed.

(** [n] steps: the mantissa loses its [n] low bits, and the two flags
    together record whether anything non-zero was lost. *)
Lemma shr_nat_spec n m r s :
  0 <= m ->
  let res := Nat.iter n shr_1 {| shr_m := m; shr_r := r; shr_s := s |} in
  shr_m res = m / 2 ^ Z.of_nat n /\
  (shr_r res || shr_s res =
   negb (m mod 2 ^ Z.of_nat n =? 0) || (r || s)).
Proof.
  intros Hm. induction n as [| n IH].
  - simpl. rewrite Z.div_1_r, Z.mod_1_r. simpl. split; reflexivity.
  - cbv zeta in *. rewrite Nat.iter_succ.
    destruct (Nat.iter n shr_1 _) as [m' r' s'] eqn:E. simpl in IH.
    destruct IH as [IHm IHf].
    assert (Hm' : 0 <= m') by (subst m'; apply Z.div_pos; lia).
    rewrite shr_1_spec by assumption. cbn [shr_m shr_r shr_s].
    rewrite Nat2Z.inj_succ, Z.pow_succ_r by lia.
    assert (Hpow : 0 < 2 ^ Z.of_nat n) by (apply Z.pow_pos_nonneg; lia).
    split.
    + subst m'. rewrite Z.div_div by lia. f_equal. lia.
    + rewrite IHf.
      (* low n+1 bits vanish iff low n bits vanish and bit n is 0 *)
      assert (Hdec : m mod (2 * 2 ^ Z.of_nat n) =
                     m mod 2 ^ Z.of_nat n + 2 ^ Z.of_nat n * (m' mod 2)).
      { subst m'. rewrite (Z.mul_comm 2). rewrite Z.rem_mul_r by lia. lia. }
      rewrite Hdec.
      assert (Hodd : Z.odd m' = negb (m' mod 2 =? 0)).
      { rewrite Zmod_odd. destruct (Z.odd m'); reflexivity. }
      rewrite Hodd.
      pose proof (Z.mod_pos_bound m (2 ^ Z.of_nat n) Hpow).
      pose proof (Z.mod_pos_bound m' 2 ltac:(lia)).
      destruct (Z.eqb_spec (m' mod 2) 0) as [E2 | E2];
        destruct (Z.eqb_spec (m mod 2 ^ Z.of_nat n) 0) as [E1 | E1];
        destruct (Z.eqb_spec (m mod 2 ^ Z.of_nat n
                              + 2 ^ Z.of_nat n * (m' mod 2)) 0) as [E3 | E3];
        simpl; try reflexivity; try (exfalso; nia);
        destruct r, s; reflexivity.
Qed.

Lemma fexp_normal e : -1074 <= e - 53 -> fexp prec emax e = e - 53.
Proof. intros H. unfold fexp, emin, prec, emax. lia. Qed.

Lemma round_nearest_even_cases q r s :
  let m1 := round_nearest_even q
              (loc_of_shr_record {| shr_m := q; shr_r := r; shr_s := s |}) in
  m1 = q \/ (m1 = q + 1 /\ r || s = true).
Proof.
  destruct r, s; simpl; auto; destruct (Z.even q); auto.
Qed.

Lemma loc_record_flags m l :
  shr_m (shr_record_of_loc m l) = m /\
  (l = loc_Exact ->
   shr_r (shr_record_of_loc m l) || shr_s (shr_record_of_loc m l) = false).
Proof.
  destruct l as [| []]; simpl; split; try reflexivity; discriminate.
Qed.

(** The shift of [shr] as a division. *)
Lemma shr_spec mrs e n :
  0 <= shr_m mrs -> 0 <= n ->
  let res := shr mrs e n in
  snd res = e + n /\
  shr_m (fst res) = shr_m mrs / 2 ^ n /\
  (shr_r (fst res) || shr_s (fst res) =
   negb (shr_m mrs mod 2 ^ n =? 0) || (shr_r mrs || shr_s mrs)).
Proof.
  intros Hm Hn. destruct mrs as [m r s]. simpl in Hm.
  destruct n as [| p | p]; [| | lia].
  - simpl. rewrite Z.div_1_r, Z.mod_1_r, Z.add_0_r. simpl. auto.
  - cbn [shr fst snd]. rewrite iter_pos_nat.
    pose proof (shr_nat_spec (Pos.to_nat p) m r s Hm) as H. cbv zeta in H.
    rewrite positive_nat_Z in H. cbn [shr_m shr_r shr_s].
    destruct H as [H1 H2]. auto.
Qed.

(** Rounding a mantissa of at least 53 bits whose result stays in the
    normal range: the result has 53 bits and is less than one unit in the
    last place away from the mantissa it rounds. *)
Lemma binary_round_aux_normal sx pm ex lx :
  let dm := Zpos (digits2_pos pm) in
  53 <= dm ->
  -1074 <= dm + ex - 53 ->
  dm + ex - 53 + 1 <= 971 ->
  exists m e,
    binary_round_aux prec emax sx (Zpos pm) ex lx = S754_finite sx m e /\
    2 ^ 52 <= Zpos m < 2 ^ 53 /\
    ex + (dm - 53) <= e <= ex + (dm - 53) + 1 /\
    Zpos pm - 2 ^ (dm - 53) < Zpos m * 2 ^ (e - ex)
      <= Zpos pm + 2 ^ (dm - 53) /\
    (lx = loc_Exact -> Zpos m * 2 ^ (e - ex) < Zpos pm + 2 ^ (dm - 53)).
Proof.
  intros dm Hd Hlo Hhi.
  set (n0 := dm - 53).
  assert (Hn0 : 0 <= n0) by (unfold n0; lia).
  assert (Hp0 : 0 < 2 ^ n0) by (apply Z.pow_pos_nonneg; lia).
  pose proof (digits_bounds pm) as [Blo Bhi]. fold dm in Blo, Bhi.
  replace (dm - 1) with (52 + n0) in Blo by (unfold n0; lia).
  replace dm with (53 + n0) in Bhi by (unfold n0; lia).
  rewrite Z.pow_add_r in Blo, Bhi by lia.
  set (q := Zpos pm / 2 ^ n0).
  assert (Hq : 2 ^ 52 <= q < 2 ^ 53).
  { unfold q. split.
    - apply Z.div_le_lower_bound; lia.
    - apply Z.div_lt_upper_bound; lia. }
  pose proof (Z.div_mod (Zpos pm) (2 ^ n0) ltac:(lia)) as Hdm. fold q in Hdm.
  pose proof (Z.mod_pos_bound (Zpos pm) (2 ^ n0) Hp0) as Hmod.
  unfold binary_round_aux, shr_fexp.
  cbn [Zdigits2]. fold dm.
  rewrite fexp_normal by lia.
  replace (dm + ex - 53 - ex) with n0 by (unfold n0; lia).
  pose proof (loc_record_flags (Zpos pm) lx) as [Hrm Hrf].
  pose proof (shr_spec (shr_record_of_loc (Zpos pm) lx) ex n0
                ltac:(rewrite Hrm; lia) Hn0) as Hs.
  cbv zeta in Hs.
  destruct (shr (shr_record_of_loc (Zpos pm) lx) ex n0) as [mrs' e'].
  cbn [fst snd] in Hs. destruct Hs as (He' & Hm' & Hf').
  rewrite Hrm in Hm', Hf'. fold q in Hm'.
  destruct mrs' as [m' r' s']. cbn [shr_m shr_r shr_s] in *. subst m' e'.
  pose proof (round_nearest_even_cases q r' s') as Hr. cbv zeta in Hr.
  set (m1 := round_nearest_even q _) in *.
  assert (Hm1 : 2 ^ 52 <= m1 <= 2 ^ 53) by (destruct Hr as [-> | [-> _]]; lia).
  assert (Hflag : m1 = q + 1 -> lx = loc_Exact -> Zpos pm mod 2 ^ n0 <> 0).
  { intros E1 El. destruct Hr as [Hr | [_ Hr]]; [lia |].
    rewrite Hf', (Hrf El) in Hr. rewrite orb_false_r in Hr.
    destruct (Z.eqb_spec (Zpos pm mod 2 ^ n0) 0); [discriminate | assumption]. }
  assert (Hm1q : m1 = q \/ m1 = q + 1) by (destruct Hr as [-> | [-> _]]; auto).
  clearbody m1. clear Hr Hf' Hrf Hrm.
  destruct m1 as [| p1 | p1]; try lia.
  destruct (Z.eq_dec (Zpos p1) (2 ^ 53)) as [Etop | Ntop].
  - (* the rounding carried into a 54th bit *)
    assert (Hd1 : Zpos (digits2_pos p1) = 54).
    { apply digits_unique. rewrite Etop.
      change (54 - 1) with 53. split; [lia |].
      apply Z.pow_lt_mono_r; lia. }
    cbn [Zdigits2]. rewrite Hd1.
    rewrite fexp_normal by lia.
    replace (54 + (ex + n0) - 53 - (ex + n0)) with 1 by lia.
    cbn [shr shr_record_of_loc iter_pos fst snd].
    rewrite shr_1_spec by lia. cbn [shr_m].
    rewrite Etop. change (2 ^ 53 / 2) with (2 ^ 52).
    change (2 ^ 52) with (Zpos (2 ^ 52)).
    replace (ex + n0 + 1 <=? emax - prec) with true
      by (symmetry; apply Z.leb_le; unfold emax, prec; lia).
    exists (2 ^ 52)%positive, (ex + n0 + 1).
    split; [reflexivity |].
    split; [split; [reflexivity | reflexivity] |].
    split; [lia |].
    replace (ex + n0 + 1 - ex) with (1 + n0) by lia.
    rewrite Z.pow_add_r by lia.
    change (Zpos (2 ^ 52)) with (2 ^ 52).
    replace (2 ^ 52 * (2 ^ 1 * 2 ^ n0)) with (2 ^ 53 * 2 ^ n0)
      by (change (2 ^ 53) with (2 ^ 52 * 2 ^ 1); ring).
    rewrite <- Etop.
    split; [split |].
    + destruct Hm1q as [-> | ->]; nia.
    + destruct Hm1q as [-> | ->]; nia.
    + intros El. destruct Hm1q as [E1 | E1].
      * rewrite E1. nia.
      * pose proof (Hflag E1 El). rewrite E1. nia.
  - assert (Hd1 : Zpos (digits2_pos p1) = 53).
    { apply digits_unique. change (53 - 1) with 52. lia. }
    cbn [Zdigits2]. rewrite Hd1.
    rewrite fexp_normal by lia.
    replace (53 + (ex + n0) - 53 - (ex + n0)) with 0 by lia.
    cbn [shr shr_record_of_loc fst snd shr_m].
    replace (ex + n0 <=? emax - prec) with true
      by (symmetry; apply Z.leb_le; unfold emax, prec; lia).
    exists p1, (ex + n0).
    split; [reflexivity |].
    split; [lia |].
    split; [lia |].
    replace (ex + n0 - ex) with n0 by lia.
    split; [split |].
    + destruct Hm1q as [-> | ->]; nia.
    + destruct Hm1q as [-> | ->]; nia.
    + intros El. destruct Hm1q as [E1 | E1].
      * rewrite E1. nia.
      * pose proof (Hflag E1 El). rewrite E1. nia.
Qed.


(** A positive integer below [2^53] converts exactly: a 53-bit mantissa
    and a non-positive exponent. *)
Lemma float_of_int_exact z :
  0 < z < 2 ^ 53 ->
  exists m e,
    Prim2SF (float_of_int z) = S754_finite false m e /\
    2 ^ 52 <= Zpos m < 2 ^ 53 /\
    -52 <= e <= 0 /\
    Zpos m = z * 2 ^ (- e).
Proof.
  intros [Hz0 Hz1]. destruct z as [| p | p]; try lia.
  pose proof (digits_bounds p) as [Blo Bhi].
  set (d := Zpos (digits2_pos p)) in *.
  assert (Hd : 1 <= d <= 53).
  { split; [unfold d; lia |].
    destruct (Z.leb_spec d 53); [assumption |].
    exfalso. assert (2 ^ 53 <= 2 ^ (d - 1)) by (apply Z.pow_le_mono_r; lia).
    lia. }
  (* the aligned mantissa *)
  assert (Hal : exists mz,
             shl_align p 0 (fexp prec emax (d + 0)) = (mz, d - 53) /\
             Zpos mz = Zpos p * 2 ^ (53 - d)).
  { rewrite fexp_normal by lia. unfold shl_align.
    replace (d + 0 - 53 - 0) with (d - 53) by lia.
    destruct (d - 53) as [| k | k] eqn:Ek; try lia.
    - exists p. replace d with 53 by lia. split; [reflexivity |].
      change (2 ^ (53 - 53)) with 1. lia.
    - exists (Pos.iter xO p k). replace (d + 0 - 53) with (Zneg k) by lia.
      split; [reflexivity |].
      rewrite iter_xO. f_equal. f_equal. lia. }
  destruct Hal as (mz & Hal & Hmz).
  assert (Hmzb : 2 ^ 52 <= Zpos mz < 2 ^ 53).
  { rewrite Hmz. split.
    - replace 52 with ((d - 1) + (53 - d)) by lia.
      rewrite Z.pow_add_r by lia.
      apply Z.mul_le_mono_nonneg_r; [apply Z.pow_nonneg; lia | exact Blo].
    - replace 53 with (d + (53 - d)) at 2 by lia.
      rewrite Z.pow_add_r by lia.
      apply Z.mul_lt_mono_pos_r; [apply Z.pow_pos_nonneg; lia | exact Bhi]. }
  assert (Hdz : Zpos (digits2_pos mz) = 53).
  { apply digits_unique. change (53 - 1) with 52. exact Hmzb. }
  pose proof (binary_round_aux_normal false mz (d - 53) loc_Exact) as H.
  cbv zeta in H. rewrite Hdz in H.
  destruct (H ltac:(lia) ltac:(lia) ltac:(lia))
    as (m & e & Hr & Hm & He & Hv & Hx).
  specialize (Hx eq_refl).
  change (2 ^ (53 - 53)) with 1 in *.
  assert (Hee : e = d - 53).
  { destruct (Z.eq_dec e (d - 53)) as [-> | Ne]; [reflexivity |].
    exfalso. replace (e - (d - 53)) with 1 in * by lia.
    change (2 ^ 1) with 2 in *. lia. }
  subst e. replace (d - 53 - (d - 53)) with 0 in * by lia.
  change (2 ^ 0) with 1 in *.
  assert (Hmm : m = mz) by lia. subst m.
  exists mz, (d - 53).
  assert (Hnorm : binary_normalize prec emax (Zpos p) 0 false =
                  S754_finite false mz (d - 53)).
  { unfold binary_normalize, binary_round. fold d. rewrite Hal. exact Hr. }
  split.
  - unfold float_of_int. rewrite Hnorm. apply Prim2SF_SF2Prim.
    unfold valid_binary, bounded, canonical_mantissa.
    rewrite Hdz, fexp_normal by lia.
    apply andb_true_intro. split.
    + apply Z.eqb_eq. lia.
    + apply Z.leb_le. unfold emax, prec. lia.
  - split; [exact Hmzb |]. split; [lia |].
    rewrite Hmz. f_equal. f_equal. lia.
Qed.

Lemma float_of_int_zero : Prim2SF (float_of_int 0) = S754_zero false.
Proof. reflexivity. Qed.

(** Below [2^53] the conversion of an int never overflows. *)
Lemma py_float_small z : 0 < z < 2 ^ 53 -> py_float z = Ok (float_of_int z).
Proof.
  intros Hz. destruct (float_of_int_exact z Hz) as (m & e & F & Hm & He & _).
  unfold py_float.
  destruct (binary_normalize prec emax z 0 false) as [s | s | | s m' e']
    eqn:E; try reflexivity.
  exfalso. unfold float_of_int in F. rewrite E in F.
  vm_compute in F. destruct s; discriminate.
Qed.

Lemma new_location_zero n : new_location n 0 = loc_Exact.
Proof.
  unfold new_location, new_location_even, new_location_odd.
  destruct (Z.even n); reflexivity.
Qed.

Lemma quotient_rounding M2 V Qz r m' u w :
  0 < M2 -> m' = M2 * Qz + r -> 0 <= r < M2 -> 0 < u <= w ->
  Qz - u < V <= Qz + u -> (r = 0 -> V < Qz + u) ->
  Z.abs (M2 * V - m') < M2 * w.
Proof.
  intros HM -> Hr Hu HV Hex.
  assert (A1 : M2 * (V - Qz) <= M2 * u)
    by (apply Z.mul_le_mono_nonneg_l; lia).
  assert (A2 : M2 * (1 - u) <= M2 * (V - Qz))
    by (apply Z.mul_le_mono_nonneg_l; lia).
  assert (A3 : M2 * u <= M2 * w) by (apply Z.mul_le_mono_nonneg_l; lia).
  replace (M2 * (V - Qz)) with (M2 * V - M2 * Qz) in * by ring.
  replace (M2 * (1 - u)) with (M2 - M2 * u) in * by ring.
  apply Z.abs_lt. destruct (Z.eq_dec r 0) as [E | NE].
  - assert (A4 : M2 * V < M2 * (Qz + u))
      by (apply Z.mul_lt_mono_pos_l; [assumption | apply Hex; exact E]).
    replace (M2 * (Qz + u)) with (M2 * Qz + M2 * u) in * by ring. lia.
  - lia.
Qed.

(** Dividing two mantissas of at most 53 bits each: the quotient has 53
    bits and is less than one unit in the last place away from the exact
    quotient. *)
Lemma SFdiv_normal m1 e1 m2 e2 :
  let d1 := Zpos (digits2_pos m1) in
  let d2 := Zpos (digits2_pos m2) in
  d1 <= 53 -> d2 <= 53 ->
  -52 <= e1 <= 0 -> -52 <= e2 <= 0 ->
  exists m e,
    SFdiv prec emax (S754_finite false m1 e1) (S754_finite false m2 e2) =
    S754_finite false m e /\
    2 ^ 52 <= Zpos m < 2 ^ 53 /\
    0 <= e - (d1 + e1 - (d2 + e2) - 53) <= 2 /\
    Z.abs (Zpos m2 * (Zpos m * 2 ^ (e - (d1 + e1 - (d2 + e2) - 53)))
           - Zpos m1 * 2 ^ (53 + d2 - d1))
      < Zpos m2 * 2 ^ (e - (d1 + e1 - (d2 + e2) - 53)).
Proof.
  intros d1 d2 Hd1 Hd2 He1 He2.
  pose proof (digits_bounds m1) as [B1lo B1hi].
  pose proof (digits_bounds m2) as [B2lo B2hi].
  change (Zpos (digits2_pos m1)) with d1 in B1lo, B1hi.
  change (Zpos (digits2_pos m2)) with d2 in B2lo, B2hi.
  assert (Hd1p : 1 <= d1) by (unfold d1; lia).
  assert (Hd2p : 1 <= d2) by (unfold d2; lia).
  unfold SFdiv, SFdiv_core_binary. cbn [Zdigits2 xorb].
  change (Zpos (digits2_pos m1)) with d1.
  change (Zpos (digits2_pos m2)) with d2.
  rewrite fexp_normal by lia.
  set (e' := d1 + e1 - (d2 + e2) - 53).
  set (s := 53 + d2 - d1).
  replace (Z.min e' (e1 - e2)) with e' by (unfold e'; lia).
  replace (e1 - e2 - e') with s by (unfold e', s; lia).
  assert (Hs : 1 <= s) by (unfold s; lia).
  assert (Hsh : match s with
                | 0 => Zpos m1
                | Zpos _ => Z.shiftl (Zpos m1) s
                | Zneg _ => 0
                end = Zpos m1 * 2 ^ s).
  { destruct s as [| ps | ps] eqn:Es; try lia.
    apply Z.shiftl_mul_pow2. lia. }
  rewrite Hsh. clear Hsh.
  set (m' := Zpos m1 * 2 ^ s).
  pose proof (Z_div_mod m' (Zpos m2) ltac:(lia)) as Hdiv.
  destruct (Z.div_eucl m' (Zpos m2)) as [q r]. destruct Hdiv as [Hqr Hr].
  assert (Hq : 2 ^ 52 <= q < 2 ^ 54).
  { set (A := 2 ^ (d1 - 1)) in *. set (B := 2 ^ (d2 - 1)) in *.
    assert (HA2 : 2 ^ d1 = 2 * A).
    { unfold A. rewrite <- Z.pow_succ_r by lia. f_equal. lia. }
    assert (HB2 : 2 ^ d2 = 2 * B).
    { unfold B. rewrite <- Z.pow_succ_r by lia. f_equal. lia. }
    assert (HAP : A * 2 ^ s = 2 ^ 53 * B).
    { unfold A, B. rewrite <- !Z.pow_add_r by lia. f_equal. unfold s. lia. }
    assert (HB0 : 0 < B) by (unfold B; apply Z.pow_pos_nonneg; lia).
    assert (HP0 : 0 < 2 ^ s) by (apply Z.pow_pos_nonneg; lia).
    rewrite HA2 in B1hi. rewrite HB2 in B2hi.
    change (2 ^ 54) with (4 * 2 ^ 52). change (2 ^ 53) with (2 * 2 ^ 52) in HAP.
    set (c := 2 ^ 52) in *. assert (Hc : 0 < c) by (unfold c; reflexivity).
    assert (Hlow : 2 * c * B <= m').
    { unfold m'. rewrite <- HAP.
      apply Z.mul_le_mono_nonneg_r; lia. }
    assert (Hhigh : m' < 4 * c * B).
    { unfold m'.
      replace (4 * c * B) with (2 * A * 2 ^ s)
        by (replace (2 * A * 2 ^ s) with (2 * (A * 2 ^ s)) by ring;
            rewrite HAP; ring).
      apply Z.mul_lt_mono_pos_r; lia. }
    split.
    - destruct (Z.le_gt_cases c q) as [Hle | Hgt]; [assumption |].
      exfalso.
      assert (Zpos m2 * q <= Zpos m2 * (c - 1))
        by (apply Z.mul_le_mono_nonneg_l; lia).
      assert (c * Zpos m2 < c * (2 * B))
        by (apply Z.mul_lt_mono_pos_l; lia).
      replace (Zpos m2 * (c - 1)) with (c * Zpos m2 - Zpos m2) in * by ring.
      replace (c * (2 * B)) with (2 * c * B) in * by ring.
      lia.
    - destruct (Z.lt_ge_cases q (4 * c)) as [Hlt | Hge]; [assumption |].
      exfalso.
      assert (Zpos m2 * (4 * c) <= Zpos m2 * q)
        by (apply Z.mul_le_mono_nonneg_l; lia).
      assert (4 * c * B <= 4 * c * Zpos m2)
        by (apply Z.mul_le_mono_nonneg_l; lia).
      replace (Zpos m2 * (4 * c)) with (4 * c * Zpos m2) in * by ring.
      lia. }
  destruct q as [| pq | pq]; try lia.
  pose proof (digits_bounds pq) as [Blo Bhi].
  set (dq := Zpos (digits2_pos pq)) in *.
  assert (Hdq : dq = 53 \/ dq = 54).
  { destruct (Z.lt_trichotomy dq 53) as [Hlt | [E | Hgt]]; [| lia |].
    - exfalso. assert (2 ^ dq <= 2 ^ 52) by (apply Z.pow_le_mono_r; lia). lia.
    - destruct (Z.eq_dec dq 54); [lia |]. exfalso.
      assert (2 ^ 54 <= 2 ^ (dq - 1)) by (apply Z.pow_le_mono_r; lia). lia. }
  pose proof (binary_round_aux_normal false pq e' (new_location (Zpos m2) r))
    as H.
  cbv zeta in H. fold dq in H.
  destruct (H ltac:(lia) ltac:(unfold e'; lia) ltac:(unfold e'; lia))
    as (m & e & Hres & Hm & He & Hv & Hx).
  exists m, e. split; [exact Hres |]. split; [exact Hm |].
  split; [lia |].
  set (j := e - e') in *.
  assert (Hj : 0 <= j) by lia.
  assert (Hpj : 2 ^ (dq - 53) <= 2 ^ j) by (apply Z.pow_le_mono_r; lia).
  assert (Hp0 : 0 < 2 ^ (dq - 53)) by (apply Z.pow_pos_nonneg; lia).
  set (V := Zpos m * 2 ^ j) in *.
  set (u := 2 ^ (dq - 53)) in *.
  set (w := 2 ^ j) in *.
  apply (quotient_rounding (Zpos m2) V (Zpos pq) r m' u w);
    try assumption; try lia.
  intros ->. apply Hx. apply new_location_zero.
Qed.

(** Multiplying two 53-bit mantissas: the product has 53 bits and is less
    than one unit in the last place away from the exact product. *)
Lemma SFmul_normal mx ex my ey :
  2 ^ 52 <= Zpos mx < 2 ^ 53 ->
  2 ^ 52 <= Zpos my < 2 ^ 53 ->
  -500 <= ex <= 0 -> -52 <= ey <= 0 ->
  exists m e,
    SFmul prec emax (S754_finite false mx ex) (S754_finite false my ey) =
    S754_finite false m e /\
    2 ^ 52 <= Zpos m < 2 ^ 53 /\
    52 <= e - (ex + ey) <= 54 /\
    Z.abs (Zpos m * 2 ^ (e - (ex + ey)) - Zpos mx * Zpos my)
      < 2 ^ (e - (ex + ey)).
Proof.
  intros Hmx Hmy Hex Hey.
  unfold SFmul. cbn [xorb].
  assert (HP : 2 ^ 104 <= Zpos (mx * my) < 2 ^ 106).
  { rewrite Pos2Z.inj_mul.
    change (2 ^ 104) with (2 ^ 52 * 2 ^ 52).
    change (2 ^ 106) with (2 ^ 53 * 2 ^ 53).
    set (a := 2 ^ 52) in *. set (b := 2 ^ 53) in *.
    assert (0 < a) by (unfold a; reflexivity). split; nia. }
  pose proof (digits_bounds (mx * my)) as [Blo Bhi].
  set (dp := Zpos (digits2_pos (mx * my))) in *.
  assert (Hdp : dp = 105 \/ dp = 106).
  { destruct (Z.lt_trichotomy dp 105) as [Hlt | [E | Hgt]]; [| lia |].
    - exfalso. assert (2 ^ dp <= 2 ^ 104) by (apply Z.pow_le_mono_r; lia). lia.
    - destruct (Z.eq_dec dp 106); [lia |]. exfalso.
      assert (2 ^ 106 <= 2 ^ (dp - 1)) by (apply Z.pow_le_mono_r; lia). lia. }
  pose proof (binary_round_aux_normal false (mx * my) (ex + ey) loc_Exact)
    as H.
  cbv zeta in H. fold dp in H.
  destruct (H ltac:(lia) ltac:(lia) ltac:(lia))
    as (m & e & Hres & Hm & He & Hv & Hx).
  specialize (Hx eq_refl).
  exists m, e. split; [exact Hres |]. split; [exact Hm |].
  split; [lia |].
  assert (Hpj : 2 ^ (dp - 53) <= 2 ^ (e - (ex + ey)))
    by (apply Z.pow_le_mono_r; lia).
  rewrite Pos2Z.inj_mul in *.
  apply Z.abs_lt. lia.
Qed.

(** [int(f)] of a positive float with a negative exponent. *)
Lemma shiftr_pos m k : Z.shiftr (Zpos m) (Zpos k) = Zpos m / 2 ^ Zpos k.
Proof. apply Z.shiftr_div_pow2. lia. Qed.

Lemma abs_cancel a b w : 0 < w -> Z.abs (a * w) < b * w -> Z.abs a < b.
Proof.
  intros Hw H. rewrite Z.abs_mul, (Z.abs_eq w) in H by lia.
  apply Z.mul_lt_mono_pos_r in H; assumption.
Qed.

(** A strict bound survives division by a factor [4c - 1] against [c]. *)
Lemma third_of a u c : 0 < c -> 0 <= a -> (4 * c - 1) * a < c * u -> 3 * a < u.
Proof.
  intros Hc Ha H. destruct (Z.lt_ge_cases (3 * a) u) as [Hlt | Hge];
    [assumption | exfalso].
  assert (c * u <= c * (3 * a)) by (apply Z.mul_le_mono_nonneg_l; lia).
  assert (3 * c * a <= (4 * c - 1) * a)
    by (apply Z.mul_le_mono_nonneg_r; lia).
  replace (c * (3 * a)) with (3 * c * a) in * by ring. lia.
Qed.

(** The two rounding errors of a quotient and a product, together. *)
Lemma two_roundings c T v out q f pN pL pj :
  0 < c -> 0 < T -> 0 < v -> 0 < out -> v * out < c ->
  0 < pN -> 0 < pL -> 0 < pj ->
  4 * c <= q -> 4 * c <= f ->
  - T < T * q - v * pN < T ->
  - pj < f * pj - q * (out * pL) < pj ->
  Z.abs (T * f * pj - v * out * (pN * pL)) < pN * pL.
Proof.
  intros Hc HT Hv Hout HX HpN HpL Hpj Hq Hf Herr1 Herr2.
  set (Y := T * out). set (U := pN * pL).
  assert (HY : 0 < Y) by (unfold Y; apply Z.mul_pos_pos; assumption).
  assert (HU : 0 < U) by (unfold U; apply Z.mul_pos_pos; assumption).
  (* the unit of the quotient *)
  assert (S1 : (4 * c - 1) * T < v * pN).
  { assert ((4 * c - 1) * T <= (q - 1) * T)
      by (apply Z.mul_le_mono_nonneg_r; lia).
    replace ((q - 1) * T) with (T * q - T) in * by ring. lia. }
  assert (S2 : (4 * c - 1) * Y < c * pN).
  { assert ((4 * c - 1) * T * out < v * pN * out)
      by (apply Z.mul_lt_mono_pos_r; assumption).
    assert (v * out * pN <= (c - 1) * pN)
      by (apply Z.mul_le_mono_nonneg_r; lia).
    replace ((4 * c - 1) * Y) with ((4 * c - 1) * T * out)
      by (unfold Y; ring).
    replace (v * pN * out) with (v * out * pN) in * by ring.
    replace ((c - 1) * pN) with (c * pN - pN) in * by ring. lia. }
  assert (B1 : 3 * Y < pN) by (apply (third_of Y pN c); lia).
  assert (B1L : 3 * (Y * pL) < U).
  { assert (3 * Y * pL < pN * pL)
      by (apply Z.mul_lt_mono_pos_r; assumption).
    replace (3 * (Y * pL)) with (3 * Y * pL) by ring. exact H. }
  (* the unit of the product *)
  assert (S3 : (4 * c - 1) * pj < q * (out * pL)).
  { assert ((4 * c - 1) * pj <= (f - 1) * pj)
      by (apply Z.mul_le_mono_nonneg_r; lia).
    replace ((f - 1) * pj) with (f * pj - pj) in * by ring. lia. }
  assert (S4 : (4 * c - 1) * (T * pj) < c * U).
  { assert (T * ((4 * c - 1) * pj) < T * (q * (out * pL)))
      by (apply Z.mul_lt_mono_pos_l; assumption).
    assert (T * q * (out * pL) < (v * pN + T) * (out * pL)).
    { apply Z.mul_lt_mono_pos_r; [apply Z.mul_pos_pos; assumption | lia]. }
    assert (v * out * U <= (c - 1) * U)
      by (apply Z.mul_le_mono_nonneg_r; lia).
    replace ((v * pN + T) * (out * pL)) with (v * out * U + Y * pL) in *
      by (unfold U, Y; ring).
    replace (T * (q * (out * pL))) with (T * q * (out * pL)) in * by ring.
    replace ((4 * c - 1) * (T * pj)) with (T * ((4 * c - 1) * pj)) by ring.
    replace ((c - 1) * U) with (c * U - U) in * by ring. lia. }
  assert (B2 : 3 * (T * pj) < U).
  { apply (third_of (T * pj) U c); [lia | | exact S4].
    apply Z.mul_nonneg_nonneg; lia. }
  (* split the total error into the two *)
  assert (D1 : - (T * pj) < T * (f * pj - q * (out * pL)) < T * pj).
  { split.
    - replace (- (T * pj)) with (T * (- pj)) by ring.
      apply Z.mul_lt_mono_pos_l; lia.
    - apply Z.mul_lt_mono_pos_l; lia. }
  assert (D2 : - (Y * pL) < out * pL * (T * q - v * pN) < Y * pL).
  { assert (0 < out * pL) by (apply Z.mul_pos_pos; assumption).
    replace (Y * pL) with (out * pL * T) by (unfold Y; ring). split.
    - replace (- (out * pL * T)) with (out * pL * (- T)) by ring.
      apply Z.mul_lt_mono_pos_l; lia.
    - apply Z.mul_lt_mono_pos_l; lia. }
  replace (T * f * pj - v * out * (pN * pL))
    with (T * (f * pj - q * (out * pL)) + out * pL * (T * q - v * pN))
    by ring.
  fold U. apply Z.abs_lt. lia.
Qed.

(** Flooring a value that is within less than [1/T] of [X/T]. *)
Lemma floor_near_quotient X T mf pK :
  0 <= X -> 0 < T -> 0 < pK ->
  Z.abs (T * mf - X * pK) < pK ->
  mf / pK = X / T \/ (mf / pK = X / T - 1 /\ X mod T = 0).
Proof.
  intros HX HT HpK Hfin. apply Z.abs_lt in Hfin.
  set (p := mf / pK).
  pose proof (Z.div_mod mf pK ltac:(lia)) as Hdm. fold p in Hdm.
  pose proof (Z.mod_pos_bound mf pK HpK) as Hmod.
  pose proof (Z.div_mod X T ltac:(lia)) as HXdm.
  pose proof (Z.mod_pos_bound X T HT) as HXmod.
  set (r := mf mod pK) in *. set (Q := X / T) in *. set (R := X mod T) in *.
  assert (Hup : T * p <= X).
  { assert (T * (pK * p) <= T * mf)
      by (apply Z.mul_le_mono_nonneg_l; lia).
    assert (T * p * pK < (X + 1) * pK)
      by (replace (T * p * pK) with (T * (pK * p)) by ring; lia).
    apply Z.mul_lt_mono_pos_r in H0; lia. }
  assert (Hlo : X <= T * (p + 1)).
  { assert (T * mf < T * (pK * p + pK))
      by (apply Z.mul_lt_mono_pos_l; lia).
    assert ((X - 1) * pK < T * (p + 1) * pK)
      by (replace (T * (p + 1) * pK) with (T * (pK * p + pK)) by ring; lia).
    apply Z.mul_lt_mono_pos_r in H0; lia. }
  assert (HpQ : p <= Q).
  { assert (T * p < T * (Q + 1))
      by (replace (T * (Q + 1)) with (T * Q + T) by ring; lia).
    apply Z.mul_lt_mono_pos_l in H; lia. }
  assert (HQp : Q <= p + 1).
  { assert (T * Q <= T * (p + 1)) by lia.
    apply Z.mul_le_mono_pos_l in H; lia. }
  destruct (Z.eq_dec p Q) as [E | NE]; [left; exact E |].
  right. assert (EQ : Q = p + 1) by lia.
  split; [lia |]. rewrite EQ in HXdm. lia.
Qed.

Lemma digits_at_most_53 p : Zpos p < 2 ^ 53 -> Zpos (digits2_pos p) <= 53.
Proof.
  intros H. pose proof (digits_bounds p) as [Blo _].
  destruct (Z.leb_spec (Zpos (digits2_pos p)) 53); [assumption |].
  exfalso.
  assert (2 ^ 53 <= 2 ^ (Zpos (digits2_pos p) - 1))
    by (apply Z.pow_le_mono_r; lia).
  lia.
Qed.

(** The quotient step in terms of the integers it represents. *)
Lemma quotient_error v T :
  0 < v < 2 ^ 50 -> 0 < T < 2 ^ 53 ->
  exists q mq eq,
    truediv v T = Ok q /\
    Prim2SF q = S754_finite false mq eq /\
    2 ^ 52 <= Zpos mq < 2 ^ 53 /\
    -107 <= eq <= -1 /\
    Z.abs (T * Zpos mq - v * 2 ^ (- eq)) < T.
Proof.
  intros Hv HT.
  destruct v as [| pv | pv]; try lia. destruct T as [| pT | pT]; try lia.
  assert (Hv53 : Zpos pv < 2 ^ 53).
  { assert (2 ^ 50 < 2 ^ 53) by reflexivity. lia. }
  pose proof (digits_at_most_53 pv Hv53) as Hd1.
  pose proof (digits_at_most_53 pT ltac:(lia)) as Hd2.
  pose proof (SFdiv_normal pv 0 pT 0) as Hdiv. cbv zeta in Hdiv.
  destruct (Hdiv Hd1 Hd2 ltac:(lia) ltac:(lia))
    as (mq & eq & Hres & Hmq & Hj & Herr).
  set (d1 := Zpos (digits2_pos pv)) in *.
  set (d2 := Zpos (digits2_pos pT)) in *.
  assert (Hd1p : 1 <= d1) by (unfold d1; lia).
  assert (Hd2p : 1 <= d2) by (unfold d2; lia).
  set (N' := 53 + d2 - d1) in *.
  replace (d1 + 0 - (d2 + 0) - 53) with (- N') in * by (unfold N'; lia).
  set (j := eq - - N') in *.
  assert (HN' : 1 <= N') by (unfold N'; lia).
  assert (Hpj : 0 < 2 ^ j) by (apply Z.pow_pos_nonneg; lia).
  assert (HpN : 0 < 2 ^ N') by (apply Z.pow_pos_nonneg; lia).
  assert (Herr1 :
    Z.abs (Zpos pT * Zpos mq * 2 ^ j - Zpos pv * 2 ^ N')
    < Zpos pT * 2 ^ j).
  { replace (Zpos pT * Zpos mq * 2 ^ j)
      with (Zpos pT * (Zpos mq * 2 ^ j)) by ring.
    exact Herr. }
  (* the exponent is negative: the quotient is below 2^50 *)
  assert (HjN : j < N').
  { destruct (Z.lt_ge_cases j N') as [Hlt | Hge]; [assumption |]. exfalso.
    assert (Hle : 2 ^ N' <= 2 ^ j) by (apply Z.pow_le_mono_r; lia).
    apply Z.abs_lt in Herr1.
    change (2 ^ 52) with (4 * 2 ^ 50) in Hmq.
    set (c := 2 ^ 50) in *. set (pj := 2 ^ j) in *. set (pn := 2 ^ N') in *.
    assert (Hc : 0 < c) by (unfold c; reflexivity).
    assert (A : Zpos pv * pn <= Zpos pv * pj)
      by (apply Z.mul_le_mono_nonneg_l; lia).
    assert (B : Zpos pv * pj < c * pj)
      by (apply Z.mul_lt_mono_pos_r; lia).
    assert (C : (4 * c - 1) * pj <= (Zpos mq - 1) * pj)
      by (apply Z.mul_le_mono_nonneg_r; lia).
    assert (D : 1 * ((Zpos mq - 1) * pj)
                <= Zpos pT * ((Zpos mq - 1) * pj)).
    { apply Z.mul_le_mono_nonneg_r; [| lia].
      apply Z.mul_nonneg_nonneg; lia. }
    assert (E : c * pj <= (4 * c - 1) * pj)
      by (apply Z.mul_le_mono_nonneg_r; lia).
    replace (Zpos pT * ((Zpos mq - 1) * pj))
      with (Zpos pT * Zpos mq * pj - Zpos pT * pj) in D by ring.
    lia. }
  assert (Eeq : eq = j - N') by (unfold j; lia).
  assert (Hd1u : d1 <= 53) by exact Hd1.
  assert (Hd2u : d2 <= 53) by exact Hd2.
  exists (SF2Prim (S754_finite false mq eq)), mq, eq.
  split.
  { unfold truediv. cbn [Z.eqb int_operand]. rewrite Hres. reflexivity. }
  split.
  { apply Prim2SF_SF2Prim.
    assert (Hdq : Zpos (digits2_pos mq) = 53)
      by (apply digits_unique; change (53 - 1) with 52; exact Hmq).
    unfold valid_binary, bounded, canonical_mantissa.
    rewrite Hdq, fexp_normal by (unfold N' in *; lia).
    apply andb_true_intro. split.
    - apply Z.eqb_eq. lia.
    - apply Z.leb_le. unfold emax, prec. lia. }
  split; [exact Hmq |].
  split; [unfold N' in *; lia |].
  replace (- eq) with (N' - j) by lia.
  assert (Epn : 2 ^ N' = 2 ^ (N' - j) * 2 ^ j).
  { rewrite <- Z.pow_add_r by lia. f_equal. lia. }
  apply (abs_cancel _ _ (2 ^ j) Hpj).
  replace ((Zpos pT * Zpos mq - Zpos pv * 2 ^ (N' - j)) * 2 ^ j)
    with (Zpos pT * Zpos mq * 2 ^ j - Zpos pv * (2 ^ (N' - j) * 2 ^ j))
    by ring.
  rewrite <- Epn. exact Herr1.
Qed.

Lemma truediv_zero T : 0 < T -> truediv 0 T = Ok 0%float.
Proof. intros H. destruct T as [| p | p]; try lia. reflexivity. Qed.

(** Quotient and product together, for a positive length: what [int]
    reads off the product of the rounded quotient and the frame extent. *)
Lemma scaled_quotient_floor v total out :
  0 < v -> 0 < total < 2 ^ 53 -> 0 < out < 2 ^ 53 -> v * out < 2 ^ 50 ->
  exists q p,
    truediv v total = Ok q /\
    py_float out = Ok (float_of_int out) /\
    py_int (q * float_of_int out)%float = Ok p /\
    (p = v * out / total \/
     (p = v * out / total - 1 /\ (v * out) mod total = 0)).
Proof.
  intros Hv0 HT Hout HX.
  assert (Hv : 0 < v < 2 ^ 50).
  { split; [lia |].
    assert (v * 1 <= v * out) by (apply Z.mul_le_mono_nonneg_l; lia). lia. }
  destruct (quotient_error v total Hv HT)
    as (q & mq & eq & Hq & FQ & Hmq & Heq & Herr1).
  destruct (float_of_int_exact out Hout) as (m3 & e3 & F3 & Hm3 & He3 & Hv3).
  destruct (SFmul_normal mq eq m3 e3 Hmq Hm3 ltac:(lia) He3)
    as (mf & ef & Hres & Hmf & Hj2 & Herr2).
  set (N := - eq) in *. set (L := - e3) in *.
  set (j2 := ef - (eq + e3)) in *.
  assert (HN : 1 <= N <= 107) by (unfold N; lia).
  assert (HL : 0 <= L <= 52) by (unfold L; lia).
  assert (HpN : 0 < 2 ^ N) by (apply Z.pow_pos_nonneg; lia).
  assert (HpL : 0 < 2 ^ L) by (apply Z.pow_pos_nonneg; lia).
  assert (Hpj : 0 < 2 ^ j2) by (apply Z.pow_pos_nonneg; lia).
  assert (HX0 : 0 <= v * out) by (apply Z.mul_nonneg_nonneg; lia).
  (* both rounding errors together stay below one unit of 2^(N+L) *)
  assert (Hboth :
    Z.abs (total * Zpos mf * 2 ^ j2 - v * out * (2 ^ N * 2 ^ L))
    < 2 ^ N * 2 ^ L).
  { apply Z.abs_lt in Herr1, Herr2. rewrite Hv3 in Herr2.
    apply (two_roundings (2 ^ 50) total v out (Zpos mq) (Zpos mf));
      try assumption; try lia; try reflexivity;
      change (4 * 2 ^ 50) with (2 ^ 52); lia. }
  (* the result has a negative exponent *)
  set (K := N + L - j2).
  assert (HK : 1 <= K).
  { destruct (Z.le_gt_cases 1 K) as [Hle | Hgt]; [assumption |]. exfalso.
    assert (H : 2 ^ (N + L) <= 2 ^ j2)
      by (apply Z.pow_le_mono_r; unfold K in *; lia).
    rewrite Z.pow_add_r in H by lia.
    apply Z.abs_lt in Hboth.
    change (2 ^ 52) with (4 * 2 ^ 50) in Hmf.
    set (c := 2 ^ 50) in *. assert (Hc : 0 < c) by (unfold c; reflexivity).
    set (U := 2 ^ N * 2 ^ L) in *. set (pj := 2 ^ j2) in *.
    set (X := v * out) in *.
    assert (0 < U) by (unfold U; apply Z.mul_pos_pos; assumption).
    assert (total * Zpos mf * pj < (X + 1) * U) by lia.
    assert ((X + 1) * U <= c * pj)
      by (apply Z.mul_le_mono_nonneg; lia).
    assert (4 * c * pj <= total * Zpos mf * pj).
    { apply Z.mul_le_mono_nonneg_r; [lia |].
      replace (4 * c) with (1 * (4 * c)) by ring.
      apply Z.mul_le_mono_nonneg; lia. }
    assert (c * pj < 4 * c * pj).
    { replace (c * pj) with (1 * (c * pj)) at 1 by ring.
      replace (4 * c * pj) with (4 * (c * pj)) by ring.
      apply Z.mul_lt_mono_pos_r; [apply Z.mul_pos_pos; lia | lia]. }
    lia. }
  assert (EU : 2 ^ N * 2 ^ L = 2 ^ K * 2 ^ j2).
  { rewrite <- !Z.pow_add_r by lia. f_equal. unfold K. lia. }
  assert (HpK : 0 < 2 ^ K) by (apply Z.pow_pos_nonneg; lia).
  assert (Hfin : Z.abs (total * Zpos mf - v * out * 2 ^ K) < 2 ^ K).
  { rewrite EU in Hboth.
    apply (abs_cancel _ _ (2 ^ j2) Hpj).
    replace ((total * Zpos mf - v * out * 2 ^ K) * 2 ^ j2)
      with (total * Zpos mf * 2 ^ j2 - v * out * (2 ^ K * 2 ^ j2)) by ring.
    exact Hboth. }
  (* read the integer off the float *)
  assert (Eef : ef = - K) by (unfold K, j2, N, L; lia).
  exists q, (Zpos mf / 2 ^ K). split; [exact Hq |].
  split; [apply py_float_small; exact Hout |]. split.
  - unfold py_int. rewrite mul_spec, FQ, F3.
    unfold SF64mul. rewrite Hres.
    destruct ef as [| k | k]; try lia.
    rewrite shiftr_pos. f_equal. f_equal. f_equal. lia.
  - apply floor_near_quotient; try assumption; lia.
Qed.

(** A length of zero sits at pixel zero. *)
Lemma scaled_zero total out :
  0 < total -> 0 < out < 2 ^ 53 -> emu_to_px (Some 0) total out = Ok 0.
Proof.
  intros HT Hout. unfold emu_to_px.
  rewrite (truediv_zero total HT), (py_float_small out Hout). cbn [rbind].
  destruct (float_of_int_exact out Hout) as (m3 & e3 & F3 & _).
  unfold py_int. rewrite mul_spec, F3. reflexivity.
Qed.

(** X1: [int((v / total) * out)] on a non-negative length: the integer part of
    the exact quotient [v * out / total], or one less than it when [total]
    divides [v * out]. *)
Theorem emu_to_px_within_one v total out :
  0 <= v -> 0 < total < 2 ^ 53 -> 0 < out < 2 ^ 53 -> v * out < 2 ^ 50 ->
  exists p,
    emu_to_px (Some v) total out = Ok p /\
    (p = v * out / total \/
     (p = v * out / total - 1 /\ (v * out) mod total = 0)).
Proof.
  intros Hv0 HT Hout HX.
  destruct (Z.eq_dec v 0) as [-> | Hvne].
  - exists 0. split; [apply scaled_zero; [lia | exact Hout] |].
    left. reflexivity.
  - destruct (scaled_quotient_floor v total out ltac:(lia) HT Hout HX)
      as (q & p & Hq & Ho & Hp & Hfloor).
    exists p. split; [| exact Hfloor].
    unfold emu_to_px. rewrite Hq, Ho. cbn [rbind]. exact Hp.
Qed.

(* ===================================================================== *)
(** * Further properties of the rasteriser *)
(* ===================================================================== *)

Lemma emu_to_px_within_one_witness :
  0 <= 1171575 /\ 0 < 9144000 < 2 ^ 53 /\ 0 < 1920 < 2 ^ 53 /\
  1171575 * 1920 < 2 ^ 50 /\
  exists p,
    emu_to_px (Some 1171575) 9144000 1920 = Ok p /\
    (p = 1171575 * 1920 / 9144000 \/
     (p = 1171575 * 1920 / 9144000 - 1 /\
      (1171575 * 1920) mod 9144000 = 0)).
Proof.
  split; [lia |]. split; [split; reflexivity |].
  split; [split; reflexivity |]. split; [reflexivity |].
  apply (emu_to_px_within_one 1171575 9144000 1920);
    [lia | split; reflexivity | split; reflexivity | reflexivity].
Defined.

Lemma background_image_size pil fill width height im :
  background_image_of pil fill width height = Ok im ->
  image_size im = Some (width, height).
Proof.
  unfold background_image_of.
  destruct fill as [f |]; [| intros [= <-]; reflexivity].
  destruct (fill_type f) as [[] |]; try (intros [= <-]; reflexivity);
    try discriminate.
  - intros [= <-]. unfold picture_background.
    destruct (picture_blob f) as [blob |]; [| reflexivity].
    destruct (Image_open pil blob); [| reflexivity].
    unfold resize. destruct (_ || _); reflexivity.
  - destruct (fore_color_rgb f); intros [= <-]; reflexivity.
Qed.

(** X2: Whatever the slide holds, a clip returned by [create_slide_clip] plays
    for exactly the requested duration and has exactly the requested frame
    size; an animated GIF on the slide does not change either. *)
Theorem slide_clip_has_requested_duration_and_size
        pil width height duration slide_width_emus slide_height_emus slide c :
  create_slide_clip pil width height duration slide_width_emus
    slide_height_emus slide = Ok c ->
  clip_duration c = Some duration /\ clip_size c = Some (width, height).
Proof.
  intros H. split.
  - eapply create_slide_clip_lasts. exact H.
  - rewrite create_slide_clip_run in H. unfold background_stage in H.
    destruct (find_background_fill slide) as [f |]; [| discriminate].
    cbn [rbind] in H.
    destruct (background_image_of pil f width height) as [im |] eqn:E;
      [| discriminate].
    injection H as <-. unfold stack.
    destruct (List.concat _); [| reflexivity].
    simpl. eapply background_image_size. exact E.
Qed.

Lemma slide_clip_has_requested_duration_and_size_witness :
  exists c,
    create_slide_clip no_codecs 1920 1080 total_duration 9144000 6858000
      (plain_slide [red_box]) = Ok c /\
    clip_duration c = Some total_duration /\ clip_size c = Some (1920, 1080).
Proof.
  eexists. split; [vm_compute; reflexivity |].
  apply (slide_clip_has_requested_duration_and_size no_codecs 1920 1080
           total_duration 9144000 6858000 (plain_slide [red_box])).
  vm_compute. reflexivity.
Defined.

(** X3: A slide that carries a background fill itself ignores its layout and
    the layout's master entirely; a slide without one renders exactly as if
    the fill of its layout, or failing that the fill of the layout's master,
    were its own. *)
Theorem inherited_background_renders_as_own
        pil width height duration slide_width_emus slide_height_emus slide f :
  fill_of (background slide) = Some f \/
  (fill_of (background slide) = None /\
   exists layout,
     slide_layout slide = Some (Some layout) /\
     (fill_of (layout_background layout) = Some f \/
      (fill_of (layout_background layout) = None /\
       exists master,
         slide_master layout = Some master /\
         fill_of (master_background master) = Some f))) ->
  create_slide_clip pil width height duration slide_width_emus
    slide_height_emus slide =
  create_slide_clip pil width height duration slide_width_emus
    slide_height_emus
    {| background := Some {| background_fill := Some f |};
       slide_layout := None;
       shapes := shapes slide |}.
Proof.
  intros H. rewrite !create_slide_clip_run. cbn [shapes].
  assert (E : find_background_fill slide = Ok (Some f)).
  { unfold find_background_fill.
    destruct H as [-> | (-> & layout & -> & [-> | (-> & master & -> & ->)])];
      reflexivity. }
  unfold background_stage. rewrite E. reflexivity.
Qed.

Lemma inherited_background_renders_as_own_witness :
  let themed :=
    {| background := None;
       slide_layout :=
         Some (Some {| layout_background := None;
                       slide_master :=
                         Some {| master_background :=
                                   Some {| background_fill :=
                                             Some red_fill |} |} |});
       shapes := [red_box] |} in
  create_slide_clip no_codecs 1920 1080 total_duration 9144000 6858000 themed
  = create_slide_clip no_codecs 1920 1080 total_duration 9144000 6858000
      {| background := Some {| background_fill := Some red_fill |};
         slide_layout := None;
         shapes := [red_box] |}.
Proof.
  cbv zeta.
  apply (inherited_background_renders_as_own no_codecs 1920 1080
           total_duration 9144000 6858000
           {| background := None;
              slide_layout :=
                Some (Some {| layout_background := None;
                              slide_master :=
                                Some {| master_background :=
                                          Some {| background_fill :=
                                                    Some red_fill |} |} |});
              shapes := [red_box] |}
           red_fill).
  right. split; [reflexivity |]. eexists. split; [reflexivity |].
  right. split; [reflexivity |]. eexists. split; reflexivity.
Defined.

Section LayerCount.

Variable pil : Pillow.
Variables width height : Z.
Variable duration : float.
Variables slide_width_emus slide_height_emus : Z.

#[local] Abbreviation layers_of :=
(shape_layers pil width height duration slide_width_emus slide_height_emus).

Lemma shape_layers_at_most_two shape :
  (List.length (layers_of shape) <= 2)%nat.
Proof.
  destruct (render_fill_atomic width height duration slide_width_emus
              slide_height_emus shape) as (r1 & cs1 & H1 & L1 & _).
  destruct (render_content_atomic pil width height duration slide_width_emus
              slide_height_emus shape) as (r2 & cs2 & H2 & L2 & _).
  unfold shape_layers, render_shape, bind. rewrite H1.
  destruct r1 as [[] | e1].
  - rewrite H2. cbn [snd add_layers clips unbound]. rewrite app_nil_l.
    rewrite length_app.
    assert (List.length cs2 <= 1)%nat.
    { destruct r2; [exact L2 | subst cs2; simpl; lia]. }
    lia.
  - subst cs1. simpl. lia.
Qed.

Lemma concat_length_bound ss :
  (List.length (List.concat (map layers_of ss)) <= 2 * List.length ss)%nat.
Proof.
  induction ss as [| s ss IH]; simpl; [lia |].
  rewrite length_app. pose proof (shape_layers_at_most_two s). lia.
Qed.

(** X4: A slide whose background resolves is rendered as its background with
    the layers of its shapes above it in shape order, every shape adding at
    most two layers (a fill rectangle and one content layer): the layers of
    [before ++ after] are those of [before] followed by those of [after],
    and there are at most twice as many as shapes. *)
Theorem layers_follow_shape_order slide before after im :
  shapes slide = before ++ after ->
  background_stage pil width height slide = Ok im ->
  create_slide_clip pil width height duration slide_width_emus
    slide_height_emus slide =
  Ok (stack width height (still duration im)
        (List.concat (map layers_of before) ++
         List.concat (map layers_of after))) /\
  (List.length (List.concat (map layers_of before) ++
                List.concat (map layers_of after))
   <= 2 * List.length (shapes slide))%nat.
Proof.
  intros Hs Hbg. split.
  - rewrite create_slide_clip_run, Hbg, Hs, map_app, concat_app. reflexivity.
  - rewrite <- concat_app, <- map_app, <- Hs. apply concat_length_bound.
Qed.

End LayerCount.

Lemma layers_follow_shape_order_witness :
  shapes (plain_slide [red_box; broken_picture]) = [red_box] ++ [broken_picture] /\
  background_stage no_codecs 1920 1080 (plain_slide [red_box; broken_picture])
  = Ok (Image_new RGB (1920, 1080) white) /\
  (List.length
     (List.concat (map (shape_layers no_codecs 1920 1080 total_duration
                          9144000 6858000) [red_box]) ++
      List.concat (map (shape_layers no_codecs 1920 1080 total_duration
                          9144000 6858000) [broken_picture]))
   <= 2 * List.length (shapes (plain_slide [red_box; broken_picture])))%nat.
Proof.
  split; [reflexivity |]. split; [reflexivity |].
  apply (layers_follow_shape_order no_codecs 1920 1080 total_duration
           9144000 6858000 (plain_slide [red_box; broken_picture])
           [red_box] [broken_picture] (Image_new RGB (1920, 1080) white));
    reflexivity.
Defined.

Lemma max_end_pair o : max_end [o; o] = o.
Proof. destruct o as [t |]; simpl; [now rewrite float_max_same | reflexivity]. Qed.

(** X5: [apply_transition_effect] never changes how long a clip plays, for any
    transition name; a name other than fade, slide_left, slide_right and
    zoom gives the clip back unchanged, and so does a slide transition on a
    clip that has no size (the exception is swallowed). *)
Theorem transition_keeps_duration c transition_type d :
  clip_duration (apply_transition_effect c transition_type d)
  = clip_duration c /\
  (known_transition transition_type = false ->
   apply_transition_effect c transition_type d = c) /\
  (clip_size c = None ->
   apply_transition_effect c "slide_left" d = c /\
   apply_transition_effect c "slide_right" d = c).
Proof.
  split; [| split].
  - unfold apply_transition_effect, transition_body.
    repeat match goal with
           | |- context [String.eqb ?a ?b] => destruct (String.eqb a b)
           end; try reflexivity;
      destruct (clip_size c) as [[w h] |]; try reflexivity;
      cbn [clip_duration map]; apply max_end_pair.
  - unfold known_transition, apply_transition_effect, transition_body.
    intros H.
    destruct (String.eqb transition_type "fade"); [discriminate |].
    destruct (String.eqb transition_type "slide_left"); [discriminate |].
    destruct (String.eqb transition_type "slide_right"); [discriminate |].
    destruct (String.eqb transition_type "zoom"); [discriminate |].
    reflexivity.
  - intros H. unfold apply_transition_effect, transition_body.
    cbn [String.eqb Ascii.eqb Bool.eqb]. rewrite H. split; reflexivity.
Qed.

Lemma transition_keeps_duration_witness :
  known_transition "wipe" = false /\
  apply_transition_effect fallback_clip "wipe" transition_duration
  = fallback_clip.
Proof.
  split; [reflexivity |].
  apply (proj1 (proj2 (transition_keeps_duration fallback_clip "wipe"
                         transition_duration))).
  reflexivity.
Defined.

Lemma get_font_color_opaque run : snd (get_font_color run) = 255.
Proof.
  unfold get_font_color.
  destruct (run_font_color run) as [color |]; [| reflexivity].
  destruct (color_type color) as [ty |]; [| reflexivity].
  destruct (ty =? MSO_THEME_COLOR_INDEX.NOT_THEME_COLOR); [| reflexivity].
  destruct (color_rgb color) as [[[r g] b] |]; reflexivity.
Qed.

Lemma get_font_color_default run :
  (forall color,
      run_font_color run = Some color ->
      color_type color <> Some MSO_THEME_COLOR_INDEX.NOT_THEME_COLOR \/
      color_rgb color = None) ->
  get_font_color run = black.
Proof.
  intros H. unfold get_font_color.
  destruct (run_font_color run) as [color |]; [| reflexivity].
  destruct (H color eq_refl) as [Ht | Hr].
  - destruct (color_type color) as [ty |]; [| reflexivity].
    destruct (Z.eqb_spec ty MSO_THEME_COLOR_INDEX.NOT_THEME_COLOR) as [-> | _];
      [congruence | reflexivity].
  - rewrite Hr. destruct (color_type color) as [ty |]; [| reflexivity].
    destruct (ty =? _); reflexivity.
Qed.

Section TextLayer.

Variable pil : Pillow.
Variables width height : Z.
Variable duration : float.
Variables slide_width_emus slide_height_emus : Z.

#[local] Abbreviation one_run :=
(draw_run pil width height slide_width_emus slide_height_emus).
#[local] Abbreviation some_runs :=
(draw_runs pil width height slide_width_emus slide_height_emus).
#[local] Abbreviation some_paragraphs :=
(draw_paragraphs pil width height slide_width_emus slide_height_emus).

Lemma draw_runs_origins shape x y rs im im' :
  emu_to_px (attr_or (shape_left shape) 0) slide_width_emus width = Ok x ->
  emu_to_px (attr_or (shape_top shape) 0) slide_height_emus height = Ok y ->
  some_runs shape im rs = Ok im' ->
  text_origins im' =
  text_origins im ++ repeat (x, y) (List.length (filter visible rs)).
Proof.
  intros Hx Hy. revert im.
  induction rs as [| r rs IH]; intros im H; simpl in *.
  - injection H as <-. now rewrite app_nil_r.
  - unfold draw_run in H. unfold visible at 1.
    destruct (String.eqb (strip (run_text r)) ""); cbn [negb rbind] in *.
    + apply IH. exact H.
    + destruct (font_size_of r) as [font_size |]; cbn [rbind] in H;
        [| discriminate].
      rewrite Hx, Hy in H. cbn [rbind] in H.
      rewrite (IH _ H). cbn [text_origins List.length repeat].
      rewrite <- app_assoc. reflexivity.
Qed.

Lemma draw_paragraphs_origins shape x y ps im im' :
  emu_to_px (attr_or (shape_left shape) 0) slide_width_emus width = Ok x ->
  emu_to_px (attr_or (shape_top shape) 0) slide_height_emus height = Ok y ->
  some_paragraphs shape im ps = Ok im' ->
  text_origins im' =
  text_origins im ++
  repeat (x, y) (List.length (filter visible (List.concat (map runs ps)))).
Proof.
  intros Hx Hy. revert im.
  induction ps as [| p ps IH]; intros im H; simpl in *.
  - injection H as <-. now rewrite app_nil_r.
  - destruct (some_runs shape im (runs p)) as [im1 |] eqn:E;
      cbn [rbind] in H; [| discriminate].
    rewrite (IH _ H), (draw_runs_origins shape x y _ _ _ Hx Hy E).
    rewrite filter_app, length_app, repeat_app, app_assoc. reflexivity.
Qed.

(** X6: The runs of a text frame are not flowed: every run with visible text is
    drawn at the one pixel position of the shape's top-left corner, so the
    text layer holds as many texts as there are visible runs, all at the
    same origin. *)
Theorem all_runs_drawn_at_shape_origin shape tf x y text_image :
  emu_to_px (attr_or (shape_left shape) 0) slide_width_emus width = Ok x ->
  emu_to_px (attr_or (shape_top shape) 0) slide_height_emus height = Ok y ->
  some_paragraphs shape (blank_layer width height) (paragraphs tf)
  = Ok text_image ->
  text_origins text_image =
  repeat (x, y) (List.length (visible_runs tf)).
Proof.
  intros Hx Hy H.
  rewrite (draw_paragraphs_origins shape x y _ _ _ Hx Hy H). reflexivity.
Qed.

Lemma draw_runs_colours shape rs im im' :
  some_runs shape im rs = Ok im' ->
  text_colours im' =
  text_colours im ++ map get_font_color (filter visible rs).
Proof.
  revert im.
  induction rs as [| r rs IH]; intros im H; simpl in *.
  - injection H as <-. now rewrite app_nil_r.
  - unfold draw_run in H. unfold visible at 1.
    destruct (String.eqb (strip (run_text r)) ""); cbn [negb rbind] in *.
    + apply IH. exact H.
    + destruct (font_size_of r) as [font_size |]; cbn [rbind] in H;
        [| discriminate].
      destruct (emu_to_px (attr_or (shape_left shape) 0) _ _) as [x |];
        cbn [rbind] in H; [| discriminate].
      destruct (emu_to_px (attr_or (shape_top shape) 0) _ _) as [y |];
        cbn [rbind] in H; [| discriminate].
      rewrite (IH _ H). cbn [text_colours map].
      rewrite <- app_assoc. reflexivity.
Qed.

Lemma draw_paragraphs_colours shape ps im im' :
  some_paragraphs shape im ps = Ok im' ->
  text_colours im' =
  text_colours im ++
  map get_font_color (filter visible (List.concat (map runs ps))).
Proof.
  revert im.
  induction ps as [| p ps IH]; intros im H; simpl in *.
  - injection H as <-. now rewrite app_nil_r.
  - destruct (some_runs shape im (runs p)) as [im1 |] eqn:E;
      cbn [rbind] in H; [| discriminate].
    rewrite (IH _ H), (draw_runs_colours shape _ _ _ E).
    rewrite filter_app, map_app, app_assoc. reflexivity.
Qed.

(** X7: On a text layer every visible run is drawn in its own colour, in
    reading order, and always fully opaque; a run whose colour is a theme
    colour, or carries no RGB value, or is missing, is drawn black. *)
Theorem text_colours_follow_runs shape tf text_image :
  some_paragraphs shape (blank_layer width height) (paragraphs tf)
  = Ok text_image ->
  text_colours text_image = map get_font_color (visible_runs tf) /\
  Forall (fun c => snd c = 255) (text_colours text_image) /\
  (forall run,
      In run (visible_runs tf) ->
      (forall color,
          run_font_color run = Some color ->
          color_type color <> Some MSO_THEME_COLOR_INDEX.NOT_THEME_COLOR \/
          color_rgb color = None) ->
      In black (text_colours text_image)).
Proof.
  intros H.
  assert (E : text_colours text_image
              = map get_font_color (visible_runs tf)).
  { rewrite (draw_paragraphs_colours shape _ _ _ H). reflexivity. }
  split; [exact E |]. rewrite E. split.
  - apply Forall_map, Forall_forall. intros run _.
    apply get_font_color_opaque.
  - intros run Hin Hc. rewrite <- (get_font_color_default run Hc).
    apply in_map. exact Hin.
Qed.

Lemma draw_runs_invisible shape rs im :
  filter visible rs = [] -> some_runs shape im rs = Ok im.
Proof.
  induction rs as [| r rs IH]; intros H; simpl in *; [reflexivity |].
  unfold draw_run. unfold visible at 1 in H.
  destruct (String.eqb (strip (run_text r)) ""); cbn [negb] in H;
    [| discriminate].
  cbn [rbind]. apply IH. exact H.
Qed.

(** X8: A text frame without any visible text (no runs, or only whitespace)
    never raises, even when the shape has no usable position or the deck
    has zero width, and still adds one fully transparent layer. *)
Theorem empty_text_frame_adds_blank_layer shape tf l :
  shape_text_frame shape = Some (Some tf) ->
  visible_runs tf = [] ->
  render_content pil width height duration slide_width_emus
    slide_height_emus shape l =
  (Ok tt, add_layers l [still duration (blank_layer width height)]).
Proof.
  intros Htf Hvis. unfold render_content. rewrite Htf.
  unfold render_text, bind, lift.
  assert (H : some_paragraphs shape (blank_layer width height)
                (paragraphs tf) = Ok (blank_layer width height)).
  { unfold visible_runs in Hvis.
    generalize (blank_layer width height) as im.
    induction (paragraphs tf) as [| p ps IH]; intros im; simpl in *;
      [reflexivity |].
    rewrite filter_app in Hvis. apply app_eq_nil in Hvis.
    destruct Hvis as [H1 H2].
    rewrite (draw_runs_invisible shape _ im H1). cbn [rbind].
    apply IH. exact H2. }
  rewrite H. reflexivity.
Qed.

Lemma origin_fails shape :
  shape_left shape = Some None \/ shape_top shape = Some None ->
  (exists e,
      emu_to_px (attr_or (shape_left shape) 0) slide_width_emus width
      = Raise e) \/
  (exists x e,
      emu_to_px (attr_or (shape_left shape) 0) slide_width_emus width = Ok x /\
      emu_to_px (attr_or (shape_top shape) 0) slide_height_emus height
      = Raise e).
Proof.
  intros [H | H].
  - left. rewrite H. eexists. reflexivity.
  - destruct (emu_to_px (attr_or (shape_left shape) 0) _ _) as [x | e];
      [right | left; eexists; reflexivity].
    rewrite H. eexists _, _. split; reflexivity.
Qed.

Lemma draw_runs_fails shape rs im :
  shape_left shape = Some None \/ shape_top shape = Some None ->
  filter visible rs <> [] ->
  exists e, some_runs shape im rs = Raise e.
Proof.
  intros Hpos. revert im.
  induction rs as [| r rs IH]; intros im H; simpl in *; [congruence |].
  unfold draw_run. unfold visible at 1 in H.
  destruct (String.eqb (strip (run_text r)) ""); cbn [negb] in H.
  - cbn [rbind]. apply IH. exact H.
  - destruct (font_size_of r) as [font_size | e0]; cbn [rbind];
      [| eexists; reflexivity].
    destruct (origin_fails shape Hpos) as [[e ->] | (x & e & -> & ->)];
      eexists; reflexivity.
Qed.

Lemma draw_paragraphs_fails shape ps im :
  shape_left shape = Some None \/ shape_top shape = Some None ->
  filter visible (List.concat (map runs ps)) <> [] ->
  exists e, some_paragraphs shape im ps = Raise e.
Proof.
  intros Hpos. revert im.
  induction ps as [| p ps IH]; intros im H; simpl in *; [congruence |].
  rewrite filter_app in H.
  destruct (filter visible (runs p)) as [| r rs] eqn:E.
  - rewrite (draw_runs_invisible shape _ im E). cbn [rbind].
    apply IH. exact H.
  - destruct (draw_runs_fails shape (runs p) im Hpos) as [e ->];
      [rewrite E; discriminate |].
    eexists. reflexivity.
Qed.

(** X9: A shape whose [left] or [top] is [None] and whose text frame has
    visible text is dropped from the slide altogether: rendering it raises,
    and it leaves no layer, neither its text nor its fill. *)
Theorem text_without_position_is_dropped shape tf :
  shape_left shape = Some None \/ shape_top shape = Some None ->
  shape_text_frame shape = Some (Some tf) ->
  visible_runs tf <> [] ->
  shape_raises pil width height duration slide_width_emus
    slide_height_emus shape /\
  shape_layers pil width height duration slide_width_emus
    slide_height_emus shape = [].
Proof.
  intros Hpos Htf Hvis.
  destruct (draw_paragraphs_fails shape (paragraphs tf)
              (blank_layer width height) Hpos Hvis) as [e He].
  assert (Hcontent :
    render_content pil width height duration slide_width_emus
      slide_height_emus shape unbound = (Raise e, unbound)).
  { unfold render_content. rewrite Htf.
    unfold render_text, bind, lift. rewrite He. reflexivity. }
  assert (Hfill :
    exists r,
      render_fill width height duration slide_width_emus
        slide_height_emus shape unbound = (r, unbound)).
  { unfold render_fill.
    destruct (shape_fill shape) as [fill |]; [| eexists; reflexivity].
    destruct (fill_type fill) as [[] |]; try (eexists; reflexivity).
    unfold bind, lift.
    destruct (origin_fails shape Hpos) as [[e' ->] | (x & e' & -> & ->)];
      eexists; reflexivity. }
  destruct Hfill as [r Hfill].
  unfold shape_raises, shape_layers, render_shape, bind.
  rewrite Hfill. destruct r as [[] | e'].
  - rewrite Hcontent. split; [exists e |]; reflexivity.
  - split; [exists e' |]; reflexivity.
Qed.

End TextLayer.

Lemma all_runs_drawn_at_shape_origin_witness :
  exists text_image,
    draw_paragraphs png_codecs 1920 1080 9144000 6858000 text_box
      (blank_layer 1920 1080) (paragraphs two_line_caption) = Ok text_image /\
    List.length (visible_runs two_line_caption) = 3%nat /\
    text_origins text_image = [(245, 270); (245, 270); (245, 270)].
Proof.
  eexists. split; [vm_compute; reflexivity |]. split; [reflexivity |].
  refine (all_runs_drawn_at_shape_origin png_codecs 1920 1080
            9144000 6858000 text_box two_line_caption 245 270 _ _ _ _);
    vm_compute; reflexivity.
Defined.

Lemma text_colours_follow_runs_witness :
  exists text_image,
    draw_paragraphs png_codecs 1920 1080 9144000 6858000 text_box
      (blank_layer 1920 1080) (paragraphs two_line_caption) = Ok text_image /\
    text_colours text_image = [black; (255, 0, 0, 255); black].
Proof.
  eexists. split; [vm_compute; reflexivity |].
  refine (proj1 (text_colours_follow_runs png_codecs 1920 1080
                   9144000 6858000 text_box two_line_caption _ _)).
  vm_compute. reflexivity.
Defined.

Lemma text_without_position_is_dropped_witness :
  (shape_left unplaced_title = Some None \/
   shape_top unplaced_title = Some None) /\
  visible_runs caption <> [] /\
  shape_layers no_codecs 1920 1080 total_duration 9144000 6858000
    unplaced_title = [].
Proof.
  split; [left; reflexivity |]. split; [discriminate |].
  apply (text_without_position_is_dropped no_codecs 1920 1080 total_duration
           9144000 6858000 unplaced_title caption).
  - left. reflexivity.
  - reflexivity.
  - discriminate.
Defined.

Lemma empty_text_frame_adds_blank_layer_witness :
  shape_text_frame unplaced_blank = Some (Some blank_caption) /\
  visible_runs blank_caption = [] /\
  render_content no_codecs 1920 1080 total_duration 0 0
    unplaced_blank unbound =
  (Ok tt,
   add_layers unbound [still total_duration (blank_layer 1920 1080)]).
Proof.
  split; [reflexivity |]. split; [reflexivity |].
  apply (empty_text_frame_adds_blank_layer no_codecs 1920 1080
           total_duration 0 0 unplaced_blank blank_caption unbound);
    reflexivity.
Defined.

(* ===================================================================== *)
(** * Tables, pictures and patterns *)
(* ===================================================================== *)









Lemma fold_left_rectangles {A} (f : image -> A -> image) k :
  (forall im a,
      count_rectangles (f im a) = (count_rectangles im + k)%nat /\
      image_size (f im a) = image_size im) ->
  forall l im,
    count_rectangles (fold_left f l im) =
    (count_rectangles im + k * List.length l)%nat /\
    image_size (fold_left f l im) = image_size im.
Proof.
  intros Hf. induction l as [| a l IH]; intros im; cbn [fold_left List.length].
  - split; [lia | reflexivity].
  - destruct (IH (f im a)) as [-> ->]. destruct (Hf im a) as [-> ->].
    split; [lia | reflexivity].
Qed.

Lemma py_range_length stop step :
  0 < step ->
  List.length (py_range stop step) = Z.to_nat ((stop + step - 1) / step).
Proof. intros _. unfold py_range. now rewrite length_map, length_seq. Qed.

(** X12: For a frame of non-negative size [create_pattern_background] returns a
    frame-sized image on which every 40-pixel step of the width and of the
    height has drawn two squares, also the steps that the frame covers only
    in part; a frame without area gets none. *)
Theorem pattern_draws_two_squares_per_tile fore back width height :
  0 <= width -> 0 <= height ->
  image_size (create_pattern_background fore back width height)
  = Some (width, height) /\
  count_rectangles (create_pattern_background fore back width height) =
  (2 * (Z.to_nat ((width + 39) / 40) * Z.to_nat ((height + 39) / 40)))%nat /\
  (width = 0 \/ height = 0 ->
   count_rectangles (create_pattern_background fore back width height) = 0%nat).
Proof.
  intros Hw0 Hh0.
  assert (Hboth :
    count_rectangles (create_pattern_background fore back width height) =
    (0 + 2 * List.length (py_range height (pattern_size * 2))
         * List.length (py_range width (pattern_size * 2)))%nat /\
    image_size (create_pattern_background fore back width height)
    = Some (width, height)).
  { unfold create_pattern_background.
    apply (fold_left_rectangles
             (fun im x =>
                fold_left
                  (fun im' y =>
                     Draw_rectangle
                       (Draw_rectangle im'
                          (x, y, x + pattern_size, y + pattern_size)
                          (opaque fore) None)
                       (x + pattern_size, y + pattern_size,
                        x + pattern_size * 2, y + pattern_size * 2)
                       (opaque fore) None)
                  (py_range height (pattern_size * 2)) im)
             (2 * List.length (py_range height (pattern_size * 2)))).
    intros im x.
    apply (fold_left_rectangles
             (fun im' y =>
                Draw_rectangle
                  (Draw_rectangle im'
                     (x, y, x + pattern_size, y + pattern_size)
                     (opaque fore) None)
                  (x + pattern_size, y + pattern_size,
                   x + pattern_size * 2, y + pattern_size * 2)
                  (opaque fore) None) 2).
    intros im' y. cbn [count_rectangles image_size]. split; [lia | reflexivity]. }
  destruct Hboth as [Hc Hs].
  assert (Hcount :
    count_rectangles (create_pattern_background fore back width height) =
    (2 * (Z.to_nat ((width + 39) / 40) * Z.to_nat ((height + 39) / 40)))%nat).
  { rewrite Hc, !py_range_length by reflexivity.
    change (pattern_size * 2) with 40.
    replace (width + 40 - 1) with (width + 39) by lia.
    replace (height + 40 - 1) with (height + 39) by lia.
    lia. }
  split; [exact Hs |]. split; [exact Hcount |].
  intros Hwh. rewrite Hcount.
  assert (Z.to_nat ((width + 39) / 40) = 0%nat \/
          Z.to_nat ((height + 39) / 40) = 0%nat) as [-> | ->]; [| lia | lia].
  destruct Hwh as [-> | ->]; [left | right]; reflexivity.
Qed.

Lemma pattern_draws_two_squares_per_tile_witness :
  0 <= 1920 /\ 0 <= 1080 /\
  count_rectangles
    (create_pattern_background (0, 0, 0) (255, 255, 255) 1920 1080)
  = 2592%nat.
Proof.
  split; [lia |]. split; [lia |].
  apply (proj1 (proj2 (pattern_draws_two_squares_per_tile
                         (0, 0, 0) (255, 255, 255) 1920 1080
                         ltac:(lia) ltac:(lia)))).
Defined.

(* ===================================================================== *)
(** * Further properties of the pipeline and of its caller *)
(* ===================================================================== *)

Lemma convert_pptx_to_video_ok w st st' :
  convert_pptx_to_video w st = (Ok tt, st') ->
  exists prs,
    load_presentation w = Ok prs /\
    slides prs <> [] /\
    encoded st' =
    encoded st ++
    [concatenate_videoclips (process_slides w prs 1 (slides prs) [])].
Proof.
  rewrite convert_pptx_to_video_run.
  destruct (load_presentation w) as [prs | e0]; [| discriminate].
  destruct (process_slides w prs 1 (slides prs) []) as [| c cs] eqn:Eseg;
    [discriminate |].
  cbv zeta.
  destruct (fst (write_videofile w _ _)) as [[] | e1]; [| discriminate].
  intros [= <-]. exists prs. split; [reflexivity |]. split.
  - intros Hnil. rewrite Hnil in Eseg. discriminate.
  - rewrite Eseg. reflexivity.
Qed.

(** X13: [convert_pptx_to_video] raises nothing but [RuntimeError], whose text
    is "Failed to convert PPTX to video: " followed by the text of the
    cause; it hands at most one clip to the encoder, leaves the state
    untouched when it hands none, and returns normally only when the deck
    loaded with at least one slide and the encoder returned. *)
Theorem deck_loop_outcomes w st :
  (forall e st',
      convert_pptx_to_video w st = (Raise e, st') ->
      exn_type e = RuntimeError /\
      exists cause,
        exn_str e = ("Failed to convert PPTX to video: " ++ cause)%string) /\
  (snd (convert_pptx_to_video w st) = st \/
   exists final out,
     snd (convert_pptx_to_video w st) =
     {| output_file := out; encoded := encoded st ++ [final] |}) /\
  (forall st',
      convert_pptx_to_video w st = (Ok tt, st') ->
      exists prs,
        load_presentation w = Ok prs /\
        slides prs <> [] /\
        encoded st' =
        encoded st ++
        [concatenate_videoclips (process_slides w prs 1 (slides prs) [])]).
Proof.
  rewrite convert_pptx_to_video_run.
  destruct (load_presentation w) as [prs | e0].
  - destruct (process_slides w prs 1 (slides prs) []) as [| c cs] eqn:Eseg.
    + split; [| split].
      * intros e st' [= <- <-]. split; [reflexivity |]. eexists. reflexivity.
      * left. reflexivity.
      * intros st' H. discriminate.
    + cbv zeta.
      destruct (fst (write_videofile w _ _)) as [[] | e1] eqn:Ew;
        (split; [| split]).
      * intros e st' H. discriminate.
      * right. eexists _, _. reflexivity.
      * intros st' [= <-]. exists prs. split; [reflexivity |]. split.
        -- intros Hnil. rewrite Hnil in Eseg. discriminate.
        -- rewrite Eseg. reflexivity.
      * intros e st' [= <- <-]. split; [reflexivity |]. eexists. reflexivity.
      * right. eexists _, _. reflexivity.
      * intros st' H. discriminate.
  - split; [| split].
    + intros e st' [= <- <-]. split; [reflexivity |]. eexists. reflexivity.
    + left. reflexivity.
    + intros st' H. discriminate.
Qed.

Lemma deck_loop_outcomes_witness :
  exists e st',
    convert_pptx_to_video (studio (deck_of []) (writes 50000) true) fresh
    = (Raise e, st') /\
    exn_type e = RuntimeError /\
    exists cause,
      exn_str e = ("Failed to convert PPTX to video: " ++ cause)%string.
Proof.
  eexists _, _. split; [vm_compute; reflexivity |].
  apply (proj1 (deck_loop_outcomes (studio (deck_of []) (writes 50000) true)
                  fresh)
               _ fresh).
  vm_compute. reflexivity.
Defined.

Lemma convert_body_preflight_failure w output_path st e :
  (check_imagemagick w = Raise e \/
   (check_imagemagick w = Ok false /\
    e = mk_exn RuntimeError "ImageMagick is not properly configured") \/
   (check_imagemagick w = Ok true /\
    verify_file_type w "officedocument" = false /\
    e = mk_exn ValueError "Invalid PPTX file format")) ->
  convert_body w output_path st = (Raise e, st).
Proof.
  unfold convert_body, bind, lift, raise.
  intros [H | [[H ->] | (H & Hv & ->)]]; rewrite H; simpl;
    [reflexivity | reflexivity |].
  rewrite Hv. reflexivity.
Qed.

(** X14: When a pre-flight check fails nothing is loaded, rendered or
    encoded, yet the handler still tries to delete whatever file was
    already at the output path, and it is gone when [os.remove] succeeds.
    A missing or failing ImageMagick raises [RuntimeError]; an ImageMagick
    whose version banner has fewer than three words raises [IndexError]; a
    missing input file, or one whose name maps to no MIME type, raises
    [ValueError]. *)
Theorem preflight_failure_still_cleans_output w output_path st :
  (convert_version w = None ->
   convert_to_video w output_path st =
   (Raise (mk_exn RuntimeError "ImageMagick is not properly configured"),
    after_cleanup w st)) /\
  (forall words,
      convert_version w = Some words ->
      (List.length words < 3)%nat ->
      exists e,
        convert_to_video w output_path st = (Raise e, after_cleanup w st) /\
        exn_type e = IndexError) /\
  (check_imagemagick w = Ok true ->
   pptx_exists w = false \/ guess_type w = None ->
   convert_to_video w output_path st =
   (Raise (mk_exn ValueError "Invalid PPTX file format"),
    after_cleanup w st)) /\
  encoded (after_cleanup w st) = encoded st /\
  (os_remove_succeeds w = true -> output_file (after_cleanup w st) = None).
Proof.
  split; [| split; [| split; [| split]]].
  - intros H. rewrite convert_to_video_run.
    rewrite (convert_body_preflight_failure w output_path st
               (mk_exn RuntimeError "ImageMagick is not properly configured"));
      [reflexivity |].
    right. left. unfold check_imagemagick. rewrite H. split; reflexivity.
  - intros words H Hlen. rewrite convert_to_video_run.
    exists (mk_exn IndexError "list index out of range").
    rewrite (convert_body_preflight_failure w output_path st
               (mk_exn IndexError "list index out of range"));
      [split; reflexivity |].
    left. unfold check_imagemagick. rewrite H.
    destruct words as [| a [| b [| c ws]]]; try reflexivity.
    simpl in Hlen. lia.
  - intros H Hv. rewrite convert_to_video_run.
    rewrite (convert_body_preflight_failure w output_path st
               (mk_exn ValueError "Invalid PPTX file format"));
      [reflexivity |].
    right. right. split; [exact H |]. split; [| reflexivity].
    unfold verify_file_type.
    destruct Hv as [-> | ->]; [reflexivity |].
    destruct (pptx_exists w); reflexivity.
  - apply after_cleanup_encoded.
  - apply after_cleanup_deleted.
Qed.

(** X15: A success of [convert_to_video] means that every pre-flight check
    passed, the deck loaded with at least one slide, the encoder was called
    exactly once, on the concatenation of the deck's segments, and returned
    normally. *)
Theorem success_means_one_encoding w output_path st st' b :
  convert_to_video w output_path st = (Ok b, st') ->
  preflight_ok w /\
  exists prs,
    load_presentation w = Ok prs /\
    slides prs <> [] /\
    convert_pptx_to_video w st = (Ok tt, st') /\
    encoded st' =
    encoded st ++
    [concatenate_videoclips (process_slides w prs 1 (slides prs) [])].
Proof.
  intros H. rewrite convert_to_video_run in H.
  destruct (convert_body w output_path st) as [[b' | e] s] eqn:E;
    [| discriminate].
  injection H as <- <-.
  unfold convert_body, bind, lift, get, raise, ret in E.
  destruct (check_imagemagick w) as [[|] | e0] eqn:Em; simpl in E;
    try discriminate.
  destruct (verify_file_type w "officedocument") eqn:Ev; simpl in E;
    try discriminate.
  destruct (os_makedirs w) eqn:Ed; simpl in E; try discriminate.
  destruct (convert_pptx_to_video w st) as [[[] | e1] mid] eqn:Ec;
    try discriminate.
  destruct (output_file mid) as [sz |] eqn:Eo; try discriminate.
  destruct (sz <? 1000); try discriminate.
  injection E as <- <-.
  split; [repeat split; assumption |].
  destruct (convert_pptx_to_video_ok w st mid Ec) as (prs & Hl & Hs & He).
  exists prs. repeat split; assumption.
Qed.

Lemma preflight_failure_still_cleans_output_witness :
  let w := {| world_pil := no_codecs; convert_version := None;
              pptx_exists := true; guess_type := None;
              os_path_abspath := fun p => p; os_makedirs := None;
              load_presentation := Ok (deck_of []);
              write_videofile := writes 50000;
              os_remove_succeeds := true |} in
  let st := {| output_file := Some 123456; encoded := [] |} in
  convert_version w = None /\
  convert_to_video w "out.mp4" st =
  (Raise (mk_exn RuntimeError "ImageMagick is not properly configured"),
   after_cleanup w st) /\
  output_file (after_cleanup w st) = None.
Proof.
  cbv zeta. split; [reflexivity |]. split.
  - apply (proj1 (preflight_failure_still_cleans_output
                    {| world_pil := no_codecs; convert_version := None;
                       pptx_exists := true; guess_type := None;
                       os_path_abspath := fun p => p; os_makedirs := None;
                       load_presentation := Ok (deck_of []);
                       write_videofile := writes 50000;
                       os_remove_succeeds := true |}
                    "out.mp4"
                    {| output_file := Some 123456; encoded := [] |})).
    reflexivity.
  - reflexivity.
Defined.

Lemma success_means_one_encoding_witness :
  exists st',
    convert_to_video (studio (deck_of [plain_slide []]) (writes 50000) true)
      "out.mp4" fresh = (Ok true, st') /\
    preflight_ok (studio (deck_of [plain_slide []]) (writes 50000) true).
Proof.
  eexists. split; [vm_compute; reflexivity |].
  refine (proj1 (success_means_one_encoding
                   (studio (deck_of [plain_slide []]) (writes 50000) true)
                   "out.mp4" fresh _ true _)).
  vm_compute. reflexivity.
Defined.

Lemma convert_to_video_ok w output_path st b s :
  convert_to_video w output_path st = (Ok b, s) ->
  b = true /\ exists sz, output_file s = Some sz /\ 1000 <= sz.
Proof.
  rewrite convert_to_video_run.
  destruct (convert_body w output_path st) as [[b' | e'] s'] eqn:Eb;
    [| discriminate].
  intros [= <- <-]. eapply convert_body_ok. exact Eb.
Qed.

(** The inner [try] of the route, by the outcome of [convert_to_video]. *)
Lemma route_convert_run w video_path video_url st :
  route_convert w video_path video_url st =
  match convert_to_video w video_path st with
  | (Ok _, s) =>
      (Ok {| status_code := 200;
             json := [ ("video_path", video_path);
                       ("video_url", video_url);
                       ("message", "Video generated successfully")
                     ]%string |}, s)
  | (Raise e, s) => route_except e s
  end.
Proof.
  unfold route_convert, try_except, route_try.
  unfold bind at 1.
  destruct (convert_to_video w video_path st) as [[b | e] s] eqn:E;
    [| reflexivity].
  destruct (convert_to_video_ok _ _ _ _ _ E) as (-> & sz & Hout & Hsz).
  unfold bind, os_path_exists, os_path_getsize, raise, ret.
  rewrite Hout. cbv beta iota. rewrite Hout. cbv beta iota.
  replace (sz <? 1000) with false by (symmetry; apply Z.ltb_ge; exact Hsz).
  reflexivity.
Qed.

Lemma route_except_run e s :
  exists code err,
    route_except e s =
    (Ok {| status_code := code;
           json := [ ("error", err); ("details", exn_str e) ]%string |}, s) /\
    (exn_type e = ValueError -> code = 422) /\
    (exn_type e <> ValueError -> code = 500) /\
    (code = 422 \/ code = 500).
Proof.
  unfold route_except, ret.
  destruct (exn_type e) eqn:Et; eexists _, _;
    (split; [reflexivity |]);
    (split; [intros H; congruence |]);
    (split; [intros H; congruence |]); auto.
Qed.

Lemma route_convert_returns w video_path video_url st :
  exists resp st', route_convert w video_path video_url st = (Ok resp, st').
Proof.
  rewrite route_convert_run.
  destruct (convert_to_video w video_path st) as [[b | e] s].
  - eexists _, _. reflexivity.
  - destruct (route_except_run e s) as (code & err & -> & _).
    eexists _, _. reflexivity.
Qed.

(** X16: The conversion step of the route never raises and answers 200, 422 or
    500.  It answers 200 exactly when [convert_to_video] returned, and then
    the video at the output path has at least 1000 bytes: the route's own
    size check and its "no video was generated" answer can never fire.  A
    [ValueError] of the pipeline (wrong input format, video too small) is
    answered 422, every other exception 500, and the text of the exception
    is passed on under "details". *)
Theorem route_answers w video_path video_url st :
  exists resp st',
    route_convert w video_path video_url st = (Ok resp, st') /\
    (status_code resp = 200 \/ status_code resp = 422
     \/ status_code resp = 500) /\
    (status_code resp = 200 <->
     exists b, convert_to_video w video_path st = (Ok b, st')) /\
    (status_code resp = 200 ->
     exists sz, output_file st' = Some sz /\ 1000 <= sz) /\
    (forall e s,
        convert_to_video w video_path st = (Raise e, s) ->
        st' = s /\
        (exn_type e = ValueError -> status_code resp = 422) /\
        (exn_type e <> ValueError -> status_code resp = 500) /\
        In ("details", exn_str e)%string (json resp)).
Proof.
  rewrite route_convert_run.
  destruct (convert_to_video w video_path st) as [[b | e] s] eqn:E.
  - destruct (convert_to_video_ok _ _ _ _ _ E) as (-> & sz & Hout & Hsz).
    eexists _, _. split; [reflexivity |]. cbn [status_code json].
    split; [left; reflexivity |].
    split; [split; [intros _; exists true; reflexivity | reflexivity] |].
    split; [intros _; exists sz; split; assumption |].
    intros e s0 H. discriminate.
  - destruct (route_except_run e s) as (code & err & -> & H422 & H500 & Hc).
    eexists _, _. split; [reflexivity |]. cbn [status_code json].
    split; [destruct Hc; auto |].
    split; [split; [intros H; destruct Hc; lia
                   | intros [b H]; discriminate] |].
    split; [intros H; destruct Hc; lia |].
    intros e0 s0 [= <- <-].
    split; [reflexivity |]. split; [exact H422 |]. split; [exact H500 |].
    right. left. reflexivity.
Qed.

(* ===================================================================== *)
(** * The whole [/convert-video] route *)
(* ===================================================================== *)

Lemma prefix_app s t : String.prefix s (s ++ t) = true.
Proof.
  induction s as [| a s IH]; simpl; [destruct t; reflexivity |].
  destruct (ascii_dec a a) as [_ | Hne]; [exact IH | now elim Hne].
Qed.

(** Past the two 400 answers the route is its outer [try]. *)
Lemma convert_run srv req st :
  is_json req = true ->
  falsy (pptx_path_field req) = false ->
  convert srv req st =
  try_except (convert_checked srv (pptx_path_field req)) convert_except st.
Proof. intros H1 H2. unfold convert. rewrite H1, H2. reflexivity. Qed.

(** The body of the outer [try] on a string, once the file exists, lies
    under the upload folder and is small enough. *)
Lemma convert_checked_admitted srv p size st :
  pptx_exists (server_world srv) = true ->
  String.prefix
    (os_path_abspath (server_world srv) (UPLOAD_FOLDER srv))
    (os_path_abspath (server_world srv) p) = true ->
  pptx_getsize srv = Ok size ->
  size <= MAX_CONTENT_LENGTH ->
  convert_checked srv (JStr p) st =
  route_convert (server_world srv) (new_video_path srv) (new_video_url srv)
    st.
Proof.
  intros He Hp Hs Hle. unfold convert_checked, abspath_of.
  unfold bind at 1, lift at 1. rewrite He, Hp. cbn [negb].
  unfold bind at 1, lift at 1. rewrite Hs.
  replace (size >? MAX_CONTENT_LENGTH) with false; [reflexivity |].
  symmetry. rewrite Z.gtb_ltb. apply Z.ltb_ge. exact Hle.
Qed.

(** X17: A 200 answer of the route is a guarantee: the request was JSON and named
    a non-empty path, the file exists, its absolute path starts with the
    absolute path of the upload folder, it has at most 16 MiB,
    [convert_to_video] returned [True], the video at the new path has at
    least 1000 bytes and the answer names that path and its URL. *)
Theorem ok_answer_means_checked_input_and_video srv req st resp st' :
  convert srv req st = (Ok resp, st') ->
  status_code resp = 200 ->
  is_json req = true /\
  (exists p,
      pptx_path_field req = JStr p /\ p <> ""%string /\
      String.prefix
        (os_path_abspath (server_world srv) (UPLOAD_FOLDER srv))
        (os_path_abspath (server_world srv) p) = true) /\
  pptx_exists (server_world srv) = true /\
  (exists size, pptx_getsize srv = Ok size /\ size <= 16777216) /\
  convert_to_video (server_world srv) (new_video_path srv) st
  = (Ok true, st') /\
  (exists sz, output_file st' = Some sz /\ 1000 <= sz) /\
  json resp = [ ("video_path", new_video_path srv);
                ("video_url", new_video_url srv);
                ("message", "Video generated successfully") ]%string.
Proof.
  unfold convert.
  destruct (is_json req) eqn:Ej; cbn [negb];
    [| intros [= <- <-] H; discriminate H].
  destruct (falsy (pptx_path_field req)) eqn:Ef;
    [intros [= <- <-] H; discriminate H |].
  unfold try_except, convert_checked.
  destruct (pptx_path_field req) as [| p | ty truthy] eqn:Ev;
    cbn [abspath_of]; unfold bind at 1, lift at 1;
    try (unfold convert_except, ret; intros [= <- <-] H; discriminate H).
  destruct (pptx_exists (server_world srv)) eqn:Ee; cbn [negb];
    [| unfold ret; intros [= <- <-] H; discriminate H].
  destruct (String.prefix _ _) eqn:Ep; cbn [negb];
    [| unfold ret; intros [= <- <-] H; discriminate H].
  unfold bind at 1, lift at 1.
  destruct (pptx_getsize srv) as [size | e] eqn:Es;
    [| unfold convert_except, ret; intros [= <- <-] H; discriminate H].
  destruct (size >? MAX_CONTENT_LENGTH) eqn:El;
    [unfold ret; intros [= <- <-] H; discriminate H |].
  rewrite route_convert_run.
  destruct (convert_to_video _ _ st) as [[b | e] s] eqn:Ec.
  - destruct (convert_to_video_ok _ _ _ _ _ Ec) as (-> & sz & Hout & Hsz).
    intros [= <- <-] _. cbn [json].
    split; [reflexivity |].
    split.
    { exists p. split; [reflexivity |]. split; [| exact Ep].
      intros ->. discriminate Ef. }
    split; [reflexivity |].
    split.
    { exists size. split; [reflexivity |].
      rewrite Z.gtb_ltb in El. apply Z.ltb_ge in El. exact El. }
    split; [reflexivity |].
    split; [exists sz; split; assumption | reflexivity].
  - destruct (route_except_run e s) as (code & err & -> & _ & _ & Hc).
    intros [= <- <-] H. cbn [status_code] in H. destruct Hc; lia.
Qed.

(** X18: The route never lets an exception escape, answers with one of seven
    status codes, and a 400, 403, 404 or 413 answer means that the request
    was turned away before the pipeline: nothing was encoded and nothing at
    the video path was touched. *)
Theorem rejected_request_touches_nothing srv req st :
  exists resp st',
    convert srv req st = (Ok resp, st') /\
    In (status_code resp) [200; 400; 403; 404; 413; 422; 500] /\
    (In (status_code resp) [400; 403; 404; 413] -> st' = st).
Proof.
  unfold convert.
  destruct (is_json req); cbn [negb];
    [| eexists _, _; split; [reflexivity |]; cbn; split; [| reflexivity];
       auto].
  destruct (falsy (pptx_path_field req));
    [eexists _, _; split; [reflexivity |]; cbn; split; [| reflexivity];
     auto |].
  unfold try_except, convert_checked.
  destruct (pptx_path_field req) as [| p | ty truthy];
    cbn [abspath_of]; unfold bind at 1, lift at 1;
    try (eexists _, _; split; [reflexivity |]; cbn; split; [| reflexivity];
         auto 10).
  destruct (pptx_exists (server_world srv)); cbn [negb];
    [| eexists _, _; split; [reflexivity |]; cbn; split; [| reflexivity];
       auto 10].
  destruct (String.prefix _ _); cbn [negb];
    [| eexists _, _; split; [reflexivity |]; cbn; split; [| reflexivity];
       auto 10].
  unfold bind at 1, lift at 1.
  destruct (pptx_getsize srv) as [size | e];
    [| eexists _, _; split; [reflexivity |]; cbn; split; [| reflexivity];
       auto 10].
  destruct (size >? MAX_CONTENT_LENGTH);
    [eexists _, _; split; [reflexivity |]; cbn; split; [| reflexivity];
     auto 10 |].
  rewrite route_convert_run.
  destruct (convert_to_video _ _ st) as [[b | e] s].
  - eexists _, _. split; [reflexivity |]. cbn [status_code In].
    split; [auto |]. intros H. lia.
  - destruct (route_except_run e s) as (code & err & -> & _ & _ & Hc).
    eexists _, _. split; [reflexivity |]. cbn [status_code In].
    split; [destruct Hc; auto 10 |]. intros H. destruct Hc; lia.
Qed.

(** X19: The folder check compares texts, not path components: every existing
    file of at most 16 MiB whose absolute path begins with the text of the
    upload folder's absolute path is handed to the pipeline, whatever
    follows that text. *)
Theorem folder_check_is_a_text_prefix srv p suffix size st :
  p <> ""%string ->
  pptx_exists (server_world srv) = true ->
  os_path_abspath (server_world srv) p =
  (os_path_abspath (server_world srv) (UPLOAD_FOLDER srv) ++ suffix)%string ->
  pptx_getsize srv = Ok size ->
  size <= 16777216 ->
  convert srv (post p) st =
  route_convert (server_world srv) (new_video_path srv) (new_video_url srv)
    st.
Proof.
  intros Hp He Ha Hs Hle.
  rewrite convert_run; cbn [post is_json pptx_path_field falsy];
    [| reflexivity | now apply String.eqb_neq].
  unfold try_except.
  rewrite (convert_checked_admitted srv p size st He); [| | exact Hs | exact Hle].
  - destruct (route_convert_returns (server_world srv) (new_video_path srv)
                (new_video_url srv) st) as (resp & st' & ->).
    reflexivity.
  - rewrite Ha. apply prefix_app.
Qed.

Lemma ok_answer_means_checked_input_and_video_witness :
  exists resp st',
    convert (server_of (studio (deck_of [plain_slide []]) (writes 50000) true)
               4096)
      (post "/srv/uploads/deck.pptx") fresh = (Ok resp, st') /\
    status_code resp = 200 /\
    exists sz, output_file st' = Some sz /\ 1000 <= sz.
Proof.
  eexists _, _. split; [vm_compute; reflexivity |].
  split; [reflexivity |].
  refine (proj1 (proj2 (proj2 (proj2 (proj2 (proj2
            (ok_answer_means_checked_input_and_video
               (server_of (studio (deck_of [plain_slide []]) (writes 50000)
                            true) 4096)
               (post "/srv/uploads/deck.pptx") fresh _ _ _ _))))))).
  - vm_compute. reflexivity.
  - reflexivity.
Defined.

Lemma folder_check_is_a_text_prefix_witness :
  let srv := server_of (studio (deck_of [plain_slide []]) (writes 50000) true)
               4096 in
  convert srv (post "/srv/uploads_old/deck.pptx") fresh =
  route_convert (server_world srv) (new_video_path srv) (new_video_url srv)
    fresh.
Proof.
  cbv zeta.
  apply (folder_check_is_a_text_prefix
           (server_of (studio (deck_of [plain_slide []]) (writes 50000) true)
              4096)
           "/srv/uploads_old/deck.pptx" "_old/deck.pptx" 4096 fresh).
  - discriminate.
  - reflexivity.
  - reflexivity.
  - reflexivity.
  - vm_compute. discriminate.
Defined.

(* ===================================================================== *)
(** * Pixel geometry of a shape *)
(* ===================================================================== *)

Section Geometry.

Variable pil : Pillow.
Variables width height : Z.
Variable duration : float.
Variables slide_width_emus slide_height_emus : Z.

(** Text reads the position of its shape and nothing else of its
    geometry. *)
Lemma draw_runs_position_only shape other rs im :
  shape_left other = shape_left shape ->
  shape_top other = shape_top shape ->
  draw_runs pil width height slide_width_emus slide_height_emus other im rs =
  draw_runs pil width height slide_width_emus slide_height_emus shape im rs.
Proof.
  intros Hl Ht. revert im.
  induction rs as [| r rs IH]; intros im; simpl; [reflexivity |].
  unfold draw_run. rewrite Hl, Ht.
  destruct (String.eqb (strip (run_text r)) ""); cbn [rbind]; [apply IH |].
  destruct (font_size_of r) as [font_size |]; cbn [rbind]; [| reflexivity].
  destruct (emu_to_px (attr_or (shape_left shape) 0) _ _) as [x |];
    cbn [rbind]; [| reflexivity].
  destruct (emu_to_px (attr_or (shape_top shape) 0) _ _) as [y |];
    cbn [rbind]; [apply IH | reflexivity].
Qed.

Lemma draw_paragraphs_position_only shape other ps im :
  shape_left other = shape_left shape ->
  shape_top other = shape_top shape ->
  draw_paragraphs pil width height slide_width_emus slide_height_emus
    other im ps =
  draw_paragraphs pil width height slide_width_emus slide_height_emus
    shape im ps.
Proof.
  intros Hl Ht. revert im.
  induction ps as [| p ps IH]; intros im; simpl; [reflexivity |].
  rewrite (draw_runs_position_only shape other _ _ Hl Ht).
  destruct (draw_runs _ _ _ _ _ shape im (runs p)); cbn [rbind];
    [apply IH | reflexivity].
Qed.

(** C4, as the code has it: pixel geometry comes from one conversion,
    [int((native_coord / native_total) * output_pixels)] with the deck
    extent and the frame extent of the coordinate's own axis, for any deck
    size, but not every shape puts all four of left, top, width and height
    through it.  The rectangle of a solid fill and the box of a picture
    convert all four (with different defaults for a missing width or
    height); text converts left and top only, draws every visible run at
    that one point and never reads width or height; a table converts none
    of them and is drawn from the table and the frame alone.  The division
    and the product are evaluated in double precision and the result is
    truncated, which for a non-negative coordinate gives the integer part
    of the exact value [coord * out / total] or one less than it, the
    latter only when [total] divides [coord * out]. *)
Theorem geometry_uses_one_conversion shape :
  (forall fill color x y w h l,
      shape_fill shape = Some fill ->
      fill_type fill = Some MSO_FILL_TYPE.SOLID ->
      fore_color_rgb fill = Some color ->
      emu_to_px (attr_or (shape_left shape) 0) slide_width_emus width
      = Ok x ->
      emu_to_px (attr_or (shape_top shape) 0) slide_height_emus height
      = Ok y ->
      emu_to_px (attr_or (shape_width shape) width) slide_width_emus width
      = Ok w ->
      emu_to_px (attr_or (shape_height shape) height) slide_height_emus
        height = Ok h ->
      render_fill width height duration slide_width_emus slide_height_emus
        shape l =
      (Ok tt,
       add_layers l
         [still duration
            (Draw_rectangle (blank_layer width height)
               (x, y, x + w, y + h) (opaque color) None)])) /\
  (forall x y w h,
      emu_to_px (attr_or (shape_left shape) 0) slide_width_emus width
      = Ok x ->
      emu_to_px (attr_or (shape_top shape) 0) slide_height_emus height
      = Ok y ->
      emu_to_px (attr_or (shape_width shape) (slide_width_emus / 2))
        slide_width_emus width = Ok w ->
      emu_to_px (attr_or (shape_height shape) (slide_height_emus / 2))
        slide_height_emus height = Ok h ->
      picture_box width height slide_width_emus slide_height_emus shape
      = Ok (x, y, w, h) /\
      (forall blob p resized l,
          Image_open pil blob = Some p ->
          String.eqb (pil_format p) "GIF" && pil_is_animated p = false ->
          resize (if String.eqb (pil_mode p) "RGBA"
                  then Frame_of blob 0
                  else Convert (Frame_of blob 0) RGBA) (w, h) = Ok resized ->
          render_picture pil width height duration slide_width_emus
            slide_height_emus shape blob l =
          (Ok tt,
           add_layers l
             [still duration
                (Paste (blank_layer width height) resized (x, y))])) /\
      (forall blob p frames durations gif_clip l,
          Image_open pil blob = Some p ->
          String.eqb (pil_format p) "GIF" && pil_is_animated p = true ->
          gif_frames blob w h 0 (pil_frames p) = Ok (frames, durations) ->
          mk_ImageSequenceClip frames durations = Ok gif_clip ->
          render_picture pil width height duration slide_width_emus
            slide_height_emus shape blob l =
          (Ok tt,
           add_layers l
             [set_duration (set_position gif_clip (At x y))
                (Some duration)]))) /\
  (forall tf x y text_image,
      emu_to_px (attr_or (shape_left shape) 0) slide_width_emus width
      = Ok x ->
      emu_to_px (attr_or (shape_top shape) 0) slide_height_emus height
      = Ok y ->
      draw_paragraphs pil width height slide_width_emus slide_height_emus
        shape (blank_layer width height) (paragraphs tf) = Ok text_image ->
      text_origins text_image =
      repeat (x, y) (List.length (visible_runs tf)) /\
      forall other,
        shape_left other = shape_left shape ->
        shape_top other = shape_top shape ->
        draw_paragraphs pil width height slide_width_emus slide_height_emus
          other (blank_layer width height) (paragraphs tf) = Ok text_image) /\
  (forall tbl l,
      shape_text_frame shape = None \/ shape_text_frame shape = Some None ->
      shape_type shape = Some MSO_SHAPE_TYPE.TABLE ->
      shape_table shape = Some tbl ->
      render_content pil width height duration slide_width_emus
        slide_height_emus shape l =
      render_table pil width height duration tbl l) /\
  (forall v total out,
      0 <= v -> 0 < total < 2 ^ 53 -> 0 < out < 2 ^ 53 ->
      v * out < 2 ^ 50 ->
      exists p,
        emu_to_px (Some v) total out = Ok p /\
        (p = v * out / total \/
         (p = v * out / total - 1 /\ (v * out) mod total = 0))).
Proof.
  split; [| split; [| split; [| split]]].
  - intros fill color x y w h l Hfill Htype Hcolor Hx Hy Hw Hh.
    now apply (render_fill_run width height duration slide_width_emus
                 slide_height_emus shape fill).
  - intros x y w h Hx Hy Hw Hh.
    assert (Hbox :
      picture_box width height slide_width_emus slide_height_emus shape
      = Ok (x, y, w, h)).
    { unfold picture_box. rewrite Hx, Hy, Hw, Hh. reflexivity. }
    split; [exact Hbox | split].
    + intros blob p resized l Hopen Hgif Hres.
      unfold render_picture, bind, lift. rewrite Hopen, Hgif, Hbox, Hres.
      reflexivity.
    + intros blob p frames durations gif_clip l Hopen Hgif Hframes Hclip.
      unfold render_picture, bind, lift.
      rewrite Hopen, Hgif, Hbox, Hframes. cbn [fst snd]. rewrite Hclip.
      reflexivity.
  - intros tf x y text_image Hx Hy Hdraw. split.
    + rewrite (draw_paragraphs_origins pil width height slide_width_emus
                 slide_height_emus shape x y _ _ _ Hx Hy Hdraw).
      reflexivity.
    + intros other Hl Ht.
      rewrite (draw_paragraphs_position_only shape other _ _ Hl Ht).
      exact Hdraw.
  - intros tbl l Hntf Hty Htbl. unfold render_content.
    replace (MSO_SHAPE_TYPE.is_picture (shape_type shape)) with false
      by now rewrite Hty.
    replace (MSO_SHAPE_TYPE.is_table (shape_type shape)) with true
      by now rewrite Hty.
    rewrite Htbl. destruct Hntf as [-> | ->]; reflexivity.
  - intros v total out Hv0 HT Hout HX.
    destruct (Z.eq_dec v 0) as [-> | Hvne].
    + exists 0. split; [apply scaled_zero; [lia | exact Hout] |].
      left. reflexivity.
    + destruct (scaled_quotient_floor v total out ltac:(lia) HT Hout HX)
        as (q & p & Hq & Ho & Hp & Hfloor).
      exists p. split; [| exact Hfloor].
      unfold emu_to_px. rewrite Hq, Ho. cbn [rbind]. exact Hp.
Qed.

End Geometry.

(** C4, counterexample.  On the default 9144000 EMU wide deck a shape
    1171575 EMU from the left edge sits at exactly 246 px
    (1171575 * 1920 = 246 * 9144000), yet the code computes 245 and draws
    the fill rectangle from x = 245: the double-precision product falls
    just below 246 and [int] truncates it.  And a table is not scaled at
    all: placed at the origin or in the middle of the slide, a quarter or
    a hundredth of the slide wide, it renders to the same layer, with its
    first cell on the frame's top-left quarter. *)
Lemma pixel_one_below_exact_quotient :
  1171575 * 1920 = 246 * 9144000 /\
  emu_to_px (Some 1171575) 9144000 1920 = Ok 245 /\
  render_fill 1920 1080 total_duration 9144000 6858000 red_box unbound =
  (Ok tt,
   add_layers unbound
     [still total_duration
        (Draw_rectangle (blank_layer 1920 1080)
           (245, 0, 245 + 480, 0 + 270) (255, 0, 0, 255) None)]) /\
  shape_layers no_codecs 1920 1080 total_duration 9144000 6858000
    (table_shape 0 0 2286000 1714500) =
  shape_layers no_codecs 1920 1080 total_duration 9144000 6858000
    (table_shape 4572000 3429000 91440 68580) /\
  (exists table_image,
      shape_layers no_codecs 1920 1080 total_duration 9144000 6858000
        (table_shape 4572000 3429000 91440 68580)
      = [still total_duration table_image] /\
      exists rest,
        table_image =
        rest (Draw_rectangle (blank_layer 1920 1080) (0, 0, 960, 540)
                white (Some black))).
Proof.
  split; [reflexivity |].
  split; [vm_compute; reflexivity |].
  split; [vm_compute; reflexivity |].
  split; [vm_compute; reflexivity |].
  eexists. split; [vm_compute; reflexivity |].
  exists (fun first =>
            Draw_rectangle
              (Draw_text
                 (Draw_rectangle
                    (Draw_text
                       (Draw_rectangle
                          (Draw_text first (5, 5) "a" DefaultFont black)
                          (960, 0, 1920, 540) white (Some black))
                       (965, 5) "b" DefaultFont black)
                    (0, 540, 960, 1080) white (Some black))
                 (5, 545) "c" DefaultFont black)
              (960, 540, 1920, 1080) white (Some black)).
  vm_compute. reflexivity.
Qed.

Lemma geometry_uses_one_conversion_witness :
  render_fill 1920 1080 total_duration 9144000 6858000 red_box unbound =
  (Ok tt,
   add_layers unbound
     [still total_duration
        (Draw_rectangle (blank_layer 1920 1080)
           (245, 0, 245 + 480, 0 + 270) (opaque (255, 0, 0)) None)]) /\
  (exists p,
      emu_to_px (Some 1171575) 9144000 1920 = Ok p /\
      (p = 1171575 * 1920 / 9144000 \/
       (p = 1171575 * 1920 / 9144000 - 1 /\
        (1171575 * 1920) mod 9144000 = 0))).
Proof.
  pose proof (geometry_uses_one_conversion no_codecs 1920 1080
                total_duration 9144000 6858000 red_box)
    as (Hfill & _ & _ & _ & Hpx).
  split.
  - apply (Hfill red_fill (255, 0, 0) 245 0 480 270 unbound);
      vm_compute; reflexivity.
  - apply Hpx; [lia | split; reflexivity | split; reflexivity | reflexivity].
Defined.
